(** * Camera monitoring bot: acquisition, motion detection, alert dispatch

    A shallow embedding of the two revisions of the bot,
    [tgalert2-stable.py] (module [Stable]) and [tgalert3-halfpoop.py]
    (module [HalfPoop]), and the properties of their camera registry,
    frame source, motion detector and alert dispatcher.

    Python dictionaries are finite maps ([gmap]); the objects that the
    program mutates in place (numpy arrays, [cv2.VideoCapture] handles) live
    in explicit stores addressed by locations; a [try]/[except] block is an
    error value threaded through a state monad; the answers of the outside
    world (clock, network, Telegram, file system) are arguments of the
    function that asks for them. *)

From Stdlib Require Import ZArith QArith Lqa Ascii.
From stdpp Require Import base option list gmap strings pretty.

#[local] Open Scope Z_scope.

(** ** The OpenCV functions the detector calls *)

Module Cv2.

(** A single-channel 8-bit image ([numpy.ndarray] of dtype uint8 and two
    dimensions): its rows, each a list of intensities in 0..255. *)
Abbreviation Mat := (list (list Z)).

(** [m.shape]: number of rows and of columns. *)
Definition mat_shape (m : Mat) : nat * nat :=
  (length m, match m with [] => 0%nat | row :: _ => length row end).

Definition all_zero (m : Mat) : Prop := Forall (Forall (λ v, v = 0)) m.

(** [cv2.absdiff(a, b)]: the element-wise |a - b| of two arrays of one
    shape. On two uint8 arrays of different shapes, an array of a single
    element included, OpenCV raises [cv2.error] ("The operation is neither
    'array op array' (where arrays have the same size and the same number
    of channels), nor 'array op scalar', nor 'scalar op array'"), which is
    [None] here. *)
Definition absdiff (a b : Mat) : option Mat :=
  if decide (mat_shape a = mat_shape b)
  then Some (zip_with (zip_with (λ x y, Z.abs (x - y))) a b)
  else None.

(** [cv2.threshold(src, thresh, maxval, cv2.THRESH_BINARY)[1]]. *)
Definition threshold (src : Mat) (thresh maxval : Z) : Mat :=
  map (map (λ v, if thresh <? v then maxval else 0)) src.

(** [np.ones((h, w), np.uint8)]. *)
Definition ones (h w : nat) : Mat := replicate h (replicate w 1).

(** The offsets, relative to the anchor at the kernel centre, of the
    non-zero elements of a structuring element. *)
Definition kernel_offsets (kernel : Mat) : list (Z * Z) :=
  let ay := Z.of_nat (length kernel) / 2 in
  concat (imap (λ i row,
    let ax := Z.of_nat (length row) / 2 in
    omap (λ '(j, v), if decide (v = 0) then None
                     else Some (Z.of_nat i - ay, Z.of_nat j - ax))
         (imap (λ j v, (j, v)) row)) kernel).

Definition pixel (m : Mat) (r c : Z) : option Z :=
  if decide (0 ≤ r ∧ 0 ≤ c)
  then row ← m !! Z.to_nat r; row !! Z.to_nat c
  else None.

(** The source pixels under the structuring element placed at (r, c).
    Positions outside the image are left out: the default border of
    [cv2.dilate] is below every intensity and that of [cv2.erode] above. *)
Definition window (src : Mat) (offsets : list (Z * Z)) (r c : nat) : list Z :=
  omap (λ '(dr, dc), pixel src (Z.of_nat r + dr) (Z.of_nat c + dc)) offsets.

Definition morph (pick : Z → Z → Z) (border : Z) (src kernel : Mat) : Mat :=
  let offsets := kernel_offsets kernel in
  imap (λ r row, imap (λ c _, foldr pick border (window src offsets r c)) row) src.

(** [cv2.dilate(src, kernel, iterations=n)]: n passes of the local maximum. *)
Definition dilate (src kernel : Mat) (iterations : nat) : Mat :=
  Nat.iter iterations (λ m, morph Z.max 0 m kernel) src.

(** [cv2.erode(src, kernel, iterations=n)]: n passes of the local minimum. *)
Definition erode (src kernel : Mat) (iterations : nat) : Mat :=
  Nat.iter iterations (λ m, morph Z.min 255 m kernel) src.

(** The remaining OpenCV entry points are taken as an interface: colour
    conversion, Gaussian smoothing, contour extraction and measurement,
    drawing and JPEG encoding. [Frame] is a decoded 8-bit BGR image, as
    [cv2.imdecode(..., cv2.IMREAD_COLOR)] and [VideoCapture.read] return it;
    on such an image [cvtColor], [GaussianBlur] and [findContours] do not
    raise. [rectangle] yields the image after drawing ([None]: it raised,
    as it does on a malformed colour or thickness); [imencode] yields the
    encoded bytes ([None]: it raised). *)
Class Ops (Frame Contour : Type) : Type := {
  frame_shape : Frame → nat * nat;
  cvtColor : Frame → Mat;                          (* cv2.COLOR_BGR2GRAY *)
  GaussianBlur : Mat → nat * nat → Z → Mat;
  findContours : Mat → list Contour;               (* RETR_EXTERNAL, CHAIN_APPROX_SIMPLE *)
  contourArea : Contour → Q;
  boundingRect : Contour → Z * Z * Z * Z;
  rectangle : Frame → Z * Z → Z * Z → list Z → Z → option Frame;
  imencode : string → Frame → option (list Z);
}.

(** What the proofs use of that interface: conversion and smoothing keep
    the image size, and an image without a non-zero pixel has no contour. *)
Class Laws `(ops : Ops Frame Contour) : Prop := {
  cvtColor_shape : ∀ f, mat_shape (cvtColor f) = frame_shape f;
  GaussianBlur_shape : ∀ m ksize sigma,
    mat_shape (GaussianBlur m ksize sigma) = mat_shape m;
  findContours_blank : ∀ m, all_zero m → findContours m = [];
}.

End Cv2.

(** ** Python values, exceptions and strings *)

Module Py.

Inductive exn : Type :=
  | Cv2Error          (* cv2.error *)
  | TypeError
  | KeyError
  | ValueError
  | OSError
  | RequestException  (* requests.exceptions.RequestException *)
  | TelegramError.    (* telegram.error.TelegramError *)

(** How a call ends: it returns a value or an exception leaves it. *)
Inductive outcome (A : Type) : Type :=
  | Returns (a : A)
  | Raises (e : exn).
Arguments Returns {A} a.
Arguments Raises {A} e.

(** The objects returned by the functions that return [None] or a bool. *)
Inductive value : Type :=
  | PyNone
  | PyBool (b : bool).

(** [bool(v)]: [None] is false. *)
Definition truthy (v : value) : bool :=
  match v with PyNone => false | PyBool b => b end.

(** [str.lower] (on the ASCII letters). *)
Definition lower_char (c : Ascii.ascii) : Ascii.ascii :=
  let n := Ascii.nat_of_ascii c in
  if ((65 <=? n) && (n <=? 90))%nat then Ascii.ascii_of_nat (n + 32) else c.

Fixpoint lower (s : string) : string :=
  match s with
  | EmptyString => EmptyString
  | String c rest => String (lower_char c) (lower rest)
  end.

(** [needle in hay] on strings. *)
Fixpoint contains (needle hay : string) : bool :=
  String.prefix needle hay ||
  match hay with
  | EmptyString => false
  | String _ rest => contains needle rest
  end.

(** Computations on a world [W] that may raise. A raised exception keeps
    the changes made before it. *)
Definition M (W A : Type) : Type := W → outcome A * W.

#[export] Instance M_ret {W : Type} : MRet (M W) := λ A a w, (Returns a, w).
#[export] Instance M_bind {W : Type} : MBind (M W) := λ A B f m w,
  match m w with
  | (Returns a, w') => f a w'
  | (Raises e, w') => (Raises e, w')
  end.

Section Monad.
Context {W : Type}.

Definition raise {A : Type} (e : exn) : M W A := λ w, (Raises e, w).
Definition gets {A : Type} (f : W → A) : M W A := λ w, (Returns (f w), w).
Definition modify (f : W → W) : M W () := λ w, (Returns (), f w).

(** [try: body except Exception as e: handler e]. *)
Definition try_except {A : Type} (body : M W A) (handler : exn → M W A) : M W A := λ w,
  match body w with
  | (Returns a, w') => (Returns a, w')
  | (Raises e, w') => handler e w'
  end.

(** [try: body finally: final]. *)
Definition try_finally {A : Type} (body : M W A) (final : M W ()) : M W A := λ w,
  let '(r, w') := body w in
  match final w' with
  | (Returns _, w'') => (r, w'')
  | (Raises e, w'') => (Raises e, w'')
  end.

(** A library call that raises is [None]. *)
Definition lift {A : Type} (e : exn) (r : option A) : M W A :=
  match r with Some a => mret a | None => raise e end.

End Monad.

End Py.

(** ** tgalert3-halfpoop.py *)

Module HalfPoop.
Import Py.

(** Addresses of numpy arrays and of [cv2.VideoCapture] objects. *)
Abbreviation loc := positive (only parsing).
Abbreviation handle := positive (only parsing).

(** The configuration dictionary of [load_config]. A camera entry is the
    JSON object of that camera (keys ["url"], ["user"], ["password"]). *)
Record Config : Type := {
  token : string;
  admin_chat_id : string;
  cameras : gmap string (gmap string string);
  motion_enabled : bool;
  cooldown : Q;
  threshold : Z;
  check_interval : Q;
  timeout : Q;
  draw_contours : bool;
  contour_color : list Z;
  contour_thickness : Z;
  min_contour_area : Q;
  frame_width : Z;
  frame_height : Z;
}.

Definition default_config : Config := {|
  token := "YOUR_BOT_TOKEN";
  admin_chat_id := "YOUR_CHAT_ID";
  cameras := ∅;
  motion_enabled := true;
  cooldown := 30;
  threshold := 30000;
  check_interval := 5;
  timeout := 10;
  draw_contours := true;
  contour_color := [0; 255; 0];
  contour_thickness := 2;
  min_contour_area := 1000;
  frame_width := 800;
  frame_height := 600;
|}.

(** The fields of [CameraSystem] that the program reads or writes
    ([background_subtractor] and [motion_history] are never used). *)
Record CameraSystem : Type := {
  config : Config;
  prev_frames : gmap string Cv2.Mat;
  camera_status : gmap string bool;
  last_notification : Q;
  mjpeg_streams : gmap string handle;
}.

(** [CameraSystem.__init__] on a loaded configuration. *)
Definition init (cfg : Config) : CameraSystem := {|
  config := cfg;
  prev_frames := ∅;
  camera_status := ∅;
  last_notification := 0;
  mjpeg_streams := ∅;
|}.

Definition with_prev_frames (f : gmap string Cv2.Mat → gmap string Cv2.Mat)
    (s : CameraSystem) : CameraSystem :=
  {| config := config s; prev_frames := f (prev_frames s);
     camera_status := camera_status s; last_notification := last_notification s;
     mjpeg_streams := mjpeg_streams s |}.
Definition with_last_notification (t : Q) (s : CameraSystem) : CameraSystem :=
  {| config := config s; prev_frames := prev_frames s;
     camera_status := camera_status s; last_notification := t;
     mjpeg_streams := mjpeg_streams s |}.
Definition with_mjpeg_streams (f : gmap string handle → gmap string handle)
    (s : CameraSystem) : CameraSystem :=
  {| config := config s; prev_frames := prev_frames s;
     camera_status := camera_status s; last_notification := last_notification s;
     mjpeg_streams := f (mjpeg_streams s) |}.

(** What the program does to the outside world, in order. Of a printed
    line the text before the exception's own message is kept. *)
Inductive event : Type :=
  | Printed (msg : string)
  | StreamRead (h : handle)
  | StreamRelease (h : handle)
  | VideoCapture (url : string)
  | HttpGet (url : string)
  | SendPhoto (chat_id : string) (photo : list Z) (caption : string) (delivered : bool).

(** The alerts that reached Telegram, and the captures the program tried
    to open, among some events. *)
Definition is_delivery (ev : event) : bool :=
  match ev with SendPhoto _ _ _ true => true | _ => false end.
Definition deliveries (t : list event) : nat := length (List.filter is_delivery t).

Definition is_open (ev : event) : bool :=
  match ev with VideoCapture _ => true | _ => false end.
Definition opens (t : list event) : nat := length (List.filter is_open t).

(** The answers of the network to one fetch. [next_read]: what [read()] on
    the stored capture gives ([None]: [ret] is false). [connect]: what
    opening a new capture gives, and the first [read()] on it. [http]: what
    [requests.get] gives, with the body as [cv2.imdecode] decodes it
    ([None]: not an image). *)
Inductive connect_outcome (Frame : Type) : Type :=
  | ConnectRaises
  | ConnectClosed
  | ConnectOpened (first_read : option Frame).
Arguments ConnectRaises {Frame}.
Arguments ConnectClosed {Frame}.
Arguments ConnectOpened {Frame} first_read.

Record stream_io (Frame : Type) : Type := {
  next_read : option Frame;
  connect : connect_outcome Frame;
}.
Arguments next_read {Frame} s.
Arguments connect {Frame} s.

Inductive http_outcome (Frame : Type) : Type :=
  | HttpRaises
  | HttpResponse (status_code : Z) (decoded : option Frame).
Arguments HttpRaises {Frame}.
Arguments HttpResponse {Frame} status_code decoded.

Section Model.
Context {Frame Contour : Type} {cv : Cv2.Ops Frame Contour}.

(** [urllib.parse.urlparse(url).path] ([None]: [urlparse] raises
    [ValueError], as it does on a url with an unbalanced bracket in its
    host). *)
Variable urlparse_path : string → option string.

(** The system object, the store of BGR arrays, the store of capture
    objects (is the capture open?) and the events so far. *)
Record World : Type := {
  self : CameraSystem;
  arrays : gmap loc Frame;
  captures : gmap handle bool;
  trace : list event;
}.

Definition with_self (f : CameraSystem → CameraSystem) (w : World) : World :=
  {| self := f (self w); arrays := arrays w; captures := captures w; trace := trace w |}.
Definition with_arrays (f : gmap loc Frame → gmap loc Frame) (w : World) : World :=
  {| self := self w; arrays := f (arrays w); captures := captures w; trace := trace w |}.
Definition with_captures (f : gmap handle bool → gmap handle bool) (w : World) : World :=
  {| self := self w; arrays := arrays w; captures := f (captures w); trace := trace w |}.
Definition with_trace (f : list event → list event) (w : World) : World :=
  {| self := self w; arrays := arrays w; captures := captures w; trace := f (trace w) |}.

Abbreviation M := (Py.M World).

Definition emit (ev : event) : M () := modify (with_trace (λ t, t ++ [ev])).
Definition print (msg : string) : M () := emit (Printed msg).

(** Reading the array behind a reference; what is not an array makes the
    OpenCV call that receives it raise. *)
Definition deref (l : loc) : M Frame :=
  img ← gets (λ w, arrays w !! l); lift Cv2Error img.

(** A new array object. *)
Definition alloc (img : Frame) : M loc :=
  l ← gets (λ w, fresh (dom (arrays w)));
  modify (with_arrays (insert l img));;
  mret l.

(** [frame.copy()]. *)
Definition copy (frame : loc) : M loc := img ← deref frame; alloc img.

(** [cv2.rectangle(img, pt1, pt2, color, thickness)] draws into [img]. *)
Definition draw_rectangle (l : loc) (pt1 pt2 : Z * Z) (color : list Z) (thickness : Z)
  : M () :=
  img ← deref l;
  img' ← lift Cv2Error (Cv2.rectangle img pt1 pt2 color thickness);
  modify (with_arrays (insert l img')).

Definition set_prev_frame (cam_id : string) (gray : Cv2.Mat) : M () :=
  modify (with_self (with_prev_frames (insert cam_id gray))).

Definition set_last_notification (t : Q) : M () :=
  modify (with_self (with_last_notification t)).

Definition set_mjpeg_streams (f : gmap string handle → gmap string handle) : M () :=
  modify (with_self (with_mjpeg_streams f)).

(** *** calculate_motion *)

(** The loop [for contour in contours] of [calculate_motion], from the
    current value of [motion_detected]. *)
Fixpoint mark_contours (contours : list Contour) (processed_frame : loc)
    (motion_detected : bool) : M bool :=
  match contours with
  | [] => mret motion_detected
  | contour :: rest =>
      cfg ← gets (λ w, config (self w));
      if Qlt_le_dec (Cv2.contourArea contour) (min_contour_area cfg)
      then mark_contours rest processed_frame motion_detected
      else
        (if draw_contours cfg
         then
           let '(x, y, w, h) := Cv2.boundingRect contour in
           draw_rectangle processed_frame (x, y) (x + w, y + h)
             (contour_color cfg) (contour_thickness cfg)
         else mret ());;
        mark_contours rest processed_frame true
  end.

(** The same loop as a function of the image behind [processed_frame]:
    how the loop ends, and the image it leaves. *)
Fixpoint mark_image (cfg : Config) (contours : list Contour) (img : Frame)
    (motion_detected : bool) : outcome bool * Frame :=
  match contours with
  | [] => (Returns motion_detected, img)
  | contour :: rest =>
      if Qlt_le_dec (Cv2.contourArea contour) (min_contour_area cfg)
      then mark_image cfg rest img motion_detected
      else if draw_contours cfg
      then
        let '(x, y, w, h) := Cv2.boundingRect contour in
        match Cv2.rectangle img (x, y) (x + w, y + h)
                (contour_color cfg) (contour_thickness cfg) with
        | Some img' => mark_image cfg rest img' true
        | None => (Raises Cv2Error, img)
        end
      else mark_image cfg rest img true
  end.

(** The body of the [try] block. *)
Definition calculate_motion_try (frame : loc) (cam_id : string) : M (bool * loc) :=
  img ← deref frame;
  let gray := Cv2.cvtColor img in
  let gray := Cv2.GaussianBlur gray (21%nat, 21%nat) 0 in
  prev ← gets (λ w, prev_frames (self w) !! cam_id);
  match prev with
  | None =>
      set_prev_frame cam_id gray;;
      mret (false, frame)
  | Some prev_gray =>
      frame_diff ← lift Cv2Error (Cv2.absdiff prev_gray gray);
      let thresh := Cv2.threshold frame_diff 25 255 in
      let kernel := Cv2.ones 5 5 in
      let thresh := Cv2.dilate thresh kernel 2 in
      let thresh := Cv2.erode thresh kernel 1 in
      let contours := Cv2.findContours thresh in
      processed_frame ← copy frame;
      motion_detected ← mark_contours contours processed_frame false;
      set_prev_frame cam_id gray;;
      mret (motion_detected, processed_frame)
  end.

Definition calculate_motion (frame : loc) (cam_id : string) : M (bool * loc) :=
  try_except (calculate_motion_try frame cam_id)
    (λ e, print "Ошибка детекции движения";; mret (false, frame)).

(** Names for two intermediate values of [calculate_motion]: [gray] after
    the blur, and [contours]. *)
Definition blurred_gray (img : Frame) : Cv2.Mat :=
  Cv2.GaussianBlur (Cv2.cvtColor img) (21%nat, 21%nat) 0.

Definition contours_of (frame_diff : Cv2.Mat) : list Contour :=
  Cv2.findContours
    (Cv2.erode (Cv2.dilate (Cv2.threshold frame_diff 25 255) (Cv2.ones 5 5) 2)
       (Cv2.ones 5 5) 1).

(** *** send_alert *)

(** [await self.bot.send_photo(...)]: a delivery that fails raises. *)
Definition send_photo (chat_id : string) (photo : list Z) (caption : string)
    (delivered : bool) : M () :=
  emit (SendPhoto chat_id photo caption delivered);;
  if delivered then mret () else raise TelegramError.

(** [current_time] is what [time.time()] returns, [strftime] what
    [time.strftime('%Y-%m-%d %H:%M:%S')] returns, [delivered] whether
    Telegram accepts the photo. The function ends without a [return]
    value on every path: it returns [None]. *)
Definition send_alert (cam_id : string) (frame : loc)
    (current_time : Q) (strftime : string) (delivered : bool) : M value :=
  last ← gets (λ w, last_notification (self w));
  cfg ← gets (λ w, config (self w));
  if Qlt_le_dec (current_time - last)%Q (cooldown cfg)
  then mret PyNone
  else
    try_except
      (img ← deref frame;
       buffer ← lift Cv2Error (Cv2.imencode ".jpg" img);
       send_photo (admin_chat_id cfg) buffer
         ("⚠️ Движение на камере " +:+ cam_id +:+ " (" +:+ strftime +:+ ")")
         delivered;;
       set_last_notification current_time)
      (λ e, print "Ошибка отправки уведомления");;
    mret PyNone.

(** *** The frame source *)

(** [None]: the call raises [ValueError]. *)
Definition is_mjpeg_url (url : string) : option bool :=
  path ← urlparse_path url;
  Some (contains "mjpg" (lower path) || contains "mjpeg" (lower path)).

(** [stream.isOpened()]. *)
Definition is_opened (stream : handle) : M bool :=
  gets (λ w, default false (captures w !! stream)).

(** [ret, frame = stream.read()]: a frame read is a new array. *)
Definition stream_read (stream : handle) (answer : option Frame) : M (option loc) :=
  emit (StreamRead stream);;
  match answer with
  | Some img => frame ← alloc img; mret (Some frame)
  | None => mret None
  end.

(** [stream.release()]. *)
Definition stream_release (stream : handle) : M () :=
  emit (StreamRelease stream);;
  modify (with_captures (insert stream false)).

(** [cv2.VideoCapture(url)] when the constructor returns. *)
Definition video_capture (url : string) (opened : bool) : M handle :=
  emit (VideoCapture url);;
  stream ← gets (λ w, fresh (dom (captures w)));
  modify (with_captures (insert stream opened));;
  mret stream.

Definition process_jpeg_camera (cam_data : gmap string string)
    (http : http_outcome Frame) : M (option loc) :=
  try_except
    (url ← lift KeyError (cam_data !! "url");
     emit (HttpGet url);;
     match http with
     | HttpRaises => raise RequestException
     | HttpResponse status_code decoded =>
         if decide (status_code = 200)
         then
           match decoded with
           | Some img => frame ← alloc img; mret (Some frame)
           | None => mret None
           end
         else mret None
     end)
    (λ e, print "Ошибка JPEG камеры";; mret None).

(** The [try] block of [process_mjpeg_camera], its handler and the
    [return None] after it. *)
Definition open_stream (cam_id : string) (cam_data : gmap string string)
    (io : stream_io Frame) : M (option loc) :=
  try_except
    (url ← lift KeyError (cam_data !! "url");
     match connect io with
     | ConnectRaises => emit (VideoCapture url);; raise Cv2Error
     | ConnectClosed => video_capture url false;; mret None
     | ConnectOpened first_read =>
         stream ← video_capture url true;
         r ← stream_read stream first_read;
         match r with
         | Some frame =>
             set_mjpeg_streams (insert cam_id stream);;
             mret (Some frame)
         | None => mret None
         end
     end)
    (λ e, print "Ошибка MJPEG потока";; mret None).

(** The result of the first [if] block is the frame it returns, or [None]
    when control goes on to the [try]. The body runs under [self.lock]; one
    call is modelled at a time, so the lock does not appear. *)
Definition process_mjpeg_camera (cam_id : string) (cam_data : gmap string string)
    (io : stream_io Frame) : M (option loc) :=
  streams ← gets (λ w, mjpeg_streams (self w));
  returned ←
    match streams !! cam_id return M (option loc) with
    | Some stream =>
        opened ← is_opened stream;
        if opened : bool
        then
          r ← stream_read stream (next_read io);
          match r with
          | Some frame => mret (Some frame)
          | None =>
              stream_release stream;;
              set_mjpeg_streams (delete cam_id);;
              mret None
          end
        else mret None
    | None => mret None
    end;
  match returned with
  | Some frame => mret (Some frame)
  | None => open_stream cam_id cam_data io
  end.

Definition process_camera (cam_id : string) (cam_data : gmap string string)
    (io : stream_io Frame) (http : http_outcome Frame) : M (option loc) :=
  try_except
    (url ← lift KeyError (cam_data !! "url");
     mjpeg ← lift ValueError (is_mjpeg_url url);
     if mjpeg : bool
     then process_mjpeg_camera cam_id cam_data io
     else process_jpeg_camera cam_data http)
    (λ e, print "Ошибка обработки камеры";; mret None).

(** *** The reachability sweep, the polling cycle, snapshots and shutdown *)

Definition with_camera_status (f : gmap string bool → gmap string bool)
    (s : CameraSystem) : CameraSystem :=
  {| config := config s; prev_frames := prev_frames s;
     camera_status := f (camera_status s); last_notification := last_notification s;
     mjpeg_streams := mjpeg_streams s |}.

Definition set_camera_status (cam_id : string) (online : bool) : M () :=
  modify (with_self (with_camera_status (insert cam_id online))).

(** What a probe makes of a camera: online when its entry has a url and
    the answer to HEAD has status 200. *)
Definition probed_online (cam_data : gmap string string) (head : option Z) : bool :=
  bool_decide (is_Some (cam_data !! "url") ∧ head = Some 200).

(** The body of the loop of [check_cameras_status] for one camera. [head]
    is the status code that [requests.head] answers ([None]: it raised). *)
Definition check_camera_status (cam_id : string) (cam_data : gmap string string)
    (head : option Z) : M () :=
  try_except
    (url ← lift KeyError (cam_data !! "url");
     status_code ← lift RequestException head;
     set_camera_status cam_id (bool_decide (status_code = 200)))
    (λ e, set_camera_status cam_id false).

Fixpoint check_cameras_status_loop (items : list (string * gmap string string))
    (head : string → option Z) : M () :=
  match items with
  | [] => mret ()
  | (cam_id, cam_data) :: rest =>
      check_camera_status cam_id cam_data (head cam_id);;
      check_cameras_status_loop rest head
  end.

(** [check_cameras_status]: [head cam_id] is the answer to the probe of
    that camera. A dictionary is visited in the order of [map_to_list];
    every pass of this loop writes the entry of its own camera only. *)
Definition check_cameras_status (head : string → option Z) : M () :=
  items ← gets (λ w, map_to_list (cameras (config (self w))));
  check_cameras_status_loop items head.

(** What the outside world answers for one camera during one cycle. *)
Record camera_env : Type := {
  env_head : option Z;
  env_stream : stream_io Frame;
  env_http : http_outcome Frame;
  env_time : Q;
  env_strftime : string;
  env_delivered : bool;
}.

(** The body of the loop [for cam_id, cam_data in ...] of [check_motion]. *)
Definition check_motion_camera (cam_id : string) (cam_data : gmap string string)
    (e : camera_env) : M () :=
  status ← gets (λ w, camera_status (self w) !! cam_id);
  if default false status
  then
    frame ← process_camera cam_id cam_data (env_stream e) (env_http e);
    match frame with
    | Some frame =>
        detection ← calculate_motion frame cam_id;
        let '(motion_detected, processed_frame) := detection in
        if motion_detected : bool
        then
          send_alert cam_id processed_frame (env_time e) (env_strftime e)
            (env_delivered e);;
          mret ()
        else mret ()
    | None => mret ()
    end
  else mret ().

Fixpoint check_motion_loop (items : list (string * gmap string string))
    (env : string → camera_env) : M () :=
  match items with
  | [] => mret ()
  | (cam_id, cam_data) :: rest =>
      check_motion_camera cam_id cam_data (env cam_id);;
      check_motion_loop rest env
  end.

(** One pass of the [while True] loop of [check_motion], up to the
    [asyncio.sleep]. [items] lists [self.config["cameras"].items()] in the
    order in which Python visits them. *)
Definition check_motion_cycle (items : list (string * gmap string string))
    (env : string → camera_env) : M () :=
  check_cameras_status (λ cam_id, env_head (env cam_id));;
  enabled ← gets (λ w, motion_enabled (config (self w)));
  if enabled : bool then check_motion_loop items env else mret ().

Definition get_snapshot (cam_id : string) (io : stream_io Frame)
    (http : http_outcome Frame) : M (option loc) :=
  cams ← gets (λ w, cameras (config (self w)));
  match cams !! cam_id with
  | None => mret None
  | Some cam_data => process_camera cam_id cam_data io http
  end.

Fixpoint release_all (streams : list (string * handle)) : M () :=
  match streams with
  | [] => mret ()
  | (cam_id, stream) :: rest =>
      opened ← is_opened stream;
      (if opened : bool then stream_release stream else mret ());;
      release_all rest
  end.

(** [cleanup]: the captures are visited in the order of [map_to_list]. *)
Definition cleanup : M () :=
  streams ← gets (λ w, map_to_list (mjpeg_streams (self w)));
  release_all streams;;
  set_mjpeg_streams (λ _, ∅).

(** A contour that counts as motion: its area is not below
    [min_contour_area]. *)
Definition large_contour (cfg : Config) (contour : Contour) : Prop :=
  (min_contour_area cfg <= Cv2.contourArea contour)%Q.

(** [calculate_motion] on one frame after the other for one camera; the
    motion flags come back in the order of the frames. *)
Fixpoint calculate_motion_each (frames : list loc) (cam_id : string) : M (list bool) :=
  match frames with
  | [] => mret []
  | frame :: rest =>
      detection ← calculate_motion frame cam_id;
      flags ← calculate_motion_each rest cam_id;
      mret (detection.1 :: flags)
  end.

End Model.

Arguments World : clear implicits.
Arguments camera_env : clear implicits.

End HalfPoop.

(** ** tgalert2-stable.py *)

Module Stable.
Import Py.

Definition CONFIG_FILE : string := "cam_config.json".

Record Config : Type := {
  token : string;
  admin_chat_id : string;
  cameras : gmap string (gmap string string);
  motion_enabled : bool;
  cooldown : Q;
  threshold : Z;
  check_interval : Q;
  timeout : Q;
}.

Definition default_config : Config := {|
  token := "YOUR_BOT_TOKEN";
  admin_chat_id := "YOUR_CHAT_ID";
  cameras := ∅;
  motion_enabled := true;
  cooldown := 30;
  threshold := 30000;
  check_interval := 5;
  timeout := 10;
|}.

Definition set_threshold (v : Z) (c : Config) : Config :=
  {| token := token c; admin_chat_id := admin_chat_id c; cameras := cameras c;
     motion_enabled := motion_enabled c; cooldown := cooldown c; threshold := v;
     check_interval := check_interval c; timeout := timeout c |}.

Definition set_cameras (f : gmap string (gmap string string) → gmap string (gmap string string))
    (c : Config) : Config :=
  {| token := token c; admin_chat_id := admin_chat_id c; cameras := f (cameras c);
     motion_enabled := motion_enabled c; cooldown := cooldown c; threshold := threshold c;
     check_interval := check_interval c; timeout := timeout c |}.

Inductive event : Type :=
  | Printed (msg : string)
  | SendPhoto (chat_id : string) (photo : list Z) (caption : string) (delivered : bool)
  | ReplyText (text : string).

(** The alerts that reached Telegram among some events. *)
Definition is_delivery (ev : event) : bool :=
  match ev with SendPhoto _ _ _ true => true | _ => false end.
Definition deliveries (t : list event) : nat := length (List.filter is_delivery t).

(** The argument of [set_sensitivity]: the handler passes an int; [int()]
    also takes a string. *)
Inductive arg : Type :=
  | IntArg (n : Z)
  | StrArg (s : string).

Section Model.
Context {Frame Contour : Type} {cv : Cv2.Ops Frame Contour}.

(** [int(s)] on a string ([None]: it raises [ValueError]). *)
Variable int_of_str : string → option Z.

(** This revision never draws into a frame, so frames are values. *)
Record CameraSystem : Type := {
  config : Config;
  prev_frames : gmap string Frame;
  camera_status : gmap string bool;
  last_notification : Q;
}.

(** [CameraSystem.__init__] on a loaded configuration. *)
Definition init (cfg : Config) : CameraSystem := {|
  config := cfg;
  prev_frames := ∅;
  camera_status := ∅;
  last_notification := 0;
|}.

(** The global [system], the configuration last written to [CONFIG_FILE]
    ([None]: no such file), the other files of the working directory and
    the events so far. *)
Record World : Type := {
  system : CameraSystem;
  config_file : option Config;
  files : gmap string (list Z);
  trace : list event;
}.

Definition with_system (f : CameraSystem → CameraSystem) (w : World) : World :=
  {| system := f (system w); config_file := config_file w; files := files w;
     trace := trace w |}.
Definition with_config_file (c : option Config) (w : World) : World :=
  {| system := system w; config_file := c; files := files w; trace := trace w |}.
Definition with_files (f : gmap string (list Z) → gmap string (list Z)) (w : World) : World :=
  {| system := system w; config_file := config_file w; files := f (files w);
     trace := trace w |}.
Definition with_trace (f : list event → list event) (w : World) : World :=
  {| system := system w; config_file := config_file w; files := files w;
     trace := f (trace w) |}.

Abbreviation M := (Py.M World).

Definition emit (ev : event) : M () := modify (with_trace (λ t, t ++ [ev])).
Definition print (msg : string) : M () := emit (Printed msg).
Definition reply_text (text : string) : M () := emit (ReplyText text).

Definition with_config (f : Config → Config) (s : CameraSystem) : CameraSystem :=
  {| config := f (config s); prev_frames := prev_frames s;
     camera_status := camera_status s; last_notification := last_notification s |}.
Definition with_prev_frames (f : gmap string Frame → gmap string Frame)
    (s : CameraSystem) : CameraSystem :=
  {| config := config s; prev_frames := f (prev_frames s);
     camera_status := camera_status s; last_notification := last_notification s |}.
Definition with_camera_status (f : gmap string bool → gmap string bool)
    (s : CameraSystem) : CameraSystem :=
  {| config := config s; prev_frames := prev_frames s;
     camera_status := f (camera_status s); last_notification := last_notification s |}.
Definition with_last_notification (t : Q) (s : CameraSystem) : CameraSystem :=
  {| config := config s; prev_frames := prev_frames s;
     camera_status := camera_status s; last_notification := t |}.

(** [save_config(config)]: [writable] tells whether opening and writing
    the file succeeds; a failed write is printed and leaves the file. *)
Definition save_config (cfg : Config) (writable : bool) : M () :=
  try_except
    (if writable then modify (with_config_file (Some cfg)) else raise OSError)
    (λ e, print "Ошибка сохранения конфига").

(** *** Motion score and alert *)

(** [np.sum(thresh)]. *)
Definition np_sum (m : Cv2.Mat) : Z := foldr Z.add 0 (concat m).

Definition calculate_motion (prev_frame current_frame : Frame) : M Z :=
  let gray_prev := Cv2.cvtColor prev_frame in
  let gray_current := Cv2.cvtColor current_frame in
  diff ← lift Cv2Error (Cv2.absdiff gray_prev gray_current);
  let thresh := Cv2.threshold diff 25 255 in
  mret (np_sum thresh).

(** [cv2.imwrite(path, frame)]: [writable] tells whether the file can be
    written; the call returns false when it cannot. *)
Definition imwrite (path : string) (frame : Frame) (writable : bool) : M bool :=
  buffer ← lift Cv2Error (Cv2.imencode ".jpg" frame);
  if writable
  then modify (with_files (insert path buffer));; mret true
  else mret false.

(** [open(path, 'rb')] and reading it. *)
Definition open_rb (path : string) : M (list Z) :=
  content ← gets (λ w, files w !! path); lift OSError content.

Definition path_exists (path : string) : M bool :=
  gets (λ w, bool_decide (is_Some (files w !! path))).

(** [os.remove(path)]: [removable] tells whether the file can be unlinked;
    when it cannot, the call raises [OSError] and the file stays. *)
Definition remove (path : string) (removable : bool) : M () :=
  if removable then modify (with_files (delete path)) else raise OSError.

(** [await self.bot.send_photo(...)]: a delivery that fails raises. *)
Definition send_photo (chat_id : string) (photo : list Z) (caption : string)
    (delivered : bool) : M () :=
  emit (SendPhoto chat_id photo caption delivered);;
  if delivered then mret () else raise TelegramError.

(** [current_time] is what [time.time()] returns, [writable] whether the
    alert file can be written, [removable] whether it can be unlinked,
    [delivered] whether Telegram accepts the photo. Nothing handles what
    the [finally] block raises. The function returns [None] on every path
    on which it returns. *)
Definition send_alert (cam_id : string) (frame : Frame)
    (current_time : Q) (writable removable delivered : bool) : M value :=
  last ← gets (λ w, last_notification (system w));
  cfg ← gets (λ w, config (system w));
  if Qlt_le_dec (current_time - last)%Q (cooldown cfg)
  then mret PyNone
  else
    let alert_file := "alert_" +:+ cam_id +:+ ".jpg" in
    imwrite alert_file frame writable;;
    try_finally
      (try_except
         (photo ← open_rb alert_file;
          send_photo (admin_chat_id cfg) photo ("⚠️ Движение на камере " +:+ cam_id)
            delivered;;
          modify (with_system (with_last_notification current_time)))
         (λ e, print "Ошибка отправки"))
      (present ← path_exists alert_file;
       if present : bool then remove alert_file removable else mret ());;
    mret PyNone.

Definition detect_and_alert (cam_id : string) (current_frame : Frame)
    (current_time : Q) (writable removable delivered : bool) : M () :=
  prev ← gets (λ w, prev_frames (system w) !! cam_id);
  match prev with
  | Some prev_frame =>
      motion ← calculate_motion prev_frame current_frame;
      cfg ← gets (λ w, config (system w));
      if threshold cfg <? motion
      then
        send_alert cam_id current_frame current_time writable removable delivered;;
        mret ()
      else mret ()
  | None => mret ()
  end;;
  modify (with_system (with_prev_frames (insert cam_id current_frame))).

(** *** Settings and registry commands *)

(** [int(threshold)]. *)
Definition int (v : arg) : M Z :=
  match v with
  | IntArg n => mret n
  | StrArg s => lift ValueError (int_of_str s)
  end.

(** [CameraSystem.set_sensitivity]; only [ValueError] is caught. *)
Definition set_sensitivity (threshold : arg) (writable : bool) : M value :=
  try_except
    (threshold ← int threshold;
     if decide (1000 ≤ threshold ≤ 100000)
     then
       modify (with_system (with_config (set_threshold threshold)));;
       cfg ← gets (λ w, config (system w));
       save_config cfg writable;;
       mret (PyBool true)
     else mret (PyBool false))
    (λ e, match e with ValueError => mret (PyBool false) | _ => raise e end).

(** The handler of [/remove]: [chat_id] is [str(update.effective_chat.id)],
    [args] is [context.args]. *)
Definition remove_camera (chat_id : string) (args : list string) (writable : bool)
  : M () :=
  cfg ← gets (λ w, config (system w));
  if decide (chat_id ≠ admin_chat_id cfg)
  then mret ()
  else
    match args with
    | [] => reply_text "Укажите имя камеры: /remove <name>"
    | cam_id :: _ =>
        match cameras cfg !! cam_id with
        | Some _ =>
            modify (with_system (with_config (set_cameras (delete cam_id))));;
            cfg ← gets (λ w, config (system w));
            save_config cfg writable;;
            status ← gets (λ w, camera_status (system w));
            match status !! cam_id with
            | Some _ => modify (with_system (with_camera_status (delete cam_id)))
            | None => mret ()
            end;;
            reply_text ("Камера " +:+ cam_id +:+ " удалена")
        | None => reply_text ("Камера " +:+ cam_id +:+ " не найдена")
        end
    end.

(** Every camera id with a status or a reference frame is registered. *)
Definition registry_closed (s : CameraSystem) : Prop :=
  dom (camera_status s) ⊆ dom (cameras (config s)) ∧
  dom (prev_frames s) ⊆ dom (cameras (config s)).

(** *** The reachability sweep, the frame fetch and the polling cycle *)

(** The body of the loop of [check_cameras_status] for one camera. [head]
    is the status code that [requests.head] answers ([None]: it raised). *)
Definition check_camera_status (cam_id : string) (cam_data : gmap string string)
    (head : option Z) : M () :=
  try_except
    (url ← lift KeyError (cam_data !! "url");
     status_code ← lift RequestException head;
     modify (with_system (with_camera_status
       (insert cam_id (bool_decide (status_code = 200))))))
    (λ e, modify (with_system (with_camera_status (insert cam_id false)))).

Fixpoint check_cameras_status_loop (items : list (string * gmap string string))
    (head : string → option Z) : M () :=
  match items with
  | [] => mret ()
  | (cam_id, cam_data) :: rest =>
      check_camera_status cam_id cam_data (head cam_id);;
      check_cameras_status_loop rest head
  end.

(** [check_cameras_status]: a dictionary is visited in the order of
    [map_to_list]; every pass writes the entry of its own camera only. *)
Definition check_cameras_status (head : string → option Z) : M () :=
  items ← gets (λ w, map_to_list (cameras (config (system w))));
  check_cameras_status_loop items head.

(** [CameraSystem.process_camera]: [http] is what [requests.get] answers,
    with the body as [cv2.imdecode] decodes it. *)
Definition process_camera (cam_id : string) (cam_data : gmap string string)
    (http : HalfPoop.http_outcome Frame) : M (option Frame) :=
  try_except
    (url ← lift KeyError (cam_data !! "url");
     match http with
     | HalfPoop.HttpRaises => raise RequestException
     | HalfPoop.HttpResponse status_code decoded =>
         if decide (status_code ≠ 200) then mret None else mret decoded
     end)
    (λ e, mret None).

(** What the outside world answers for one camera during one cycle. *)
Record camera_env : Type := {
  env_head : option Z;
  env_http : HalfPoop.http_outcome Frame;
  env_time : Q;
  env_writable : bool;
  env_removable : bool;
  env_delivered : bool;
}.

(** The body of the loop [for cam_id, cam_data in ...] of [check_motion]. *)
Definition check_motion_camera (cam_id : string) (cam_data : gmap string string)
    (e : camera_env) : M () :=
  status ← gets (λ w, camera_status (system w) !! cam_id);
  if default false status
  then
    frame ← process_camera cam_id cam_data (env_http e);
    match frame with
    | Some frame =>
        detect_and_alert cam_id frame (env_time e) (env_writable e) (env_removable e)
          (env_delivered e)
    | None => mret ()
    end
  else mret ().

Fixpoint check_motion_loop (items : list (string * gmap string string))
    (env : string → camera_env) : M () :=
  match items with
  | [] => mret ()
  | (cam_id, cam_data) :: rest =>
      check_motion_camera cam_id cam_data (env cam_id);;
      check_motion_loop rest env
  end.

(** One pass of the [while True] loop of [check_motion], up to the
    [asyncio.sleep]. [items] lists [self.config["cameras"].items()] in the
    order in which Python visits them. *)
Definition check_motion_cycle (items : list (string * gmap string string))
    (env : string → camera_env) : M () :=
  check_cameras_status (λ cam_id, env_head (env cam_id));;
  enabled ← gets (λ w, motion_enabled (config (system w)));
  if enabled : bool then check_motion_loop items env else mret ().

Definition get_snapshot (cam_id : string) (http : HalfPoop.http_outcome Frame)
  : M (option Frame) :=
  cams ← gets (λ w, cameras (config (system w)));
  match cams !! cam_id with
  | None => mret None
  | Some cam_data => process_camera cam_id cam_data http
  end.

(** *** The other settings and registry commands *)

Definition set_motion_enabled (state : bool) (c : Config) : Config :=
  {| token := token c; admin_chat_id := admin_chat_id c; cameras := cameras c;
     motion_enabled := state; cooldown := cooldown c; threshold := threshold c;
     check_interval := check_interval c; timeout := timeout c |}.

Definition toggle_motion_detection (state : bool) (writable : bool) : M value :=
  modify (with_system (with_config (set_motion_enabled state)));;
  cfg ← gets (λ w, config (system w));
  save_config cfg writable;;
  mret (PyBool true).

(** The line feed of the Python string literals. *)
Definition nl : string := String (Ascii.ascii_of_nat 10) EmptyString.

(** The handler of [/start]. *)
Definition start (chat_id : string) : M () :=
  cfg ← gets (λ w, config (system w));
  if decide (chat_id ≠ admin_chat_id cfg)
  then mret ()
  else
    let commands := [
      "/start - Показать это сообщение";
      "/add <name> <url> [user] [password] - Добавить камеру";
      "/remove <name> - Удалить камеру";
      "/list - Список камер с статусом";
      "/status - Статус системы";
      "/motion on|off - Включить/выключить детекцию";
      "/sensitivity <value> - Установить порог (1000-100000)";
      "/snapshot <name> - Получить текущий кадр";
      "/check - Проверить состояние камер"
    ] in
    reply_text ("📹 Система мониторинга камер" +:+ nl +:+ nl +:+ String.concat nl commands).

(** The handler of [/sensitivity], the module-level [set_sensitivity]. *)
Definition set_sensitivity_command (chat_id : string) (args : list string)
    (writable : bool) : M () :=
  cfg ← gets (λ w, config (system w));
  if decide (chat_id ≠ admin_chat_id cfg)
  then mret ()
  else
    match args with
    | [] =>
        let current := threshold cfg in
        reply_text ("Текущая чувствительность: " +:+ pretty current +:+ nl +:+
                    "Используйте: /sensitivity <значение от 1000 до 100000>")
    | arg :: _ =>
        try_except
          (new_value ← int (StrArg arg);
           accepted ← set_sensitivity (IntArg new_value) writable;
           if truthy accepted
           then reply_text ("Порог чувствительности изменён на " +:+ pretty new_value)
           else reply_text "Недопустимое значение! Допустимый диапазон: 1000-100000")
          (λ e,
             match e with
             | ValueError => reply_text "Введите числовое значение!"
             | _ => raise e
             end)
    end.

(** The handler of [/motion]. *)
Definition toggle_motion (chat_id : string) (args : list string) (writable : bool)
  : M () :=
  cfg ← gets (λ w, config (system w));
  if decide (chat_id ≠ admin_chat_id cfg)
  then mret ()
  else
    match args with
    | [] => reply_text "Используйте: /motion on|off"
    | arg :: _ =>
        let state := lower arg in
        if decide (state ∈ ["on"; "off"])
        then
          toggle_motion_detection (bool_decide (state = "on")) writable;;
          reply_text ("Детекция движения " +:+
                      (if decide (state = "on") then "включена" else "выключена"))
        else reply_text "Используйте: /motion on|off"
    end.

(** How the handler of [/add] ends: [CameraSystem] defines no method
    [check_camera], so the evaluation of [system.check_camera] raises
    [AttributeError], which nothing in the handler catches. *)
Inductive add_camera_end : Type :=
  | Returned
  | AttributeError (attribute : string).

(** The handler of [/add]. *)
Definition add_camera (chat_id : string) (args : list string) (writable : bool)
  : M add_camera_end :=
  cfg ← gets (λ w, config (system w));
  if decide (chat_id ≠ admin_chat_id cfg)
  then mret Returned
  else
    match args with
    | cam_name :: cam_url :: more =>
        let user := default "" (more !! 0%nat) in
        let password := default "" (more !! 1%nat) in
        modify (with_system (with_config (set_cameras (insert cam_name
          ({[ "url" := cam_url; "user" := user; "password" := password ]}
             : gmap string string)))));;
        cfg ← gets (λ w, config (system w));
        save_config cfg writable;;
        mret (AttributeError "check_camera")
    | _ =>
        reply_text "Использование: /add <имя> <url> [user] [password]";;
        mret Returned
    end.

(** The configuration file holds the configuration in memory. *)
Definition synced (w : World) : Prop := config_file w = Some (config (system w)).

End Model.

Arguments camera_env : clear implicits.

Arguments CameraSystem : clear implicits.
Arguments World : clear implicits.

End Stable.

(** ** An executable instance of the library interface

    Small stand-ins on which the models can be run: images are lists of
    rows, smoothing keeps every pixel, the changed pixels are taken as one
    region spanned by their bounding box, drawing paints the outline of
    the rectangle, and encoding lists the channel bytes. *)

Module Sample.

Definition Bgr : Type := list (list (Z * Z * Z)).
Definition Contour : Type := list (Z * Z).

Definition frame_shape (f : Bgr) : nat * nat :=
  (length f, match f with [] => 0%nat | row :: _ => length row end).

Definition luma (p : Z * Z * Z) : Z :=
  let '(b, g, r) := p in (1868 * b + 9617 * g + 4899 * r + 8192) / 16384.

Definition cvtColor (f : Bgr) : Cv2.Mat := map (map luma) f.

Definition GaussianBlur (m : Cv2.Mat) (ksize : nat * nat) (sigma : Z) : Cv2.Mat := m.

(** The (x, y) positions of the non-zero pixels. *)
Definition changed (m : Cv2.Mat) : list (Z * Z) :=
  concat (imap (λ r row,
    omap (λ '(c, v), if decide (v = 0) then None else Some (Z.of_nat c, Z.of_nat r))
         (imap (λ c v, (c, v)) row)) m).

Definition span (zs : list Z) : Z * Z :=
  match zs with
  | [] => (0, 0)
  | z :: rest => (foldr Z.min z rest, foldr Z.max z rest)
  end.

Definition findContours (m : Cv2.Mat) : list Contour :=
  match changed m with
  | [] => []
  | pts =>
      let '(x0, x1) := span (pts.*1) in
      let '(y0, y1) := span (pts.*2) in
      [[(x0, y0); (x0, y1); (x1, y1); (x1, y0)]]
  end.

(** Twice the signed area, by the shoelace formula. *)
Fixpoint shoelace (first : Z * Z) (pts : list (Z * Z)) : Z :=
  match pts with
  | [] => 0
  | [p] => p.1 * first.2 - first.1 * p.2
  | p :: (q :: _) as rest => p.1 * q.2 - q.1 * p.2 + shoelace first rest
  end.

Definition contourArea (c : Contour) : Q :=
  match c with
  | [] => 0
  | first :: _ => inject_Z (Z.abs (shoelace first c)) / 2
  end.

Definition boundingRect (c : Contour) : Z * Z * Z * Z :=
  let '(x0, x1) := span (c.*1) in
  let '(y0, y1) := span (c.*2) in
  (x0, y0, x1 - x0 + 1, y1 - y0 + 1).

Definition rectangle (img : Bgr) (pt1 pt2 : Z * Z) (color : list Z) (thickness : Z)
  : option Bgr :=
  match color with
  | [b; g; r] =>
      if decide (0 < thickness)
      then Some (imap (λ y row, imap (λ x p,
             let x := Z.of_nat x in
             let y := Z.of_nat y in
             if decide (pt1.1 ≤ x ≤ pt2.1 ∧ pt1.2 ≤ y ≤ pt2.2 ∧
                        (x = pt1.1 ∨ x = pt2.1 ∨ y = pt1.2 ∨ y = pt2.2))
             then (b, g, r) else p) row) img)
      else None
  | _ => None
  end.

Definition imencode (ext : string) (img : Bgr) : option (list Z) :=
  Some (concat (map (λ '(b, g, r), [b; g; r]) (concat img))).

#[export] Instance ops : Cv2.Ops Bgr Contour := {|
  Cv2.frame_shape := frame_shape;
  Cv2.cvtColor := cvtColor;
  Cv2.GaussianBlur := GaussianBlur;
  Cv2.findContours := findContours;
  Cv2.contourArea := contourArea;
  Cv2.boundingRect := boundingRect;
  Cv2.rectangle := rectangle;
  Cv2.imencode := imencode;
|}.

(** The path of a URL of the form scheme://host/path?query. *)
Fixpoint after_slashes (s : string) : string :=
  match s with
  | String "/"%char (String "/"%char rest) => rest
  | String _ rest => after_slashes rest
  | EmptyString => EmptyString
  end.

Fixpoint from_slash (s : string) : string :=
  match s with
  | String "/"%char _ => s
  | String _ rest => from_slash rest
  | EmptyString => EmptyString
  end.

Fixpoint until_query (s : string) : string :=
  match s with
  | String "?"%char _ | String "#"%char _ | EmptyString => EmptyString
  | String c rest => String c (until_query rest)
  end.

Fixpoint until_slash (s : string) : string :=
  match s with
  | String "/"%char _ | String "?"%char _ | String "#"%char _ | EmptyString => EmptyString
  | String c rest => String c (until_slash rest)
  end.

(** [urlparse] raises [ValueError] ("Invalid IPv6 URL") when the host part
    has one of the brackets without the other. *)
Definition urlparse_path (url : string) : option string :=
  let netloc := until_slash (after_slashes url) in
  if xorb (Py.contains "[" netloc) (Py.contains "]" netloc)
  then None
  else Some (until_query (from_slash (after_slashes url))).

(** Decimal digits, with an optional minus sign. *)
Definition digit (c : Ascii.ascii) : option Z :=
  let n := Z.of_nat (Ascii.nat_of_ascii c) in
  if decide (48 ≤ n ≤ 57) then Some (n - 48) else None.

Fixpoint digits (acc : Z) (s : string) : option Z :=
  match s with
  | EmptyString => Some acc
  | String c rest => d ← digit c; digits (10 * acc + d) rest
  end.

Definition int_of_str (s : string) : option Z :=
  match s with
  | EmptyString => None
  | String "-"%char EmptyString => None
  | String "-"%char rest => Z.opp <$> digits 0 rest
  | _ => digits 0 s
  end.

(** A 2x2 black frame, the same frame with its first row white, and a
    black frame of one row and two columns. *)
Definition black2 : Bgr := [[(0, 0, 0); (0, 0, 0)]; [(0, 0, 0); (0, 0, 0)]].
Definition half2 : Bgr := [[(255, 255, 255); (255, 255, 255)]; [(0, 0, 0); (0, 0, 0)]].
Definition black_row : Bgr := [[(0, 0, 0); (0, 0, 0)]].

End Sample.

(** ** Concrete systems *)

Module Examples.

(** A configuration whose detector reacts to a single changed pixel block
    and whose only operator is chat 42. *)
Definition small_config : HalfPoop.Config := {|
  HalfPoop.token := "123:abc";
  HalfPoop.admin_chat_id := "42";
  HalfPoop.cameras := {[ "cam1" := {[ "url" := "http://10.0.0.2:8080/video.mjpg" ]} ]};
  HalfPoop.motion_enabled := true;
  HalfPoop.cooldown := 30;
  HalfPoop.threshold := 30000;
  HalfPoop.check_interval := 5;
  HalfPoop.timeout := 10;
  HalfPoop.draw_contours := true;
  HalfPoop.contour_color := [0; 255; 0];
  HalfPoop.contour_thickness := 2;
  HalfPoop.min_contour_area := 1;
  HalfPoop.frame_width := 800;
  HalfPoop.frame_height := 600;
|}.

Definition system_with (refs : gmap string Cv2.Mat) (last : Q)
    (streams : gmap string positive) : HalfPoop.CameraSystem := {|
  HalfPoop.config := small_config;
  HalfPoop.prev_frames := refs;
  HalfPoop.camera_status := {[ "cam1" := true ]};
  HalfPoop.last_notification := last;
  HalfPoop.mjpeg_streams := streams;
|}.

(** Arrays 1, 2 and 3 hold a black frame and two equal half-white frames. *)
Definition some_arrays : gmap positive Sample.Bgr :=
  {[ 1%positive := Sample.black2; 2%positive := Sample.half2; 3%positive := Sample.half2 ]}.

(** Just started: no reference, no alert yet. *)
Definition started : HalfPoop.World Sample.Bgr := {|
  HalfPoop.self := system_with ∅ 0 ∅;
  HalfPoop.arrays := some_arrays;
  HalfPoop.captures := ∅;
  HalfPoop.trace := [];
|}.

(** The reference of cam1 is the black 2x2 frame. *)
Definition watching : HalfPoop.World Sample.Bgr := {|
  HalfPoop.self := system_with {[ "cam1" := Sample.cvtColor Sample.black2 ]} 0 ∅;
  HalfPoop.arrays := some_arrays;
  HalfPoop.captures := ∅;
  HalfPoop.trace := [];
|}.

(** The reference of cam1 has one row of two pixels: the camera has since
    changed its resolution to 2x2. *)
Definition resized : HalfPoop.World Sample.Bgr := {|
  HalfPoop.self := system_with {[ "cam1" := Sample.cvtColor Sample.black_row ]} 0 ∅;
  HalfPoop.arrays := some_arrays;
  HalfPoop.captures := ∅;
  HalfPoop.trace := [];
|}.

(** The reference of cam1 is a single black pixel. *)
Definition single_pixel : HalfPoop.World Sample.Bgr := {|
  HalfPoop.self := system_with {[ "cam1" := [[0]] ]} 0 ∅;
  HalfPoop.arrays := some_arrays;
  HalfPoop.captures := ∅;
  HalfPoop.trace := [];
|}.

(** An alert was delivered at time 100. *)
Definition alerted : HalfPoop.World Sample.Bgr := {|
  HalfPoop.self := system_with ∅ 100 ∅;
  HalfPoop.arrays := some_arrays;
  HalfPoop.captures := ∅;
  HalfPoop.trace := [];
|}.

(** cam1 is read through the open capture 1. *)
Definition streaming : HalfPoop.World Sample.Bgr := {|
  HalfPoop.self := system_with ∅ 0 {[ "cam1" := 1%positive ]};
  HalfPoop.arrays := some_arrays;
  HalfPoop.captures := {[ 1%positive := true ]};
  HalfPoop.trace := [];
|}.

Definition cam1_data : gmap string string :=
  {[ "url" := "http://10.0.0.2:8080/video.mjpg" ]}.

Definition camera_gone : HalfPoop.stream_io Sample.Bgr := {|
  HalfPoop.next_read := None;
  HalfPoop.connect := HalfPoop.ConnectClosed;
|}.

(** The first revision with one camera, known to be online, before any
    frame was fetched. *)
Definition stable_config : Stable.Config := {|
  Stable.token := "123:abc";
  Stable.admin_chat_id := "42";
  Stable.cameras := {[ "cam1" := {[ "url" := "http://10.0.0.2/snap.jpg";
                                     "user" := ""; "password" := "" ]} ]};
  Stable.motion_enabled := true;
  Stable.cooldown := 30;
  Stable.threshold := 30000;
  Stable.check_interval := 5;
  Stable.timeout := 10;
|}.

Definition stable_started : Stable.World Sample.Bgr := {|
  Stable.system := {|
    Stable.config := stable_config;
    Stable.prev_frames := ∅;
    Stable.camera_status := {[ "cam1" := true ]};
    Stable.last_notification := 0;
  |};
  Stable.config_file := Some stable_config;
  Stable.files := ∅;
  Stable.trace := [];
|}.

(** After one polling cycle has fetched a frame of cam1. *)
Definition stable_polled : Stable.World Sample.Bgr :=
  (Stable.detect_and_alert (cv := Sample.ops) "cam1" Sample.black2 1700000000 true true
     true stable_started).2.

(** After the operator has then sent [/remove cam1]. *)
Definition stable_removed : Stable.World Sample.Bgr :=
  (Stable.remove_camera "42" ["cam1"] true stable_polled).2.

End Examples.

(** ** Cameras and cycles for the further properties *)

Module Scenarios.

(** A stored capture that delivers the half-white frame. *)
Definition camera_live : HalfPoop.stream_io Sample.Bgr := {|
  HalfPoop.next_read := Some Sample.half2;
  HalfPoop.connect := HalfPoop.ConnectClosed;
|}.


(** A camera that accepts the connection and sends the half-white frame. *)
Definition camera_fresh : HalfPoop.stream_io Sample.Bgr := {|
  HalfPoop.next_read := None;
  HalfPoop.connect := HalfPoop.ConnectOpened (Some Sample.half2);
|}.


(** A cycle in which the probe of the camera fails. *)
Definition unreachable : HalfPoop.camera_env Sample.Bgr := {|
  HalfPoop.env_head := None;
  HalfPoop.env_stream := Examples.camera_gone;
  HalfPoop.env_http := HalfPoop.HttpRaises;
  HalfPoop.env_time := 1700000000;
  HalfPoop.env_strftime := "2023-11-14 22:13:20";
  HalfPoop.env_delivered := true;
|}.

(** A cycle in which the camera answers and sends the half-white frame. *)
Definition reachable : HalfPoop.camera_env Sample.Bgr := {|
  HalfPoop.env_head := Some 200;
  HalfPoop.env_stream := camera_fresh;
  HalfPoop.env_http := HalfPoop.HttpRaises;
  HalfPoop.env_time := 1700000000;
  HalfPoop.env_strftime := "2023-11-14 22:13:20";
  HalfPoop.env_delivered := true;
|}.

(** The configuration of [Examples.small_config] with [draw_contours]
    switched off, and a system under it whose reference of cam1 is the
    black 2x2 frame. *)
Definition plain_config : HalfPoop.Config := {|
  HalfPoop.token := "123:abc";
  HalfPoop.admin_chat_id := "42";
  HalfPoop.cameras := {[ "cam1" := {[ "url" := "http://10.0.0.2:8080/video.mjpg" ]} ]};
  HalfPoop.motion_enabled := true;
  HalfPoop.cooldown := 30;
  HalfPoop.threshold := 30000;
  HalfPoop.check_interval := 5;
  HalfPoop.timeout := 10;
  HalfPoop.draw_contours := false;
  HalfPoop.contour_color := [0; 255; 0];
  HalfPoop.contour_thickness := 2;
  HalfPoop.min_contour_area := 1;
  HalfPoop.frame_width := 800;
  HalfPoop.frame_height := 600;
|}.

Definition undrawn : HalfPoop.World Sample.Bgr := {|
  HalfPoop.self := {|
    HalfPoop.config := plain_config;
    HalfPoop.prev_frames := {[ "cam1" := Sample.cvtColor Sample.black2 ]};
    HalfPoop.camera_status := {[ "cam1" := true ]};
    HalfPoop.last_notification := 0;
    HalfPoop.mjpeg_streams := ∅;
  |};
  HalfPoop.arrays := Examples.some_arrays;
  HalfPoop.captures := ∅;
  HalfPoop.trace := [];
|}.

(** The entry of cam1 in the first revision. *)
Definition stable_cam1 : gmap string string :=
  {[ "url" := "http://10.0.0.2/snap.jpg"; "user" := ""; "password" := "" ]}.

(** A cycle of the first revision in which cam1 sends a frame of one row. *)
Definition stable_resized : Stable.camera_env Sample.Bgr := {|
  Stable.env_head := Some 200;
  Stable.env_http := HalfPoop.HttpResponse 200 (Some Sample.black_row);
  Stable.env_time := 1700000005;
  Stable.env_writable := true;
  Stable.env_removable := true;
  Stable.env_delivered := true;
|}.

End Scenarios.

(** * Properties *)

Import Py.

(** ** The state monad *)

Section MonadFacts.
Context {W : Type}.
Implicit Types w : W.

Lemma run_bind {A B : Type} (m : Py.M W A) (f : A → Py.M W B) w :
  (m ≫= f) w =
  match m w with
  | (Returns a, w') => f a w'
  | (Raises e, w') => (Raises e, w')
  end.
Proof. reflexivity. Qed.

End MonadFacts.

(** ** Blank images stay blank *)

Section BlankImages.
Import Cv2.

Lemma absdiff_row_self (row : list Z) :
  Forall (λ v, v = 0) (zip_with (λ x y, Z.abs (x - y)) row row).
Proof.
  induction row as [|x row IH]; simpl; constructor; [|done].
  by rewrite Z.sub_diag.
Qed.

Lemma absdiff_self (g : Mat) :
  ∃ d, absdiff g g = Some d ∧ all_zero d.
Proof.
  unfold absdiff. rewrite decide_True by done. eexists; split; [done|].
  unfold all_zero. induction g as [|row g IH]; simpl; constructor; [|done].
  apply absdiff_row_self.
Qed.

Lemma threshold_blank (m : Mat) (thresh maxval : Z) :
  0 ≤ thresh → all_zero m → all_zero (threshold m thresh maxval).
Proof.
  intros Hthresh Hm. unfold threshold, all_zero.
  apply Forall_map. eapply Forall_impl; [exact Hm|]. intros row Hrow.
  apply Forall_map. eapply Forall_impl; [exact Hrow|]. intros v ->.
  simpl. destruct (Z.ltb_spec thresh 0); [lia|done].
Qed.

Lemma pixel_blank (m : Mat) (r c v : Z) :
  all_zero m → pixel m r c = Some v → v = 0.
Proof.
  intros Hm. unfold pixel. case_decide; [|done].
  destruct (m !! Z.to_nat r) as [row|] eqn:Hrow; simpl; [|done].
  intros Hv. unfold all_zero in Hm.
  rewrite Forall_lookup in Hm. specialize (Hm _ _ Hrow).
  rewrite Forall_lookup in Hm. by apply (Hm _ _ Hv).
Qed.

Lemma window_blank (m : Mat) (offsets : list (Z * Z)) (r c : nat) :
  all_zero m → Forall (λ v, v = 0) (window m offsets r c).
Proof.
  intros Hm. apply Forall_forall. intros v Hv.
  apply list_elem_of_omap in Hv as ([dr dc] & _ & Hpix).
  by eapply pixel_blank.
Qed.

Lemma Forall_imap {A B : Type} (P : B → Prop) (f : nat → A → B) (l : list A) :
  (∀ i x, l !! i = Some x → P (f i x)) → Forall P (imap f l).
Proof.
  intros H. apply Forall_lookup_2. intros i y.
  rewrite list_lookup_imap. destruct (l !! i) as [x|] eqn:Hx; simpl; [|done].
  intros [= <-]. by apply H.
Qed.

Lemma local_max_blank (l : list Z) :
  Forall (λ v, v = 0) l → foldr Z.max 0 l = 0.
Proof. induction 1 as [|x l -> _ IH]; simpl; [done|]. by rewrite IH. Qed.

Lemma local_min_blank (l : list Z) :
  Forall (λ v, v = 0) l → l ≠ [] → foldr Z.min 255 l = 0.
Proof.
  induction 1 as [|x l -> Hl IH]; simpl; [done|]. intros _.
  destruct l as [|y l]; [done|]. rewrite IH; [lia|done].
Qed.

Lemma dilate_pass_blank (m kernel : Mat) :
  all_zero m → all_zero (morph Z.max 0 m kernel).
Proof.
  intros Hm. unfold morph, all_zero.
  apply Forall_imap. intros r row _. apply Forall_imap. intros c _ _.
  apply local_max_blank, window_blank, Hm.
Qed.

Lemma anchor_in_ones : (0, 0) ∈ kernel_offsets (ones 5 5).
Proof. apply (bool_decide_unpack _). by vm_compute. Qed.

Lemma erode_pass_blank (m : Mat) :
  all_zero m → all_zero (morph Z.min 255 m (ones 5 5)).
Proof.
  intros Hm. unfold morph, all_zero.
  apply Forall_imap. intros r row Hrow. apply Forall_imap. intros c v Hv.
  apply local_min_blank; [by apply window_blank|].
  assert (v ∈ window m (kernel_offsets (ones 5 5)) r c) as Hin.
  { apply list_elem_of_omap. exists (0, 0). split; [apply anchor_in_ones|].
    unfold pixel. rewrite decide_True by lia.
    rewrite !Z.add_0_r, !Nat2Z.id, Hrow. done. }
  intros Hnil. rewrite Hnil in Hin. by apply elem_of_nil in Hin.
Qed.

Lemma dilate_blank (m kernel : Mat) (iterations : nat) :
  all_zero m → all_zero (dilate m kernel iterations).
Proof.
  intros Hm. unfold dilate. induction iterations as [|n IH]; simpl; [done|].
  by apply dilate_pass_blank.
Qed.

Lemma erode_blank (m : Mat) (iterations : nat) :
  all_zero m → all_zero (erode m (ones 5 5) iterations).
Proof.
  intros Hm. unfold erode. induction iterations as [|n IH]; simpl; [done|].
  by apply erode_pass_blank.
Qed.

End BlankImages.

(** ** The motion detector of tgalert3-halfpoop.py *)

Section Detector.
Import HalfPoop.
Context {Frame Contour : Type} {cv : Cv2.Ops Frame Contour}.
Implicit Types (w : World Frame) (frame : positive) (cam_id : string) (img : Frame).

Lemma mark_contours_run contours : ∀ processed_frame motion_detected w img,
  arrays w !! processed_frame = Some img →
  mark_contours contours processed_frame motion_detected w =
  let '(r, img') := mark_image (config (self w)) contours img motion_detected in
  (r, with_arrays (insert processed_frame img') w).
Proof.
  induction contours as [|contour rest IH]; intros pf b w img Hpf; simpl.
  - destruct w as [s a c t]; simpl in *. unfold with_arrays; simpl.
    rewrite insert_id; done.
  - rewrite run_bind. simpl.
    destruct (Qlt_le_dec _ _); [by apply IH|].
    destruct (draw_contours _).
    + destruct (Cv2.boundingRect contour) as [[[x y] w0] h].
      rewrite run_bind. unfold draw_rectangle. rewrite run_bind.
      unfold deref. rewrite run_bind. simpl. rewrite Hpf. simpl.
      rewrite run_bind.
      destruct (Cv2.rectangle _ _ _ _ _) as [img'|]; simpl.
      * rewrite (IH pf true _ img'); simpl.
        2:{ by rewrite lookup_insert_eq. }
        destruct (mark_image _ _ _ _) as [r img'']. unfold with_arrays; simpl.
        by rewrite insert_insert_eq.
      * destruct w as [s a c t]; simpl in *. unfold with_arrays; simpl.
        rewrite insert_id; done.
    + rewrite run_bind. simpl. by apply IH.
Qed.

Lemma calculate_motion_try_run w frame cam_id img :
  arrays w !! frame = Some img →
  calculate_motion_try frame cam_id w =
  match prev_frames (self w) !! cam_id with
  | None =>
      (Returns (false, frame),
       with_self (with_prev_frames (insert cam_id (blurred_gray img))) w)
  | Some prev_gray =>
      match Cv2.absdiff prev_gray (blurred_gray img) with
      | None => (Raises Cv2Error, w)
      | Some frame_diff =>
          let processed_frame := fresh (dom (arrays w)) in
          match mark_image (config (self w)) (contours_of frame_diff) img false with
          | (Returns motion_detected, img') =>
              (Returns (motion_detected, processed_frame),
               with_self (with_prev_frames (insert cam_id (blurred_gray img)))
                 (with_arrays (insert processed_frame img') w))
          | (Raises e, img') =>
              (Raises e, with_arrays (insert processed_frame img') w)
          end
      end
  end.
Proof.
  intros Hframe. unfold calculate_motion_try, deref, copy, deref, alloc.
  rewrite !run_bind; simpl. rewrite Hframe; simpl.
  rewrite run_bind; simpl.
  destruct (prev_frames (self w) !! cam_id) as [prev_gray|]; [|done].
  rewrite run_bind. fold (blurred_gray img).
  destruct (Cv2.absdiff prev_gray (blurred_gray img)) as [frame_diff|]; simpl; [|done].
  rewrite !run_bind; simpl. rewrite Hframe; simpl.
  rewrite !run_bind; simpl.
  fold (contours_of frame_diff).
  rewrite (mark_contours_run _ _ _ _ img); [|by simpl; rewrite lookup_insert_eq].
  simpl. destruct (mark_image _ _ _ _) as [[b|e] img']; simpl.
  - unfold with_self, with_arrays; simpl. by rewrite insert_insert_eq.
  - unfold with_arrays; simpl. by rewrite insert_insert_eq.
Qed.

Lemma calculate_motion_run w frame cam_id :
  calculate_motion frame cam_id w =
  match calculate_motion_try frame cam_id w with
  | (Returns r, w') => (Returns r, w')
  | (Raises e, w') =>
      (Returns (false, frame), with_trace (λ t, t ++ [Printed "Ошибка детекции движения"]) w')
  end.
Proof.
  unfold calculate_motion, try_except.
  by destruct (calculate_motion_try frame cam_id w) as [[r|e] w'].
Qed.

(** C1: on a camera without a reference, the detector reports no motion,
    returns the frame it was given and stores the blurred grayscale image
    of that frame as the camera's reference; nothing else changes. *)
Theorem first_frame_sets_reference w frame cam_id img :
  arrays w !! frame = Some img →
  prev_frames (self w) !! cam_id = None →
  calculate_motion frame cam_id w =
    (Returns (false, frame),
     with_self (with_prev_frames (insert cam_id (blurred_gray img))) w) ∧
  prev_frames (self (calculate_motion frame cam_id w).2) !! cam_id =
    Some (blurred_gray img).
Proof.
  intros Hframe Hprev.
  assert (calculate_motion frame cam_id w =
    (Returns (false, frame),
     with_self (with_prev_frames (insert cam_id (blurred_gray img))) w)) as Hrun.
  { rewrite calculate_motion_run, (calculate_motion_try_run _ _ _ img Hframe).
    by rewrite Hprev. }
  split; [done|]. rewrite Hrun; simpl. apply lookup_insert_eq.
Qed.

Lemma blurred_gray_shape {laws : Cv2.Laws cv} img :
  Cv2.mat_shape (blurred_gray img) = Cv2.frame_shape img.
Proof.
  unfold blurred_gray. by rewrite Cv2.GaussianBlur_shape, Cv2.cvtColor_shape.
Qed.

(** C4, as the code has it: whenever the stored reference and the
    current frame differ in size, the detector does not raise; it reports
    no motion, returns the frame it was given, prints the error, and
    leaves the stored reference, and everything else, as it was. *)
Theorem mismatched_reference_is_kept {laws : Cv2.Laws cv} w frame cam_id img prev_gray :
  arrays w !! frame = Some img →
  prev_frames (self w) !! cam_id = Some prev_gray →
  Cv2.mat_shape prev_gray ≠ Cv2.frame_shape img →
  calculate_motion frame cam_id w =
    (Returns (false, frame),
     with_trace (λ t, t ++ [Printed "Ошибка детекции движения"]) w) ∧
  prev_frames (self (calculate_motion frame cam_id w).2) !! cam_id = Some prev_gray.
Proof.
  intros Hframe Hprev Hshape.
  assert (calculate_motion frame cam_id w =
    (Returns (false, frame),
     with_trace (λ t, t ++ [Printed "Ошибка детекции движения"]) w)) as Hrun.
  { rewrite calculate_motion_run, (calculate_motion_try_run _ _ _ img Hframe).
    rewrite Hprev. unfold Cv2.absdiff.
    by rewrite decide_False by (by rewrite blurred_gray_shape). }
  split; [done|]. by rewrite Hrun.
Qed.

Lemma mark_image_flag cfg contours : ∀ img motion_detected flag img',
  mark_image cfg contours img motion_detected = (Returns flag, img') →
  flag = true ↔ motion_detected = true ∨ Exists (large_contour cfg) contours.
Proof.
  induction contours as [|contour rest IH]; intros img b flag img'; simpl.
  - intros [= <- <-]. rewrite Exists_nil. tauto.
  - rewrite Exists_cons. unfold large_contour at 1.
    destruct (Qlt_le_dec _ _) as [Hsmall|Hlarge].
    + intros Hrun. rewrite (IH _ _ _ _ Hrun).
      apply Qlt_not_le in Hsmall. tauto.
    + destruct (draw_contours cfg).
      * destruct (Cv2.boundingRect contour) as [[[x y] w0] h].
        destruct (Cv2.rectangle _ _ _ _ _); [|done].
        intros Hrun. rewrite (IH _ _ _ _ Hrun). tauto.
      * intros Hrun. rewrite (IH _ _ _ _ Hrun). tauto.
Qed.

Lemma mark_image_raises_large cfg contours : ∀ img motion_detected e img',
  mark_image cfg contours img motion_detected = (Raises e, img') →
  draw_contours cfg = true ∧ Exists (large_contour cfg) contours.
Proof.
  induction contours as [|contour rest IH]; intros img b e img'; simpl; [done|].
  rewrite Exists_cons.
  destruct (Qlt_le_dec _ _) as [Hsmall|Hlarge].
  - intros Hrun. destruct (IH _ _ _ _ Hrun). eauto.
  - destruct (draw_contours cfg) eqn:Hdraw.
    + intros _. split; [done|]. by left.
    + intros Hrun. by destruct (IH _ _ _ _ Hrun).
Qed.

Lemma mark_image_undrawn cfg contours : ∀ img motion_detected,
  draw_contours cfg = false ∨ Forall (λ c, ¬ large_contour cfg c) contours →
  ∃ flag, mark_image cfg contours img motion_detected = (Returns flag, img).
Proof.
  induction contours as [|contour rest IH]; intros img b Hquiet; simpl; [eauto|].
  destruct (Qlt_le_dec _ _) as [Hsmall|Hlarge].
  - apply IH. destruct Hquiet as [?|Hall]; [by left|right]. by inversion Hall.
  - destruct Hquiet as [Hdraw|Hall].
    + rewrite Hdraw. apply IH. by left.
    + inversion Hall as [|?? Hnot]. by destruct Hnot.
Qed.

Lemma mark_image_drawable cfg contours : ∀ img motion_detected,
  (∀ img pt1 pt2,
     is_Some (Cv2.rectangle img pt1 pt2 (contour_color cfg) (contour_thickness cfg))) →
  ∃ flag img', mark_image cfg contours img motion_detected = (Returns flag, img').
Proof.
  induction contours as [|contour rest IH]; intros img b Hdraw; simpl; [eauto|].
  destruct (Qlt_le_dec _ _); [by apply IH|].
  destruct (draw_contours cfg); [|by apply IH].
  destruct (Cv2.boundingRect contour) as [[[x y] w0] h].
  destruct (Hdraw img (x, y) (x + w0, y + h)) as [img' ->]. by apply IH.
Qed.



(** C10: the detector never writes into the array it is given. Whatever
    path it takes, it returns, the array behind [frame] is as before, every
    array that existed before the call is as before, and the reference
    returned is [frame] itself or the copy made by [frame.copy()], an
    array that did not exist before the call. *)
Theorem input_frame_never_mutated w frame cam_id img :
  arrays w !! frame = Some img →
  let processed_frame := fresh (dom (arrays w)) in
  let arrays' := arrays (calculate_motion frame cam_id w).2 in
  ∃ motion_detected out,
    (calculate_motion frame cam_id w).1 = Returns (motion_detected, out) ∧
    (out = frame ∨ out = processed_frame) ∧
    (processed_frame ∉ dom (arrays w)) ∧
    arrays' !! frame = Some img ∧
    (∀ l, l ∈ dom (arrays w) → arrays' !! l = arrays w !! l).
Proof.
  intros Hframe pf arrays'. subst arrays'.
  assert (pf ∉ dom (arrays w)) as Hfresh by apply is_fresh.
  assert (∀ l img', l ∈ dom (arrays w) →
            <[pf := img']> (arrays w) !! l = arrays w !! l) as Hkeep.
  { intros l img' Hl. apply lookup_insert_ne. by intros <-. }
  assert (frame ∈ dom (arrays w)) as Hdom by (apply elem_of_dom; eauto).
  rewrite calculate_motion_run, (calculate_motion_try_run _ _ _ img Hframe).
  destruct (prev_frames (self w) !! cam_id) as [prev_gray|];
    [|exists false, frame; simpl; by eauto 10].
  destruct (Cv2.absdiff _ _) as [frame_diff|];
    [|exists false, frame; simpl; by eauto 10].
  simpl. fold pf.
  destruct (mark_image _ _ _ _) as [[b|e] img']; simpl.
  - exists b, pf. rewrite Hkeep by done. eauto 10.
  - exists false, frame. rewrite Hkeep by done. eauto 10.
Qed.

Lemma contours_of_blank {laws : Cv2.Laws cv} (d : Cv2.Mat) :
  Cv2.all_zero d → contours_of d = [].
Proof.
  intros Hd. unfold contours_of. apply Cv2.findContours_blank.
  apply erode_blank, dilate_blank, threshold_blank; [lia|done].
Qed.

Lemma same_reference_no_motion {laws : Cv2.Laws cv} w frame cam_id img :
  arrays w !! frame = Some img →
  prev_frames (self w) !! cam_id = Some (blurred_gray img) →
  (calculate_motion frame cam_id w).1 = Returns (false, fresh (dom (arrays w))).
Proof.
  intros Hframe Hprev.
  rewrite calculate_motion_run, (calculate_motion_try_run _ _ _ img Hframe), Hprev.
  destruct (absdiff_self (blurred_gray img)) as (d & -> & Hd).
  by rewrite (contours_of_blank d Hd).
Qed.

(** C9: when two frames with the same bytes are given to the detector one
    after the other for one camera, the second call reports no motion. *)
Theorem identical_frames_no_motion {laws : Cv2.Laws cv} w frame1 frame2 cam_id img :
  arrays w !! frame1 = Some img →
  arrays w !! frame2 = Some img →
  ∃ out,
    (calculate_motion frame2 cam_id (calculate_motion frame1 cam_id w).2).1 =
      Returns (false, out).
Proof.
  intros Hframe1 Hframe2.
  assert (∀ img', <[fresh (dom (arrays w)) := img']> (arrays w) !! frame2 = Some img)
    as Hkeep.
  { intros img'. rewrite lookup_insert_ne; [done|].
    intros Heq. apply (is_fresh (dom (arrays w))). rewrite Heq.
    apply elem_of_dom; eauto. }
  rewrite (calculate_motion_run w), (calculate_motion_try_run _ _ _ img Hframe1).
  destruct (prev_frames (self w) !! cam_id) as [prev_gray|] eqn:Hprev.
  - destruct (Cv2.absdiff prev_gray (blurred_gray img)) as [frame_diff|] eqn:Hdiff.
    + simpl.
      destruct (mark_image _ _ _ _) as [[b|e] img'] eqn:Hmark; simpl.
      * eexists. apply (same_reference_no_motion _ _ _ img); simpl; [done|].
        apply lookup_insert_eq.
      * exists frame2.
        rewrite calculate_motion_run, (calculate_motion_try_run _ _ _ img); [|by simpl].
        simpl. rewrite Hprev, Hdiff, Hmark. done.
    + exists frame2.
      rewrite calculate_motion_run, (calculate_motion_try_run _ _ _ img); [|by simpl].
      simpl. by rewrite Hprev, Hdiff.
  - eexists. apply (same_reference_no_motion _ _ _ img); simpl; [done|].
    apply lookup_insert_eq.
Qed.

End Detector.

(** ** The alert dispatcher *)

Section Dispatcher.
Context {Frame Contour : Type} {cv : Cv2.Ops Frame Contour}.

Lemma halfpoop_send_alert_run (w : HalfPoop.World Frame) cam_id frame
    current_time strftime delivered :
  HalfPoop.send_alert cam_id frame current_time strftime delivered w =
  if Qlt_le_dec (current_time - HalfPoop.last_notification (HalfPoop.self w))%Q
       (HalfPoop.cooldown (HalfPoop.config (HalfPoop.self w)))
  then (Returns PyNone, w)
  else
    match HalfPoop.arrays w !! frame ≫= Cv2.imencode ".jpg" with
    | Some buffer =>
        let sent :=
          HalfPoop.SendPhoto (HalfPoop.admin_chat_id (HalfPoop.config (HalfPoop.self w)))
            buffer ("⚠️ Движение на камере " +:+ cam_id +:+ " (" +:+ strftime +:+ ")")
            delivered in
        if delivered
        then (Returns PyNone,
              HalfPoop.with_self (HalfPoop.with_last_notification current_time)
                (HalfPoop.with_trace (λ t, t ++ [sent]) w))
        else (Returns PyNone,
              HalfPoop.with_trace (λ t, t ++ [HalfPoop.Printed "Ошибка отправки уведомления"])
                (HalfPoop.with_trace (λ t, t ++ [sent]) w))
    | None =>
        (Returns PyNone,
         HalfPoop.with_trace (λ t, t ++ [HalfPoop.Printed "Ошибка отправки уведомления"]) w)
    end.
Proof.
  unfold HalfPoop.send_alert. do 2 (rewrite run_bind; simpl).
  destruct (Qlt_le_dec _ _); [done|].
  rewrite run_bind. unfold try_except, HalfPoop.deref. rewrite !run_bind; simpl.
  destruct (HalfPoop.arrays w !! frame) as [img|]; simpl; [|done].
  rewrite run_bind.
  destruct (Cv2.imencode ".jpg" img) as [buffer|]; simpl; [|done].
  rewrite run_bind. unfold HalfPoop.send_photo. rewrite run_bind; simpl.
  by destruct delivered.
Qed.

Lemma halfpoop_deliveries_app (t1 t2 : list HalfPoop.event) :
  HalfPoop.deliveries (t1 ++ t2) = (HalfPoop.deliveries t1 + HalfPoop.deliveries t2)%nat.
Proof. unfold HalfPoop.deliveries. by rewrite List.filter_app, length_app. Qed.

Lemma stable_deliveries_app (t1 t2 : list Stable.event) :
  Stable.deliveries (t1 ++ t2) = (Stable.deliveries t1 + Stable.deliveries t2)%nat.
Proof. unfold Stable.deliveries. by rewrite List.filter_app, length_app. Qed.

Lemma halfpoop_send_alert_skips (w : HalfPoop.World Frame) cam_id frame
    current_time strftime delivered :
  (current_time - HalfPoop.last_notification (HalfPoop.self w) <
     HalfPoop.cooldown (HalfPoop.config (HalfPoop.self w)))%Q →
  HalfPoop.send_alert cam_id frame current_time strftime delivered w = (Returns PyNone, w).
Proof.
  intros Hrecent. rewrite halfpoop_send_alert_run.
  destruct (Qlt_le_dec _ _) as [_|Hle]; [done|]. by apply Qle_not_lt in Hle.
Qed.

Lemma halfpoop_send_alert_delivers (w : HalfPoop.World Frame) cam_id frame img buffer
    current_time strftime :
  (HalfPoop.cooldown (HalfPoop.config (HalfPoop.self w)) <=
     current_time - HalfPoop.last_notification (HalfPoop.self w))%Q →
  HalfPoop.arrays w !! frame = Some img →
  Cv2.imencode ".jpg" img = Some buffer →
  ∃ w',
    HalfPoop.send_alert cam_id frame current_time strftime true w = (Returns PyNone, w') ∧
    HalfPoop.config (HalfPoop.self w') = HalfPoop.config (HalfPoop.self w) ∧
    HalfPoop.last_notification (HalfPoop.self w') = current_time ∧
    HalfPoop.arrays w' = HalfPoop.arrays w ∧
    HalfPoop.deliveries (HalfPoop.trace w') = S (HalfPoop.deliveries (HalfPoop.trace w)).
Proof.
  intros Hdue Hframe Hbuffer. rewrite halfpoop_send_alert_run.
  destruct (Qlt_le_dec _ _) as [Hlt|_]; [by apply Qle_not_lt in Hdue|].
  rewrite Hframe; simpl. rewrite Hbuffer.
  eexists; split; [done|]; simpl. repeat split.
  rewrite halfpoop_deliveries_app. unfold HalfPoop.deliveries; simpl. lia.
Qed.

Lemma stable_send_alert_skips (w : Stable.World Frame) cam_id (frame : Frame)
    current_time writable removable delivered :
  (current_time - Stable.last_notification (Stable.system w) <
     Stable.cooldown (Stable.config (Stable.system w)))%Q →
  Stable.send_alert cam_id frame current_time writable removable delivered w =
    (Returns PyNone, w).
Proof.
  intros Hrecent. unfold Stable.send_alert. do 2 (rewrite run_bind; simpl).
  destruct (Qlt_le_dec _ _) as [_|Hle]; [done|]. by apply Qle_not_lt in Hle.
Qed.

Lemma stable_send_alert_delivers (w : Stable.World Frame) cam_id (frame : Frame) buffer
    current_time removable :
  (Stable.cooldown (Stable.config (Stable.system w)) <=
     current_time - Stable.last_notification (Stable.system w))%Q →
  Cv2.imencode ".jpg" frame = Some buffer →
  ∃ r w',
    Stable.send_alert cam_id frame current_time true removable true w = (r, w') ∧
    (removable = true → r = Returns PyNone) ∧
    Stable.config (Stable.system w') = Stable.config (Stable.system w) ∧
    Stable.last_notification (Stable.system w') = current_time ∧
    Stable.deliveries (Stable.trace w') = S (Stable.deliveries (Stable.trace w)).
Proof.
  intros Hdue Hbuffer.
  unfold Stable.send_alert, Stable.imwrite, Stable.open_rb, Stable.path_exists,
    Stable.remove, Stable.send_photo, Stable.print, Stable.emit.
  unfold try_finally, try_except, lift, gets, modify, raise, mbind, M_bind, mret, M_ret.
  simpl.
  destruct (Qlt_le_dec _ _) as [Hlt|_]; [by apply Qle_not_lt in Hdue|].
  rewrite Hbuffer; simpl. rewrite lookup_insert_eq; simpl.
  rewrite bool_decide_eq_true_2 by (rewrite lookup_insert_eq; eauto). simpl.
  destruct removable; simpl;
    (eexists _, _; split; [done|]; simpl; split; [done|]; repeat split;
     rewrite stable_deliveries_app; unfold Stable.deliveries; simpl; lia).
Qed.

(** C2: an alert attempted less than [cooldown] seconds after the last
    delivered one is skipped: [send_alert] returns a false value ([None]),
    calls nothing and changes nothing, in both revisions. With a cooldown
    of 30 seconds and a transport that accepts every photo, two motion
    events 10 seconds apart give exactly one delivered alert, and two
    events 31 seconds apart give two. *)
Theorem cooldown_gates_alerts :
  (∀ (w : HalfPoop.World Frame) cam_id frame current_time strftime delivered,
     (current_time - HalfPoop.last_notification (HalfPoop.self w) <
        HalfPoop.cooldown (HalfPoop.config (HalfPoop.self w)))%Q →
     ∃ v, HalfPoop.send_alert cam_id frame current_time strftime delivered w =
            (Returns v, w) ∧ truthy v = false) ∧
  (∀ (w : Stable.World Frame) cam_id (frame : Frame) current_time
       writable removable delivered,
     (current_time - Stable.last_notification (Stable.system w) <
        Stable.cooldown (Stable.config (Stable.system w)))%Q →
     ∃ v, Stable.send_alert cam_id frame current_time writable removable delivered w =
            (Returns v, w) ∧ truthy v = false) ∧
  (∀ (w : HalfPoop.World Frame) cam1 cam2 frame1 frame2 img1 img2 buffer1 buffer2
       (t : Q) strftime1 strftime2,
     (HalfPoop.cooldown (HalfPoop.config (HalfPoop.self w)) == 30)%Q →
     (30 <= t - HalfPoop.last_notification (HalfPoop.self w))%Q →
     HalfPoop.arrays w !! frame1 = Some img1 → Cv2.imencode ".jpg" img1 = Some buffer1 →
     HalfPoop.arrays w !! frame2 = Some img2 → Cv2.imencode ".jpg" img2 = Some buffer2 →
     let second (gap : Q) :=
       (HalfPoop.send_alert cam2 frame2 (t + gap)%Q strftime2 true
          (HalfPoop.send_alert cam1 frame1 t strftime1 true w).2).2 in
     HalfPoop.deliveries (HalfPoop.trace (second 10%Q)) =
       (HalfPoop.deliveries (HalfPoop.trace w) + 1)%nat ∧
     HalfPoop.deliveries (HalfPoop.trace (second 31%Q)) =
       (HalfPoop.deliveries (HalfPoop.trace w) + 2)%nat) ∧
  (∀ (w : Stable.World Frame) cam1 cam2 (frame1 frame2 : Frame) buffer1 buffer2 (t : Q)
       removable1 removable2,
     (Stable.cooldown (Stable.config (Stable.system w)) == 30)%Q →
     (30 <= t - Stable.last_notification (Stable.system w))%Q →
     Cv2.imencode ".jpg" frame1 = Some buffer1 →
     Cv2.imencode ".jpg" frame2 = Some buffer2 →
     let second (gap : Q) :=
       (Stable.send_alert cam2 frame2 (t + gap)%Q true removable2 true
          (Stable.send_alert cam1 frame1 t true removable1 true w).2).2 in
     Stable.deliveries (Stable.trace (second 10%Q)) =
       (Stable.deliveries (Stable.trace w) + 1)%nat ∧
     Stable.deliveries (Stable.trace (second 31%Q)) =
       (Stable.deliveries (Stable.trace w) + 2)%nat).
Proof.
  split; [|split; [|split]].
  - intros w cam_id frame now stamp delivered Hrecent. exists PyNone.
    by rewrite halfpoop_send_alert_skips.
  - intros w cam_id frame now writable removable delivered Hrecent. exists PyNone.
    by rewrite stable_send_alert_skips.
  - intros w cam1 cam2 frame1 frame2 img1 img2 buffer1 buffer2 t stamp1 stamp2
      Hcooldown Hdue Hframe1 Hbuffer1 Hframe2 Hbuffer2 second. subst second.
    destruct (halfpoop_send_alert_delivers w cam1 frame1 img1 buffer1 t stamp1)
      as (w1 & -> & Hconfig & Hlast & Harrays & Hcount); [lra|done|done|].
    simpl. split.
    + rewrite halfpoop_send_alert_skips; [simpl; lia|].
      rewrite Hconfig, Hlast. lra.
    + destruct (halfpoop_send_alert_delivers w1 cam2 frame2 img2 buffer2 (t + 31)%Q stamp2)
        as (w2 & -> & _ & _ & _ & Hcount2).
      * rewrite Hconfig, Hlast. lra.
      * by rewrite Harrays.
      * done.
      * simpl. lia.
  - intros w cam1 cam2 frame1 frame2 buffer1 buffer2 t removable1 removable2
      Hcooldown Hdue Hbuffer1 Hbuffer2 second. subst second.
    destruct (stable_send_alert_delivers w cam1 frame1 buffer1 t removable1)
      as (r1 & w1 & -> & _ & Hconfig & Hlast & Hcount); [lra|done|].
    simpl. split.
    + rewrite stable_send_alert_skips; [simpl; lia|].
      rewrite Hconfig, Hlast. lra.
    + destruct (stable_send_alert_delivers w1 cam2 frame2 buffer2 (t + 31)%Q removable2)
        as (r2 & w2 & -> & _ & _ & _ & Hcount2).
      * rewrite Hconfig, Hlast. lra.
      * done.
      * simpl. lia.
Qed.

(** C3: when the delivery fails, [send_alert] returns a false value
    ([None]) and leaves [last_notification] as it was; whatever the
    outcome, [last_notification] changes only when a photo was sent and
    accepted, and then becomes the time of that attempt. *)
Theorem failed_delivery_keeps_timestamp (w : HalfPoop.World Frame) cam_id frame
    current_time strftime :
  (∃ v, (HalfPoop.send_alert cam_id frame current_time strftime false w).1 = Returns v ∧
        truthy v = false) ∧
  HalfPoop.last_notification
    (HalfPoop.self (HalfPoop.send_alert cam_id frame current_time strftime false w).2) =
    HalfPoop.last_notification (HalfPoop.self w) ∧
  ∀ delivered,
    let after := (HalfPoop.send_alert cam_id frame current_time strftime delivered w).2 in
    HalfPoop.last_notification (HalfPoop.self after) =
      HalfPoop.last_notification (HalfPoop.self w) ∨
    (delivered = true ∧
     HalfPoop.last_notification (HalfPoop.self after) = current_time ∧
     ∃ chat_id photo caption,
       HalfPoop.trace after =
         HalfPoop.trace w ++ [HalfPoop.SendPhoto chat_id photo caption true]).
Proof.
  split; [|split].
  - exists PyNone. rewrite halfpoop_send_alert_run.
    destruct (Qlt_le_dec _ _); [done|].
    by destruct (HalfPoop.arrays w !! frame ≫= Cv2.imencode ".jpg").
  - rewrite halfpoop_send_alert_run.
    destruct (Qlt_le_dec _ _); [done|].
    by destruct (HalfPoop.arrays w !! frame ≫= Cv2.imencode ".jpg").
  - intros delivered after. subst after. rewrite halfpoop_send_alert_run.
    destruct (Qlt_le_dec _ _); [by left|].
    destruct (HalfPoop.arrays w !! frame ≫= Cv2.imencode ".jpg"); [|by left].
    destruct delivered; [|by left]. right; simpl. eauto 10.
Qed.

End Dispatcher.

(** ** The frame source of tgalert3-halfpoop.py *)

Ltac run_monad :=
  unfold try_finally, try_except, lift, gets, modify, raise,
    mbind, M_bind, mret, M_ret; simpl.

Section FrameSource.
Import HalfPoop.
Context {Frame Contour : Type} {cv : Cv2.Ops Frame Contour}.
Variable urlparse_path : string → option string.
Implicit Types (w : World Frame) (cam_id url : string) (io : stream_io Frame).

Ltac count_opens :=
  unfold opens in *; simpl; rewrite ?List.filter_app, ?length_app; simpl; lia.

(** What the [try] block does, from any world. *)
Lemma open_stream_run w cam_id cam_data url io :
  cam_data !! "url" = Some url →
  let r := open_stream cam_id cam_data io w in
  (∃ rest, trace r.2 = trace w ++ [VideoCapture url] ++ rest ∧ opens rest = 0%nat) ∧
  (∀ stream, is_Some (captures w !! stream) → captures r.2 !! stream = captures w !! stream) ∧
  match connect io with
  | ConnectOpened (Some img) =>
      ∃ frame,
        r.1 = Returns (Some frame) ∧
        arrays r.2 !! frame = Some img ∧
        mjpeg_streams (self r.2) =
          <[cam_id := fresh (dom (captures w))]> (mjpeg_streams (self w)) ∧
        captures r.2 !! fresh (dom (captures w)) = Some true
  | _ => r.1 = Returns None ∧ mjpeg_streams (self r.2) = mjpeg_streams (self w)
  end.
Proof.
  intros Hurl r. subst r.
  assert (∀ stream b, is_Some (captures w !! stream) →
            <[fresh (dom (captures w)) := b]> (captures w) !! stream = captures w !! stream)
    as Hkeep.
  { intros stream b Hsome. apply lookup_insert_ne. intros Heq.
    apply (is_fresh (dom (captures w))). rewrite Heq. by apply elem_of_dom. }
  unfold open_stream, stream_read, video_capture, set_mjpeg_streams, alloc, print, emit.
  run_monad. rewrite Hurl; simpl.
  destruct (connect io) as [| |[img|]]; simpl.
  - split; [|done]. exists [Printed "Ошибка MJPEG потока"]. by rewrite <- app_assoc.
  - split; [by exists []|]. split; [|done]. intros stream Hsome. by apply Hkeep.
  - split; [|split].
    + eexists [StreamRead _]. by rewrite <- app_assoc.
    + intros stream Hsome. by apply Hkeep.
    + eexists. split; [done|]. by rewrite !lookup_insert_eq.
  - split; [|split; [|done]].
    + eexists [StreamRead _]. by rewrite <- app_assoc.
    + intros stream Hsome. by apply Hkeep.
Qed.

Lemma process_camera_streaming w cam_id cam_data url io http :
  cam_data !! "url" = Some url →
  is_mjpeg_url urlparse_path url = Some true →
  process_camera urlparse_path cam_id cam_data io http w =
  process_mjpeg_camera cam_id cam_data io w.
Proof.
  intros Hurl Hmjpeg. unfold process_camera.
  unfold try_except at 1. rewrite run_bind. unfold lift at 1. rewrite Hurl; simpl.
  rewrite Hmjpeg.
  unfold process_mjpeg_camera, open_stream, is_opened, stream_read, stream_release,
    video_capture, set_mjpeg_streams, alloc, print, emit.
  run_monad. rewrite Hurl; simpl.
  destruct (mjpeg_streams (self w) !! cam_id) as [stream|]; simpl.
  - destruct (default false (captures w !! stream)); simpl.
    + destruct (next_read io); simpl; [done|].
      destruct (connect io) as [| |[img|]]; done.
    + destruct (connect io) as [| |[img|]]; done.
  - destruct (connect io) as [| |[img|]]; done.
Qed.

(** The first [if] block of [process_mjpeg_camera]. *)
Lemma process_mjpeg_camera_run w cam_id cam_data io :
  process_mjpeg_camera cam_id cam_data io w =
  match mjpeg_streams (self w) !! cam_id with
  | Some stream =>
      if default false (captures w !! stream)
      then
        match next_read io with
        | Some img =>
            (Returns (Some (fresh (dom (arrays w)))),
             with_arrays (insert (fresh (dom (arrays w))) img)
               (with_trace (λ t, t ++ [StreamRead stream]) w))
        | None =>
            open_stream cam_id cam_data io
              (with_self (with_mjpeg_streams (delete cam_id))
                 (with_captures (insert stream false)
                    (with_trace (λ t, t ++ [StreamRelease stream])
                       (with_trace (λ t, t ++ [StreamRead stream]) w))))
        end
      else open_stream cam_id cam_data io w
  | None => open_stream cam_id cam_data io w
  end.
Proof.
  unfold process_mjpeg_camera. rewrite run_bind; simpl. rewrite run_bind.
  destruct (mjpeg_streams (self w) !! cam_id) as [stream|]; [|done].
  unfold is_opened. rewrite run_bind; simpl.
  destruct (default false (captures w !! stream)); [|done].
  unfold stream_read, stream_release, set_mjpeg_streams, alloc, emit.
  run_monad. by destruct (next_read io).
Qed.

(** C7: a fetch on a streaming endpoint never tries to open more than one
    capture. When the read on the stored capture fails, the capture is
    released and dropped from [mjpeg_streams] and the fetch tries to open a
    new capture exactly once; when that capture does not open, or its
    first read fails, the fetch returns [None] and [mjpeg_streams] has no
    capture for the camera. When there is no usable stored capture, the
    fetch tries to open one exactly once, and when that fails it returns
    [None] and leaves [mjpeg_streams] as it was. *)
Theorem stream_reconnects_once w cam_id cam_data url io http :
  cam_data !! "url" = Some url →
  is_mjpeg_url urlparse_path url = Some true →
  let r := process_camera urlparse_path cam_id cam_data io http w in
  (∃ new, trace r.2 = trace w ++ new ∧ (opens new ≤ 1)%nat) ∧
  (∀ stream,
     mjpeg_streams (self w) !! cam_id = Some stream →
     captures w !! stream = Some true →
     next_read io = None →
     captures r.2 !! stream = Some false ∧
     (∃ rest,
        trace r.2 =
          trace w ++ [StreamRead stream; StreamRelease stream; VideoCapture url] ++ rest ∧
        opens rest = 0%nat) ∧
     match connect io with
     | ConnectOpened (Some img) =>
         ∃ frame new_stream,
           r.1 = Returns (Some frame) ∧
           arrays r.2 !! frame = Some img ∧
           mjpeg_streams (self r.2) !! cam_id = Some new_stream ∧
           new_stream ≠ stream ∧
           captures r.2 !! new_stream = Some true
     | _ => r.1 = Returns None ∧ mjpeg_streams (self r.2) !! cam_id = None
     end) ∧
  ((∀ stream,
      mjpeg_streams (self w) !! cam_id = Some stream → captures w !! stream ≠ Some true) →
   (∃ rest, trace r.2 = trace w ++ [VideoCapture url] ++ rest ∧ opens rest = 0%nat) ∧
   match connect io with
   | ConnectOpened (Some img) =>
       ∃ frame new_stream,
         r.1 = Returns (Some frame) ∧
         arrays r.2 !! frame = Some img ∧
         mjpeg_streams (self r.2) !! cam_id = Some new_stream ∧
         captures r.2 !! new_stream = Some true
   | _ => r.1 = Returns None ∧ mjpeg_streams (self r.2) = mjpeg_streams (self w)
   end).
Proof.
  intros Hurl Hmjpeg r. subst r.
  rewrite (process_camera_streaming _ _ _ url) by done.
  rewrite process_mjpeg_camera_run.
  split; [|split].
  - destruct (mjpeg_streams (self w) !! cam_id) as [stream|].
    + destruct (default false (captures w !! stream)).
      * destruct (next_read io) as [img|]; simpl.
        { exists [StreamRead stream]. split; [done|]. unfold opens; simpl; lia. }
        match goal with |- context [open_stream _ _ _ ?w0] =>
          destruct (open_stream_run w0 cam_id cam_data url io Hurl) as ((rest & -> & Hrest) & _)
        end.
        simpl. eexists. split; [by rewrite <- !app_assoc|].
        count_opens.
      * destruct (open_stream_run w cam_id cam_data url io Hurl) as ((rest & -> & Hrest) & _).
        eexists. split; [done|]. count_opens.
    + destruct (open_stream_run w cam_id cam_data url io Hurl) as ((rest & -> & Hrest) & _).
      eexists. split; [done|]. count_opens.
  - intros stream Hstored Hopened Hread.
    rewrite Hstored, Hopened, Hread; simpl.
    match goal with |- context [open_stream _ _ _ ?w0] =>
      destruct (open_stream_run w0 cam_id cam_data url io Hurl)
        as ((rest & Htrace & Hrest) & Hkeep & Hresult)
    end.
    simpl in Htrace, Hkeep, Hresult.
    split; [|split].
    + rewrite Hkeep; rewrite lookup_insert_eq; eauto.
    + exists rest. split; [|done]. rewrite Htrace. by rewrite <- !app_assoc.
    + destruct (connect io) as [| |[img|]].
      * destruct Hresult as [-> ->]. by rewrite lookup_delete_eq.
      * destruct Hresult as [-> ->]. by rewrite lookup_delete_eq.
      * destruct Hresult as (frame & Hret & Hframe & Hstreams & Hcapture).
        exists frame, (fresh (dom (<[stream:=false]> (captures w)))).
        split; [done|]. split; [done|]. split; [by rewrite Hstreams, lookup_insert_eq|].
        split; [|done]. intros Heq.
        apply (is_fresh (dom (<[stream:=false]> (captures w)))).
        rewrite Heq. apply elem_of_dom. rewrite lookup_insert_eq. eauto.
      * destruct Hresult as [-> ->]. by rewrite lookup_delete_eq.
  - intros Hunusable.
    assert (process_camera_fallthrough :
      match mjpeg_streams (self w) !! cam_id with
      | Some stream =>
          if default false (captures w !! stream)
          then
            match next_read io with
            | Some img =>
                (Returns (Some (fresh (dom (arrays w)))),
                 with_arrays (insert (fresh (dom (arrays w))) img)
                   (with_trace (λ t, t ++ [StreamRead stream]) w))
            | None =>
                open_stream cam_id cam_data io
                  (with_self (with_mjpeg_streams (delete cam_id))
                     (with_captures (insert stream false)
                        (with_trace (λ t, t ++ [StreamRelease stream])
                           (with_trace (λ t, t ++ [StreamRead stream]) w))))
            end
          else open_stream cam_id cam_data io w
      | None => open_stream cam_id cam_data io w
      end = open_stream cam_id cam_data io w).
    { destruct (mjpeg_streams (self w) !! cam_id) as [stream|] eqn:Hstored; [|done].
      specialize (Hunusable stream eq_refl).
      by destruct (captures w !! stream) as [[|]|]. }
    rewrite process_camera_fallthrough.
    destruct (open_stream_run w cam_id cam_data url io Hurl) as (Htrace & _ & Hresult).
    split; [done|].
    destruct (connect io) as [| |[img|]]; try done.
    destruct Hresult as (frame & Hret & Hframe & Hstreams & Hcapture).
    exists frame, (fresh (dom (captures w))).
    split; [done|]. split; [done|]. split; [by rewrite Hstreams, lookup_insert_eq|done].
Qed.

End FrameSource.

(** ** Settings and registry of tgalert2-stable.py *)

Section Settings.
Import Stable.
Context {Frame Contour : Type} {cv : Cv2.Ops Frame Contour}.
Variable int_of_str : string → option Z.
Implicit Types (w : World Frame).



(** What [/remove] does for the operator: the configuration and the status
    of the camera go, every stored reference frame stays. *)
Lemma remove_camera_run w cam_id rest writable :
  let after := system (remove_camera (admin_chat_id (config (system w)))
                         (cam_id :: rest) writable w).2 in
  cameras (config after) !! cam_id = None ∧
  camera_status after !! cam_id =
    match cameras (config (system w)) !! cam_id with
    | Some _ => None
    | None => camera_status (system w) !! cam_id
    end ∧
  prev_frames after = prev_frames (system w).
Proof.
  unfold remove_camera, save_config, reply_text, print, emit. run_monad.
  rewrite decide_False by (intros Hne; by apply Hne).
  destruct (cameras (config (system w)) !! cam_id) as [data|] eqn:Hcam; simpl.
  - destruct writable; simpl;
      destruct (camera_status (system w) !! cam_id) eqn:Hstatus; simpl;
      rewrite ?lookup_delete_eq; done.
  - done.
Qed.

End Settings.

(** ** The executable instance satisfies the interface laws *)

Lemma omap_all_none {A B : Type} (f : A → option B) (l : list A) :
  Forall (λ x, f x = None) l → omap f l = [].
Proof. induction 1 as [|x l Hx _ IH]; simpl; [done|]. by rewrite Hx. Qed.

Lemma concat_all_nil {A : Type} (ls : list (list A)) :
  Forall (λ l, l = []) ls → concat ls = [].
Proof. induction 1 as [|l ls -> _ IH]; simpl; done. Qed.

Lemma sample_changed_blank (m : Cv2.Mat) : Cv2.all_zero m → Sample.changed m = [].
Proof.
  intros Hm. unfold Sample.changed. apply concat_all_nil.
  apply Forall_imap. intros r row Hrow.
  apply omap_all_none, Forall_imap. intros c v Hv.
  unfold Cv2.all_zero in Hm. rewrite Forall_lookup in Hm.
  specialize (Hm _ _ Hrow). rewrite Forall_lookup in Hm.
  rewrite (Hm _ _ Hv). done.
Qed.

Lemma sample_laws : Cv2.Laws Sample.ops.
Proof.
  split.
  - intros f. simpl. unfold Sample.cvtColor, Sample.frame_shape, Cv2.mat_shape.
    rewrite length_map. destruct f as [|row f]; simpl; [done|]. by rewrite length_map.
  - done.
  - intros m Hm. simpl. unfold Sample.findContours.
    by rewrite sample_changed_blank.
Qed.

(** ** The theorems at concrete systems *)

Lemma first_frame_sets_reference_witness :
  HalfPoop.arrays Examples.started !! 1%positive = Some Sample.black2 ∧
  HalfPoop.prev_frames (HalfPoop.self Examples.started) !! "cam1" = None ∧
  HalfPoop.prev_frames
    (HalfPoop.self
       (HalfPoop.calculate_motion (cv := Sample.ops) 1%positive "cam1"
          Examples.started).2) !! "cam1" =
    Some (HalfPoop.blurred_gray (cv := Sample.ops) Sample.black2).
Proof.
  split; [reflexivity|]. split; [reflexivity|].
  apply (first_frame_sets_reference (cv := Sample.ops) Examples.started 1%positive
           "cam1" Sample.black2); reflexivity.
Defined.

Lemma cooldown_gates_alerts_witness :
  (110 - HalfPoop.last_notification (HalfPoop.self Examples.alerted) <
     HalfPoop.cooldown (HalfPoop.config (HalfPoop.self Examples.alerted)))%Q ∧
  (∃ v, HalfPoop.send_alert (cv := Sample.ops) "cam1" 2%positive 110 "2026-01-01 00:01:50"
          true Examples.alerted = (Returns v, Examples.alerted) ∧
        truthy v = false) ∧
  (let second (gap : Q) :=
     (HalfPoop.send_alert (cv := Sample.ops) "cam1" 3%positive (1700000000 + gap)%Q
        "2023-11-14 22:13:30" true
        (HalfPoop.send_alert (cv := Sample.ops) "cam1" 2%positive 1700000000
           "2023-11-14 22:13:20" true Examples.started).2).2 in
   HalfPoop.deliveries (HalfPoop.trace (second 10%Q)) = 1%nat ∧
   HalfPoop.deliveries (HalfPoop.trace (second 31%Q)) = 2%nat).
Proof.
  destruct (cooldown_gates_alerts (cv := Sample.ops)) as (Hskip & _ & Htwice & _).
  assert (110 - HalfPoop.last_notification (HalfPoop.self Examples.alerted) <
            HalfPoop.cooldown (HalfPoop.config (HalfPoop.self Examples.alerted)))%Q
    as Hrecent by reflexivity.
  split; [exact Hrecent|]. split; [by apply Hskip|].
  apply (Htwice Examples.started "cam1" "cam1" 2%positive 3%positive
           Sample.half2 Sample.half2
           [255; 255; 255; 255; 255; 255; 0; 0; 0; 0; 0; 0]
           [255; 255; 255; 255; 255; 255; 0; 0; 0; 0; 0; 0]);
    first [reflexivity | by vm_compute].
Defined.

(** C4, counterexample: the reference of cam1 has shape 1x2 and the frame
    2x2; after the call the camera still has a reference, the old one, and
    not the blurred grayscale image of the new frame. *)
Lemma mismatched_reference_not_reset :
  let after :=
    (HalfPoop.calculate_motion (cv := Sample.ops) 1%positive "cam1" Examples.resized).2 in
  HalfPoop.arrays Examples.resized !! 1%positive = Some Sample.black2 ∧
  HalfPoop.prev_frames (HalfPoop.self Examples.resized) !! "cam1" = Some [[0; 0]] ∧
  Cv2.mat_shape [[0; 0]] ≠ Cv2.frame_shape (Ops := Sample.ops) Sample.black2 ∧
  HalfPoop.prev_frames (HalfPoop.self after) !! "cam1" ≠ None ∧
  HalfPoop.prev_frames (HalfPoop.self after) !! "cam1" ≠
    Some (HalfPoop.blurred_gray (cv := Sample.ops) Sample.black2).
Proof. by vm_compute. Qed.

Lemma mismatched_reference_is_kept_witness :
  HalfPoop.arrays Examples.resized !! 1%positive = Some Sample.black2 ∧
  HalfPoop.prev_frames (HalfPoop.self Examples.resized) !! "cam1" = Some [[0; 0]] ∧
  Cv2.mat_shape [[0; 0]] ≠ Cv2.frame_shape (Ops := Sample.ops) Sample.black2 ∧
  HalfPoop.prev_frames
    (HalfPoop.self
       (HalfPoop.calculate_motion (cv := Sample.ops) 1%positive "cam1"
          Examples.resized).2) !! "cam1" = Some [[0; 0]].
Proof.
  assert (Cv2.mat_shape [[0; 0]] ≠ Cv2.frame_shape (Ops := Sample.ops) Sample.black2)
    as Hshape by (by vm_compute).
  split; [reflexivity|]. split; [reflexivity|]. split; [exact Hshape|].
  apply (mismatched_reference_is_kept (laws := sample_laws) Examples.resized 1%positive
           "cam1" Sample.black2 [[0; 0]]);
    [reflexivity|reflexivity|exact Hshape].
Defined.

(** A reference of a single pixel is a mismatch like any other: against
    the half-white 2x2 frame no motion is reported and the reference
    stays. *)
Example single_pixel_reference_stays :
  let r :=
    HalfPoop.calculate_motion (cv := Sample.ops) 2%positive "cam1" Examples.single_pixel in
  r.1 = Returns (false, 2%positive) ∧
  HalfPoop.prev_frames (HalfPoop.self r.2) !! "cam1" = Some [[0]].
Proof. by vm_compute. Qed.



Lemma identical_frames_no_motion_witness :
  HalfPoop.arrays Examples.watching !! 2%positive = Some Sample.half2 ∧
  HalfPoop.arrays Examples.watching !! 3%positive = Some Sample.half2 ∧
  ∃ out,
    (HalfPoop.calculate_motion (cv := Sample.ops) 3%positive "cam1"
       (HalfPoop.calculate_motion (cv := Sample.ops) 2%positive "cam1"
          Examples.watching).2).1 = Returns (false, out).
Proof.
  split; [reflexivity|]. split; [reflexivity|].
  apply (identical_frames_no_motion (laws := sample_laws) Examples.watching
           2%positive 3%positive "cam1" Sample.half2); reflexivity.
Defined.

Lemma input_frame_never_mutated_witness :
  HalfPoop.arrays Examples.watching !! 2%positive = Some Sample.half2 ∧
  ∃ motion_detected out,
    (HalfPoop.calculate_motion (cv := Sample.ops) 2%positive "cam1"
       Examples.watching).1 = Returns (motion_detected, out) ∧
    HalfPoop.arrays
      (HalfPoop.calculate_motion (cv := Sample.ops) 2%positive "cam1"
         Examples.watching).2 !! 2%positive = Some Sample.half2.
Proof.
  split; [reflexivity|].
  destruct (input_frame_never_mutated (cv := Sample.ops) Examples.watching 2%positive
              "cam1" Sample.half2 eq_refl) as (b & out & Hret & _ & _ & Hsame & _).
  exists b, out. split; [exact Hret|exact Hsame].
Defined.

Lemma stream_reconnects_once_witness :
  Examples.cam1_data !! "url" = Some "http://10.0.0.2:8080/video.mjpg" ∧
  HalfPoop.is_mjpeg_url Sample.urlparse_path "http://10.0.0.2:8080/video.mjpg" = Some true ∧
  let r :=
    HalfPoop.process_camera Sample.urlparse_path "cam1"
      Examples.cam1_data Examples.camera_gone HalfPoop.HttpRaises Examples.streaming in
  HalfPoop.captures r.2 !! 1%positive = Some false ∧
  r.1 = Returns None ∧
  HalfPoop.mjpeg_streams (HalfPoop.self r.2) !! "cam1" = None.
Proof.
  split; [reflexivity|]. split; [reflexivity|].
  destruct (stream_reconnects_once Sample.urlparse_path
              Examples.streaming "cam1" Examples.cam1_data
              "http://10.0.0.2:8080/video.mjpg" Examples.camera_gone HalfPoop.HttpRaises
              eq_refl eq_refl) as (_ & Hfailed & _).
  destruct (Hfailed 1%positive eq_refl eq_refl eq_refl)
    as (Hclosed & _ & Hnone & Hdropped).
  split; [exact Hclosed|]. split; [exact Hnone|exact Hdropped].
Defined.


(** C6, the failing run: cam1 is registered and online, one polling cycle
    stores its frame as reference, and the operator removes cam1. The
    registry was closed before the removal; afterwards the configuration
    and the status of cam1 are gone and its reference frame is still
    stored, so the registry is no longer closed. *)
Lemma remove_camera_leaves_reference :
  Stable.registry_closed (Stable.system Examples.stable_polled) ∧
  Stable.cameras (Stable.config (Stable.system Examples.stable_removed)) !! "cam1" = None ∧
  Stable.camera_status (Stable.system Examples.stable_removed) !! "cam1" = None ∧
  Stable.prev_frames (Stable.system Examples.stable_removed) !! "cam1" =
    Some Sample.black2 ∧
  ¬ Stable.registry_closed (Stable.system Examples.stable_removed).
Proof.
  assert (Stable.prev_frames (Stable.system Examples.stable_removed) !! "cam1" =
            Some Sample.black2) as Hkept by (by vm_compute).
  assert (Stable.cameras (Stable.config (Stable.system Examples.stable_removed)) !! "cam1"
            = None) as Hgone by (by vm_compute).
  split; [|split; [exact Hgone|split; [by vm_compute|split; [exact Hkept|]]]].
  - split; intros cam_id Hin; apply elem_of_dom; apply elem_of_dom in Hin;
      destruct (decide (cam_id = "cam1")) as [->|Hne]; try (by vm_compute; eauto).
    + revert Hin. change (Stable.camera_status (Stable.system Examples.stable_polled))
        with ({[ "cam1" := true ]} : gmap string bool).
      rewrite lookup_singleton_ne by done. by intros [? ?].
    + revert Hin. change (Stable.prev_frames (Stable.system Examples.stable_polled))
        with ({[ "cam1" := Sample.black2 ]} : gmap string Sample.Bgr).
      rewrite lookup_singleton_ne by done. by intros [? ?].
  - intros [_ Hrefs]. specialize (Hrefs "cam1").
    rewrite !elem_of_dom, Hkept, Hgone in Hrefs.
    destruct Hrefs as [? ?]; [eauto|done].
Qed.

(** * Further properties *)

(** ** More on the motion detector *)

Section DetectorMore.
Import HalfPoop.
Context {Frame Contour : Type} {cv : Cv2.Ops Frame Contour}.
Implicit Types (w : World Frame) (frame : positive) (cam_id : string) (img : Frame).

(** X1: against a reference of the frame's size, motion is reported only
    when some contour of the changed regions has an area of at least
    [min_contour_area]; and it is then reported, unless drawing the
    rectangle raises (it cannot when [draw_contours] is off). *)
Theorem motion_iff_large_contour w frame cam_id img prev_gray frame_diff :
  arrays w !! frame = Some img →
  prev_frames (self w) !! cam_id = Some prev_gray →
  Cv2.absdiff prev_gray (blurred_gray img) = Some frame_diff →
  let cfg := config (self w) in
  ∃ motion_detected out,
    (calculate_motion frame cam_id w).1 = Returns (motion_detected, out) ∧
    (motion_detected = true → Exists (large_contour cfg) (contours_of frame_diff)) ∧
    (draw_contours cfg = false ∨
     (∀ img pt1 pt2,
        is_Some (Cv2.rectangle img pt1 pt2 (contour_color cfg) (contour_thickness cfg))) →
     Exists (large_contour cfg) (contours_of frame_diff) → motion_detected = true).
Proof.
  intros Hframe Hprev Hdiff cfg. subst cfg.
  rewrite calculate_motion_run, (calculate_motion_try_run _ _ _ img Hframe).
  rewrite Hprev, Hdiff; simpl.
  destruct (mark_image _ _ _ _) as [[flag|e] img'] eqn:Hmark; simpl.
  - exists flag, (fresh (dom (arrays w))). split; [done|].
    pose proof (mark_image_flag _ _ _ _ _ _ Hmark) as Hflag.
    split; [|tauto]. intros Htrue. apply Hflag in Htrue as [?|?]; done.
  - exists false, frame. split; [done|]. split; [done|].
    intros Hdraw _. exfalso.
    destruct (mark_image_raises_large _ _ _ _ _ _ Hmark) as [Hon _].
    destruct Hdraw as [Hoff|Hdrawable]; [congruence|].
    destruct (mark_image_drawable (config (self w)) (contours_of frame_diff) img false
                Hdrawable) as (? & ? & ?). congruence.
Qed.

(** X2: on a camera with a stored reference that can be compared with
    the frame, when [draw_contours] is off, or no contour is large enough,
    the detector does not end in its error handler and the array it
    returns is a new one with exactly the pixels of the frame it was
    given. *)
Theorem unannotated_copy w frame cam_id img prev_gray frame_diff :
  arrays w !! frame = Some img →
  prev_frames (self w) !! cam_id = Some prev_gray →
  Cv2.absdiff prev_gray (blurred_gray img) = Some frame_diff →
  draw_contours (config (self w)) = false ∨
    Forall (λ c, ¬ large_contour (config (self w)) c) (contours_of frame_diff) →
  ∃ motion_detected,
    (calculate_motion frame cam_id w).1 =
      Returns (motion_detected, fresh (dom (arrays w))) ∧
    fresh (dom (arrays w)) ≠ frame ∧
    arrays (calculate_motion frame cam_id w).2 !! fresh (dom (arrays w)) = Some img ∧
    trace (calculate_motion frame cam_id w).2 = trace w.
Proof.
  intros Hframe Hprev Hdiff Hquiet.
  rewrite calculate_motion_run, (calculate_motion_try_run _ _ _ img Hframe).
  rewrite Hprev, Hdiff; simpl.
  destruct (mark_image_undrawn (config (self w)) (contours_of frame_diff) img false Hquiet)
    as [flag ->]; simpl.
  exists flag. split; [done|]. split; [|by rewrite lookup_insert_eq].
  intros Heq. apply (is_fresh (dom (arrays w))). rewrite Heq.
  apply elem_of_dom; eauto.
Qed.

Lemma calculate_motion_try_dangling w frame cam_id :
  arrays w !! frame = None →
  calculate_motion_try frame cam_id w = (Raises Cv2Error, w).
Proof.
  intros Hframe. unfold calculate_motion_try, deref.
  rewrite !run_bind; simpl. by rewrite Hframe.
Qed.

(** X3: a detection pass for one camera writes nothing but the reference
    of that camera, the copy of the frame and the error line: the
    configuration, the statuses, the time of the last alert, the stored
    captures and the references of all other cameras are as before. *)
Theorem detector_writes_own_reference w frame cam_id :
  let after := (calculate_motion frame cam_id w).2 in
  config (self after) = config (self w) ∧
  camera_status (self after) = camera_status (self w) ∧
  last_notification (self after) = last_notification (self w) ∧
  mjpeg_streams (self after) = mjpeg_streams (self w) ∧
  captures after = captures w ∧
  ∀ other, other ≠ cam_id →
    prev_frames (self after) !! other = prev_frames (self w) !! other.
Proof.
  intros after. subst after. rewrite calculate_motion_run.
  destruct (arrays w !! frame) as [img|] eqn:Hframe.
  - rewrite (calculate_motion_try_run _ _ _ img Hframe).
    destruct (prev_frames (self w) !! cam_id) as [prev_gray|]; simpl.
    + destruct (Cv2.absdiff _ _) as [frame_diff|]; simpl; [|done].
      destruct (mark_image _ _ _ _) as [[flag|e] img']; simpl; [|done].
      repeat split. intros other Hother. by rewrite lookup_insert_ne.
    + repeat split. intros other Hother. by rewrite lookup_insert_ne.
  - by rewrite calculate_motion_try_dangling.
Qed.

Lemma calculate_motion_mismatch {laws : Cv2.Laws cv} w frame cam_id img prev_gray :
  arrays w !! frame = Some img →
  prev_frames (self w) !! cam_id = Some prev_gray →
  Cv2.mat_shape prev_gray ≠ Cv2.frame_shape img →
  calculate_motion frame cam_id w =
    (Returns (false, frame),
     with_trace (λ t, t ++ [Printed "Ошибка детекции движения"]) w).
Proof.
  intros Hframe Hprev Hshape.
  rewrite calculate_motion_run, (calculate_motion_try_run _ _ _ img Hframe).
  rewrite Hprev. unfold Cv2.absdiff.
  by rewrite decide_False by (by rewrite blurred_gray_shape).
Qed.

(** X4: once the reference of a camera has another size than the frames
    the camera now sends, every later frame is reported as no motion and
    neither the reference nor any array changes: the detector stays blind
    for that camera. *)
Theorem detector_stays_blind {laws : Cv2.Laws cv} frames : ∀ w cam_id prev_gray,
  prev_frames (self w) !! cam_id = Some prev_gray →
  Forall (λ frame, ∃ img,
    arrays w !! frame = Some img ∧
    Cv2.frame_shape img ≠ Cv2.mat_shape prev_gray) frames →
  (calculate_motion_each frames cam_id w).1 = Returns (replicate (length frames) false) ∧
  self (calculate_motion_each frames cam_id w).2 = self w ∧
  arrays (calculate_motion_each frames cam_id w).2 = arrays w.
Proof.
  induction frames as [|frame rest IH]; intros w cam_id prev_gray Hprev Hframes;
    simpl; [done|].
  inversion Hframes as [|?? (img & Hframe & Hshape) Hrest]; subst.
  rewrite run_bind.
  rewrite (calculate_motion_mismatch w frame cam_id img prev_gray)
    by (done || congruence).
  rewrite run_bind.
  destruct (IH (with_trace (λ t, t ++ [Printed "Ошибка детекции движения"]) w)
              cam_id prev_gray) as (Hflags & Hself & Harrays); [done|done|].
  destruct (calculate_motion_each rest cam_id _) as [[flags|e] w'];
    simpl in *; [|done].
  by injection Hflags as ->.
Qed.

End DetectorMore.

(** ** More on the alert dispatcher *)

Section DispatcherMore.
Import HalfPoop.
Context {Frame Contour : Type} {cv : Cv2.Ops Frame Contour}.
Implicit Types (w : World Frame) (frame : positive) (cam_id : string).

(** X5: [send_alert] never raises; it calls [send_photo] at most once,
    and only for the chat [admin_chat_id] with the encoded frame; and it
    leaves the configuration, the references, the arrays and the captures
    as they were. *)
Theorem alert_goes_to_admin_only w cam_id frame current_time strftime delivered :
  let r := send_alert cam_id frame current_time strftime delivered w in
  ∃ v new,
    r.1 = Returns v ∧
    trace r.2 = trace w ++ new ∧
    (new = [] ∨
     new = [Printed "Ошибка отправки уведомления"] ∨
     ∃ img photo caption,
       arrays w !! frame = Some img ∧
       Cv2.imencode ".jpg" img = Some photo ∧
       (new = [SendPhoto (admin_chat_id (config (self w))) photo caption true] ∨
        new = [SendPhoto (admin_chat_id (config (self w))) photo caption false;
               Printed "Ошибка отправки уведомления"])) ∧
    config (self r.2) = config (self w) ∧
    prev_frames (self r.2) = prev_frames (self w) ∧
    mjpeg_streams (self r.2) = mjpeg_streams (self w) ∧
    arrays r.2 = arrays w ∧
    captures r.2 = captures w.
Proof.
  intros r. subst r. rewrite halfpoop_send_alert_run.
  destruct (Qlt_le_dec _ _).
  { exists PyNone, []. rewrite app_nil_r. tauto. }
  destruct (arrays w !! frame) as [img|] eqn:Hframe; simpl.
  - destruct (Cv2.imencode ".jpg" img) as [photo|] eqn:Hphoto.
    + destruct delivered; simpl.
      * eexists PyNone, [_]. do 2 (split; [done|]). split; [|done].
        right; right. eauto 10.
      * eexists PyNone, [_; _]. split; [done|]. split; [by rewrite <- app_assoc|].
        split; [|done]. right; right. eauto 10.
    + exists PyNone, [Printed "Ошибка отправки уведомления"]. tauto.
  - exists PyNone, [Printed "Ошибка отправки уведомления"]. tauto.
Qed.

(** X6: a delivery that failed is tried again at the next motion event,
    however soon it comes: after a failed attempt that was due, any later
    attempt calls [send_photo] again. *)
Theorem failed_delivery_is_retried w cam1 cam2 frame1 frame2 img1 img2 photo1 photo2
    (t1 t2 : Q) strftime1 strftime2 delivered :
  (cooldown (config (self w)) <= t1 - last_notification (self w))%Q →
  (t1 <= t2)%Q →
  arrays w !! frame1 = Some img1 → Cv2.imencode ".jpg" img1 = Some photo1 →
  arrays w !! frame2 = Some img2 → Cv2.imencode ".jpg" img2 = Some photo2 →
  let failed := (send_alert cam1 frame1 t1 strftime1 false w).2 in
  let again := (send_alert cam2 frame2 t2 strftime2 delivered failed).2 in
  ∃ caption rest,
    trace again =
      trace failed ++
      SendPhoto (admin_chat_id (config (self w))) photo2 caption delivered :: rest ∧
    (delivered = true → last_notification (self again) = t2).
Proof.
  intros Hdue Hlater Hframe1 Hphoto1 Hframe2 Hphoto2 failed again.
  subst again failed. rewrite (halfpoop_send_alert_run w).
  destruct (Qlt_le_dec _ _) as [Hlt|_]; [by apply Qle_not_lt in Hdue|].
  rewrite Hframe1; simpl. rewrite Hphoto1; simpl.
  rewrite halfpoop_send_alert_run; simpl.
  destruct (Qlt_le_dec _ _) as [Hlt|_].
  { exfalso. apply Qlt_not_le in Hlt. apply Hlt. lra. }
  rewrite Hframe2; simpl. rewrite Hphoto2.
  destruct delivered; simpl.
  - eexists _, []. split; [done|]. done.
  - eexists _, [_]. split; [|done]. by rewrite <- !app_assoc.
Qed.

End DispatcherMore.

(** ** More on the frame source *)

Section FrameSourceMore.
Import HalfPoop.
Context {Frame Contour : Type} {cv : Cv2.Ops Frame Contour}.
Variable urlparse_path : string → option string.
Implicit Types (w : World Frame) (cam_id url : string) (io : stream_io Frame).

Ltac fetched :=
  repeat match goal with
  | |- ∃ _, _ => eexists
  | |- _ ∧ _ => split
  | |- _ = _ => by rewrite <- ?app_assoc
  | |- SendPhoto _ _ _ _ ∉ _ => by intros ?%list_elem_of_In; simpl in *; intuition
  | |- ∀ _, _ => intros
  | |- _ !! _ = _ !! _ => reflexivity || (apply lookup_insert_ne; intros <-;
        match goal with H : fresh ?X ∈ ?X |- _ => by apply is_fresh in H end)
  | |- _ ∉ _ => apply is_fresh
  | |- is_Some _ => rewrite lookup_insert_eq; eauto
  | H : Some _ = Some _ |- _ => injection H as <-
  | H : None = Some _ |- _ => discriminate H
  end.

Ltac fetch_cases cam_data io http :=
  unfold process_camera, process_jpeg_camera, process_mjpeg_camera, open_stream,
    is_opened, stream_read, stream_release, video_capture, set_mjpeg_streams, alloc,
    print, emit;
  run_monad;
  destruct (cam_data !! "url") as [url|]; simpl; [|by fetched];
  destruct (is_mjpeg_url urlparse_path url) as [[|]|]; simpl; [| |by fetched];
  [ match goal with
    | |- context [mjpeg_streams (self ?w) !! ?cam_id] =>
        destruct (mjpeg_streams (self w) !! cam_id) as [stream|]; simpl;
        [destruct (default false (captures w !! stream)); simpl;
         [destruct (next_read io); simpl; [by fetched|]|]|]
    end;
    destruct (connect io) as [| |[img|]]; simpl; by fetched
  | destruct http as [|status_code [img|]]; simpl; [by fetched|..];
    case_decide; simpl; by fetched ].

Lemma process_camera_keeps_detection_state w cam_id cam_data io http :
  ∃ result new,
    (process_camera urlparse_path cam_id cam_data io http w).1 = Returns result ∧
    trace (process_camera urlparse_path cam_id cam_data io http w).2 = trace w ++ new ∧
    (∀ chat_id photo caption delivered,
       SendPhoto chat_id photo caption delivered ∉ new) ∧
    prev_frames (self (process_camera urlparse_path cam_id cam_data io http w).2) =
      prev_frames (self w) ∧
    camera_status (self (process_camera urlparse_path cam_id cam_data io http w).2) =
      camera_status (self w) ∧
    last_notification (self (process_camera urlparse_path cam_id cam_data io http w).2) =
      last_notification (self w) ∧
    ∀ frame, result = Some frame →
      is_Some (arrays (process_camera urlparse_path cam_id cam_data io http w).2 !! frame).
Proof.
  fetch_cases cam_data io http.
Qed.

(** X7: a fetch never raises, whatever the camera entry and the network
    answer. It leaves the configuration, the references, the statuses and
    the time of the last alert as they were, calls [send_photo] not once, and writes to
    no array that existed; a frame it returns is a new array. *)
Theorem fetch_never_raises w cam_id cam_data io http :
  let r := process_camera urlparse_path cam_id cam_data io http w in
  ∃ result new,
    r.1 = Returns result ∧
    trace r.2 = trace w ++ new ∧
    (∀ chat_id photo caption delivered,
       SendPhoto chat_id photo caption delivered ∉ new) ∧
    config (self r.2) = config (self w) ∧
    prev_frames (self r.2) = prev_frames (self w) ∧
    camera_status (self r.2) = camera_status (self w) ∧
    last_notification (self r.2) = last_notification (self w) ∧
    (∀ l, l ∈ dom (arrays w) → arrays r.2 !! l = arrays w !! l) ∧
    match result with
    | Some frame => (frame ∉ dom (arrays w)) ∧ is_Some (arrays r.2 !! frame)
    | None => arrays r.2 = arrays w
    end.
Proof.
  intros r. subst r. fetch_cases cam_data io http.
Qed.

Lemma unparsable_url_is_not_fetched w cam_id cam_data url io http :
  cam_data !! "url" = Some url →
  urlparse_path url = None →
  process_camera urlparse_path cam_id cam_data io http w =
    (Returns None, with_trace (λ t, t ++ [Printed "Ошибка обработки камеры"]) w).
Proof.
  intros Hurl Hparse. unfold process_camera, is_mjpeg_url, print, emit. run_monad.
  rewrite Hurl; simpl. by rewrite Hparse.
Qed.


(** X9: while the stored capture of a camera is open and its read
    succeeds, a fetch reads from it and does nothing else: it opens no
    capture, releases none, keeps [mjpeg_streams], and returns the frame
    read as a new array. *)
Theorem stored_capture_is_reused w cam_id cam_data url io http stream img :
  cam_data !! "url" = Some url →
  is_mjpeg_url urlparse_path url = Some true →
  mjpeg_streams (self w) !! cam_id = Some stream →
  captures w !! stream = Some true →
  next_read io = Some img →
  let r := process_camera urlparse_path cam_id cam_data io http w in
  r.1 = Returns (Some (fresh (dom (arrays w)))) ∧
  arrays r.2 = <[fresh (dom (arrays w)) := img]> (arrays w) ∧
  trace r.2 = trace w ++ [StreamRead stream] ∧
  self r.2 = self w ∧
  captures r.2 = captures w.
Proof.
  intros Hurl Hmjpeg Hstored Hopened Hread r. subst r.
  rewrite (process_camera_streaming _ _ _ _ url) by done.
  rewrite process_mjpeg_camera_run, Hstored, Hopened, Hread. done.
Qed.


End FrameSourceMore.

(** ** The reachability sweep, snapshots and shutdown *)

Section SystemMore.
Import HalfPoop.
Context {Frame Contour : Type} {cv : Cv2.Ops Frame Contour}.
Variable urlparse_path : string → option string.
Implicit Types (w : World Frame) (cam_id : string) (head : string → option Z).

Lemma check_camera_status_run w cam_id cam_data (answer : option Z) :
  check_camera_status cam_id cam_data answer w =
  (Returns (),
   with_self (with_camera_status (insert cam_id (probed_online cam_data answer))) w).
Proof.
  unfold check_camera_status, set_camera_status, probed_online. run_monad.
  destruct (cam_data !! "url") as [url|]; simpl.
  - destruct answer as [status_code|]; simpl.
    + replace (bool_decide (is_Some (Some url) ∧ Some status_code = Some 200))
        with (bool_decide (status_code = 200)); [done|].
      apply bool_decide_ext. split; [intros ->; eauto|]. by intros [_ [= ->]].
    + done.
  - done.
Qed.

Lemma check_cameras_status_loop_run items head : ∀ w,
  NoDup items.*1 →
  ∃ status,
    check_cameras_status_loop items head w =
      (Returns (), with_self (with_camera_status (λ _, status)) w) ∧
    (∀ cam_id cam_data, (cam_id, cam_data) ∈ items →
       status !! cam_id = Some (probed_online cam_data (head cam_id))) ∧
    (∀ cam_id, cam_id ∉ items.*1 → status !! cam_id = camera_status (self w) !! cam_id).
Proof.
  induction items as [|[cam data] rest IH]; intros w Hnodup; simpl.
  - exists (camera_status (self w)). split; [by destruct w as [[]]|].
    split; [|done]. intros ?? Hin. by apply elem_of_nil in Hin.
  - apply NoDup_cons in Hnodup as [Hfirst Hnodup].
    rewrite run_bind, check_camera_status_run.
    destruct (IH (with_self (with_camera_status
                    (insert cam (probed_online data (head cam)))) w) Hnodup)
      as (status & -> & Hlisted & Hother).
    exists status. split; [done|]. split.
    + intros cam_id cam_data [[= -> ->]|Hin]%elem_of_cons.
      * rewrite Hother by done. simpl. by rewrite lookup_insert_eq.
      * by apply Hlisted.
    + intros cam_id [Hne Hnot]%not_elem_of_cons. rewrite Hother by done.
      simpl. by rewrite lookup_insert_ne.
Qed.

(** X12: a reachability sweep never raises. After it every registered
    camera has a status, true exactly when its entry has a url and the
    probe answered 200, whatever happened to the probes of the others;
    the status of an id that is not registered is left as it was, and
    nothing but the statuses changes. *)
Theorem sweep_sets_every_status w head :
  ∃ status,
    check_cameras_status head w =
      (Returns (), with_self (with_camera_status (λ _, status)) w) ∧
    (∀ cam_id cam_data, cameras (config (self w)) !! cam_id = Some cam_data →
       status !! cam_id = Some (probed_online cam_data (head cam_id))) ∧
    (∀ cam_id, cameras (config (self w)) !! cam_id = None →
       status !! cam_id = camera_status (self w) !! cam_id).
Proof.
  unfold check_cameras_status. rewrite run_bind; simpl.
  destruct (check_cameras_status_loop_run
              (map_to_list (cameras (config (self w)))) head w)
    as (status & Hrun & Hlisted & Hother); [apply NoDup_fst_map_to_list|].
  exists status. split; [done|]. split.
  - intros cam_id cam_data Hcam. by apply Hlisted, elem_of_map_to_list.
  - intros cam_id Hcam. apply Hother. intros Hin.
    apply list_elem_of_fmap in Hin as ([cam data] & -> & Hin).
    apply elem_of_map_to_list in Hin. simpl in Hcam. congruence.
Qed.

(** X11: a snapshot of an id that is not registered returns [None] and
    does nothing. A snapshot of a registered camera is a fetch, made
    whatever the status of the camera says; it never raises and leaves
    the reference frames, the statuses and the time of the last alert as
    they were. *)
Theorem snapshot_leaves_detection_state w cam_id io http :
  let r := get_snapshot urlparse_path cam_id io http w in
  (cameras (config (self w)) !! cam_id = None → r = (Returns None, w)) ∧
  (∀ cam_data, cameras (config (self w)) !! cam_id = Some cam_data →
     r = process_camera urlparse_path cam_id cam_data io http w) ∧
  (∃ result, r.1 = Returns result) ∧
  prev_frames (self r.2) = prev_frames (self w) ∧
  camera_status (self r.2) = camera_status (self w) ∧
  last_notification (self r.2) = last_notification (self w).
Proof.
  intros r. subst r. unfold get_snapshot. rewrite run_bind; simpl.
  destruct (cameras (config (self w)) !! cam_id) as [cam_data|]; simpl.
  - destruct (process_camera_keeps_detection_state urlparse_path w cam_id cam_data io http)
      as (result & new & Hret & _ & _ & Hrefs & Hstatus & Hlast & _).
    split; [done|]. split; [by intros ? [= <-]|]. eauto.
  - split; [done|]. split; [done|]. eauto.
Qed.

Lemma release_all_run streams : ∀ w,
  ∃ w',
    release_all streams w = (Returns (), w') ∧
    self w' = self w ∧ arrays w' = arrays w ∧
    (∀ stream, stream ∈ streams.*2 → captures w' !! stream ≠ Some true) ∧
    (∀ stream, stream ∉ streams.*2 → captures w' !! stream = captures w !! stream) ∧
    (∀ stream, captures w !! stream ≠ Some true → captures w' !! stream ≠ Some true).
Proof.
  induction streams as [|[cam first] rest IH]; intros w; simpl.
  - exists w. repeat split; try done. intros ? Hin. by apply elem_of_nil in Hin.
  - unfold is_opened, stream_release, emit. run_monad.
    set (w1 := if default false (captures w !! first)
               then with_captures (insert first false)
                      (with_trace (λ t, t ++ [StreamRelease first]) w)
               else w).
    assert (self w1 = self w ∧ arrays w1 = arrays w ∧
            captures w1 !! first ≠ Some true ∧
            (∀ stream, stream ≠ first → captures w1 !! stream = captures w !! stream) ∧
            (∀ stream, captures w !! stream ≠ Some true →
               captures w1 !! stream ≠ Some true)) as (Hself & Harrays & Hfirst & Hrest & Hclosed).
    { subst w1. destruct (captures w !! first) as [[|]|] eqn:Hopen; simpl.
      - repeat split; [by rewrite lookup_insert_eq|
          by intros; rewrite lookup_insert_ne|]. intros stream Hstream.
        destruct (decide (stream = first)) as [->|];
          [by rewrite lookup_insert_eq|by rewrite lookup_insert_ne].
      - repeat split; [by rewrite Hopen|done].
      - repeat split; [by rewrite Hopen|done]. }
    destruct (IH w1) as (w' & Hrun & Hself' & Harrays' & Hlisted & Hother & Hkeep).
    exists w'. split.
    { subst w1. destruct (default false (captures w !! first)); simpl; by rewrite Hrun. }
    split; [congruence|]. split; [congruence|]. split; [|split].
    + intros stream [->|Hin]%elem_of_cons; [by apply Hkeep|by apply Hlisted].
    + intros stream [Hne Hnot]%not_elem_of_cons. rewrite Hother by done. by apply Hrest.
    + intros stream Hstream. by apply Hkeep, Hclosed.
Qed.

(** X13: [cleanup] never raises; afterwards [mjpeg_streams] is empty and
    no capture it held is open; a capture that no entry of [mjpeg_streams]
    held is left as it was. *)
Theorem cleanup_closes_stored_captures w :
  ∃ w',
    cleanup w = (Returns (), w') ∧
    mjpeg_streams (self w') = ∅ ∧
    (∀ cam_id stream, mjpeg_streams (self w) !! cam_id = Some stream →
       captures w' !! stream ≠ Some true) ∧
    (∀ stream, (∀ cam_id, mjpeg_streams (self w) !! cam_id ≠ Some stream) →
       captures w' !! stream = captures w !! stream) ∧
    prev_frames (self w') = prev_frames (self w) ∧
    arrays w' = arrays w.
Proof.
  unfold cleanup, set_mjpeg_streams. run_monad.
  destruct (release_all_run (map_to_list (mjpeg_streams (self w))) w)
    as (w' & -> & Hself & Harrays & Hlisted & Hother & _).
  eexists. split; [done|]. simpl. split; [done|]. split; [|split].
  - intros cam_id stream Hstored. apply Hlisted.
    apply list_elem_of_fmap. exists (cam_id, stream). split; [done|].
    by apply elem_of_map_to_list.
  - intros stream Hfree. apply Hother. intros Hin.
    apply list_elem_of_fmap in Hin as ([cam held] & -> & Hin).
    apply elem_of_map_to_list in Hin. by apply (Hfree cam).
  - by rewrite Hself.
Qed.

End SystemMore.

(** ** The polling cycle of tgalert3-halfpoop.py *)

Section CycleMore.
Import HalfPoop.
Context {Frame Contour : Type} {cv : Cv2.Ops Frame Contour}.
Variable urlparse_path : string → option string.
Implicit Types (w : World Frame) (cam_id : string) (env : string → camera_env Frame).

Lemma calculate_motion_returns w frame cam_id :
  ∃ detection, (calculate_motion frame cam_id w).1 = Returns detection.
Proof.
  rewrite calculate_motion_run.
  destruct (calculate_motion_try frame cam_id w) as [[detection|e] w']; eauto.
Qed.

Lemma halfpoop_send_alert_returns w cam_id frame current_time strftime delivered :
  ∃ v, (send_alert cam_id frame current_time strftime delivered w).1 = Returns v.
Proof.
  rewrite halfpoop_send_alert_run.
  destruct (Qlt_le_dec _ _); [by eexists|].
  destruct (arrays w !! frame) as [img|]; simpl; [|by eexists].
  destruct (Cv2.imencode ".jpg" img); [|by eexists].
  destruct delivered; by eexists.
Qed.

Lemma check_cameras_status_returns w head :
  ∃ status,
    check_cameras_status head w =
      (Returns (), with_self (with_camera_status (λ _, status)) w) ∧
    ∀ cam_id cam_data, cameras (config (self w)) !! cam_id = Some cam_data →
      status !! cam_id = Some (probed_online cam_data (head cam_id)).
Proof.
  unfold check_cameras_status. rewrite run_bind; simpl.
  destruct (check_cameras_status_loop_run
              (map_to_list (cameras (config (self w)))) head w)
    as (status & Hrun & Hlisted & _); [apply NoDup_fst_map_to_list|].
  exists status. split; [done|].
  intros cam_id cam_data Hcam. by apply Hlisted, elem_of_map_to_list.
Qed.

Lemma check_motion_camera_returns w cam_id cam_data (e : camera_env Frame) :
  (check_motion_camera urlparse_path cam_id cam_data e w).1 = Returns ().
Proof.
  unfold check_motion_camera. rewrite run_bind; simpl.
  destruct (default false (camera_status (self w) !! cam_id)); [|done].
  rewrite run_bind.
  destruct (process_camera_keeps_detection_state urlparse_path w cam_id cam_data
              (env_stream e) (env_http e)) as (result & new & Hret & _).
  destruct (process_camera _ _ _ _ _ w) as [fetched w1]; simpl in Hret; subst fetched.
  destruct result as [frame|]; [|done].
  rewrite run_bind.
  destruct (calculate_motion_returns w1 frame cam_id) as ([motion out] & Hdetect).
  destruct (calculate_motion frame cam_id w1) as [detection w2];
    simpl in Hdetect; subst detection.
  destruct motion; [|done].
  rewrite run_bind.
  destruct (halfpoop_send_alert_returns w2 cam_id out (env_time e) (env_strftime e)
              (env_delivered e)) as (v & Hsent).
  destruct (send_alert _ _ _ _ _ w2) as [sent w3]; simpl in Hsent; by subst sent.
Qed.

Lemma check_motion_loop_returns items env : ∀ w,
  (check_motion_loop urlparse_path items env w).1 = Returns ().
Proof.
  induction items as [|[cam data] rest IH]; intros w; simpl; [done|].
  rewrite run_bind.
  pose proof (check_motion_camera_returns w cam data (env cam)) as Hstep.
  destruct (check_motion_camera _ _ _ _ w) as [r w1]; simpl in Hstep; subst r.
  apply IH.
Qed.

(** X14: one pass of the polling loop never raises, whatever cameras are
    listed and whatever the probes, the fetches and Telegram answer: no
    failure for one camera ends the loop or the pass over the others. *)
Theorem cycle_never_raises w items env :
  (check_motion_cycle urlparse_path items env w).1 = Returns ().
Proof.
  unfold check_motion_cycle. rewrite run_bind.
  destruct (check_cameras_status_returns w (λ cam_id, env_head (env cam_id)))
    as (status & -> & _).
  rewrite run_bind; simpl.
  destruct (motion_enabled (config (self w))); [|done].
  apply check_motion_loop_returns.
Qed.

Lemma check_motion_loop_offline items env : ∀ w,
  (∀ cam_id cam_data, (cam_id, cam_data) ∈ items →
     default false (camera_status (self w) !! cam_id) = false) →
  check_motion_loop urlparse_path items env w = (Returns (), w).
Proof.
  induction items as [|[cam data] rest IH]; intros w Hoffline; simpl; [done|].
  rewrite run_bind. unfold check_motion_camera at 1. rewrite run_bind; simpl.
  rewrite (Hoffline cam data) by apply list_elem_of_here.
  apply IH. intros cam_id cam_data Hin. apply (Hoffline cam_id cam_data).
  by apply list_elem_of_further.
Qed.

(** X15: when motion detection is switched off, or when no listed camera
    answers its probe with 200, a pass of the polling loop is the
    reachability sweep and nothing more: no frame is fetched, no reference
    is written, no alert is sent. *)
Theorem idle_cycle_only_sweeps w items env :
  motion_enabled (config (self w)) = false ∨
  (∀ cam_id cam_data, (cam_id, cam_data) ∈ items →
     cameras (config (self w)) !! cam_id = Some cam_data ∧
     probed_online cam_data (env_head (env cam_id)) = false) →
  check_motion_cycle urlparse_path items env w =
  check_cameras_status (λ cam_id, env_head (env cam_id)) w.
Proof.
  intros Hidle. unfold check_motion_cycle. rewrite run_bind.
  destruct (check_cameras_status_returns w (λ cam_id, env_head (env cam_id)))
    as (status & -> & Hlisted).
  rewrite run_bind; simpl.
  destruct Hidle as [->|Hoffline]; [done|].
  destruct (motion_enabled (config (self w))); [|done].
  apply check_motion_loop_offline. intros cam_id cam_data Hin; simpl.
  destruct (Hoffline cam_id cam_data Hin) as [Hcam Hprobe].
  by rewrite (Hlisted cam_id cam_data Hcam), Hprobe.
Qed.

(** X16: the first frame of a camera never raises an alert: for a camera
    without a reference, one pass of the loop body calls [send_photo] not
    once and leaves the time of the last alert as it was, whatever the
    frame shows. *)
Theorem first_frame_never_alerts w cam_id cam_data (e : camera_env Frame) :
  prev_frames (self w) !! cam_id = None →
  let r := check_motion_camera urlparse_path cam_id cam_data e w in
  ∃ new,
    r.1 = Returns () ∧
    trace r.2 = trace w ++ new ∧
    (∀ chat_id photo caption delivered,
       SendPhoto chat_id photo caption delivered ∉ new) ∧
    last_notification (self r.2) = last_notification (self w).
Proof.
  intros Hprev r. subst r.
  unfold check_motion_camera. rewrite run_bind; simpl.
  destruct (default false (camera_status (self w) !! cam_id)).
  2:{ exists []. rewrite app_nil_r. split; [done|]. split; [done|]. split; [|done].
      intros ???? Hin. by apply elem_of_nil in Hin. }
  rewrite run_bind.
  destruct (process_camera_keeps_detection_state urlparse_path w cam_id cam_data
              (env_stream e) (env_http e))
    as (result & new & Hret & Htrace & Hquiet & Hrefs & _ & Hlast & Hframe).
  destruct (process_camera _ _ _ _ _ w) as [fetched w1]; simpl in *; subst fetched.
  destruct result as [frame|]; [|by exists new].
  destruct (Hframe frame eq_refl) as [img Himg].
  rewrite run_bind.
  rewrite calculate_motion_run, (calculate_motion_try_run _ _ _ img Himg).
  rewrite Hrefs, Hprev. simpl. exists new. by rewrite Hlast.
Qed.

End CycleMore.

(** ** The detector and the polling loop of tgalert2-stable.py *)

Ltac run_stable :=
  unfold Stable.detect_and_alert, Stable.calculate_motion, Stable.send_alert,
    Stable.imwrite, Stable.open_rb, Stable.path_exists, Stable.remove,
    Stable.send_photo, Stable.save_config, Stable.reply_text, Stable.print,
    Stable.emit;
  run_monad.

Section StableDetector.
Import Stable.
Context {Frame Contour : Type} {cv : Cv2.Ops Frame Contour}.
Implicit Types (w : World Frame) (cam_id : string) (frame : Frame).

Lemma np_sum_threshold (diff : Cv2.Mat) :
  np_sum (Cv2.threshold diff 25 255) =
  255 * Z.of_nat (length (List.filter (λ v, 25 <? v) (concat diff))).
Proof.
  unfold np_sum, Cv2.threshold.
  induction diff as [|row diff IH]; simpl; [done|].
  rewrite foldr_app, List.filter_app, length_app, Nat2Z.inj_add, Z.mul_add_distr_l.
  rewrite <- IH. clear IH.
  generalize (foldr Z.add 0 (concat (map (map (λ v, if 25 <? v then 255 else 0)) diff))).
  intros rest. induction row as [|v row IH]; simpl; [lia|].
  rewrite IH. destruct (25 <? v); simpl; lia.
Qed.

Lemma stable_calculate_motion_run w (prev_frame current_frame : Frame) diff :
  Cv2.absdiff (Cv2.cvtColor prev_frame) (Cv2.cvtColor current_frame) = Some diff →
  calculate_motion prev_frame current_frame w =
    (Returns (255 * Z.of_nat (length (List.filter (λ v, 25 <? v) (concat diff)))), w).
Proof.
  intros Hdiff. unfold calculate_motion. run_monad. rewrite Hdiff; simpl.
  by rewrite np_sum_threshold.
Qed.

(** X17: the motion score of the first revision is 255 times the number
    of pixels whose gray values differ by more than 25; it lies between 0
    and 255 times the number of pixels. *)
Theorem motion_score_counts_pixels w (prev_frame current_frame : Frame) diff :
  Cv2.absdiff (Cv2.cvtColor prev_frame) (Cv2.cvtColor current_frame) = Some diff →
  let changed := length (List.filter (λ v, 25 <? v) (concat diff)) in
  calculate_motion prev_frame current_frame w = (Returns (255 * Z.of_nat changed), w) ∧
  0 ≤ 255 * Z.of_nat changed ≤ 255 * Z.of_nat (length (concat diff)).
Proof.
  intros Hdiff changed. subst changed. split.
  - by apply stable_calculate_motion_run.
  - pose proof (List.filter_length_le (λ v, 25 <? v) (concat diff)). lia.
Qed.

(** X18: polling a scene that has not changed changes nothing: when the
    frame fetched equals the stored frame of the camera and the threshold
    is not negative, [detect_and_alert] returns with the whole system as
    it was, no file written and no alert attempted. *)
Theorem unchanged_scene_is_silent w cam_id frame current_time
    writable removable delivered :
  prev_frames (system w) !! cam_id = Some frame →
  0 ≤ threshold (config (system w)) →
  detect_and_alert cam_id frame current_time writable removable delivered w =
    (Returns (), w).
Proof.
  intros Hprev Hthreshold.
  destruct (absdiff_self (Cv2.cvtColor frame)) as (diff & Hdiff & Hzero).
  unfold detect_and_alert. rewrite !run_bind; simpl. rewrite Hprev.
  rewrite !run_bind.
  rewrite (stable_calculate_motion_run w frame frame diff Hdiff).
  rewrite run_bind; simpl.
  assert (List.filter (λ v : Z, 25 <? v) (concat diff) = []) as ->.
  { clear Hdiff. induction Hzero as [|row diff Hrow _ IH]; simpl; [done|].
    rewrite List.filter_app, IH, app_nil_r.
    clear IH. induction Hrow as [|v row -> _ IH]; simpl; done. }
  match goal with |- context [?a <? ?b] =>
    replace (a <? b) with false by (symmetry; apply Z.ltb_ge; simpl; lia)
  end.
  unfold modify; simpl. f_equal.
  destruct w as [[cfg refs status last] file fs tr]; simpl in *.
  unfold with_system, with_prev_frames; simpl. by rewrite insert_id.
Qed.

Lemma stable_absdiff_mismatch {laws : Cv2.Laws cv} (prev_frame current_frame : Frame) :
  Cv2.frame_shape prev_frame ≠ Cv2.frame_shape current_frame →
  Cv2.absdiff (Cv2.cvtColor prev_frame) (Cv2.cvtColor current_frame) = None.
Proof.
  intros Hshape. unfold Cv2.absdiff.
  by rewrite decide_False by (by rewrite !Cv2.cvtColor_shape).
Qed.

(** X19: the first revision has no handler around its detector: when a
    camera sends a frame of another size than its stored frame,
    [detect_and_alert] raises [cv2.error] and changes nothing, and so does
    the pass of the polling loop that fetched the frame: the cameras
    listed after it are not visited. *)
Theorem resized_camera_stops_the_loop {laws : Cv2.Laws cv} w cam_id cam_data url
    (prev_frame current_frame : Frame) rest (env : string → camera_env Frame) :
  prev_frames (system w) !! cam_id = Some prev_frame →
  Cv2.frame_shape prev_frame ≠ Cv2.frame_shape current_frame →
  camera_status (system w) !! cam_id = Some true →
  cam_data !! "url" = Some url →
  env_http (env cam_id) = HalfPoop.HttpResponse 200 (Some current_frame) →
  detect_and_alert cam_id current_frame (env_time (env cam_id))
    (env_writable (env cam_id)) (env_removable (env cam_id))
    (env_delivered (env cam_id)) w = (Raises Cv2Error, w) ∧
  check_motion_loop ((cam_id, cam_data) :: rest) env w = (Raises Cv2Error, w).
Proof.
  intros Hprev Hshape Honline Hurl Hhttp.
  assert (detect_and_alert cam_id current_frame (env_time (env cam_id))
            (env_writable (env cam_id)) (env_removable (env cam_id))
            (env_delivered (env cam_id)) w =
          (Raises Cv2Error, w)) as Hraises.
  { unfold detect_and_alert, calculate_motion. run_monad. rewrite Hprev; simpl.
    by rewrite stable_absdiff_mismatch. }
  split; [done|]. simpl. rewrite run_bind.
  unfold check_motion_camera, process_camera. run_monad.
  rewrite Honline; simpl. rewrite Hurl; simpl. rewrite Hhttp; simpl.
  fold (@mbind _ (@M_bind (World Frame))).
  by rewrite Hraises.
Qed.

End StableDetector.

(** ** The alert files, the commands and the registry of tgalert2-stable.py *)

Section StableCommands.
Import Stable.
Context {Frame Contour : Type} {cv : Cv2.Ops Frame Contour}.
Variable int_of_str : string → option Z.
Implicit Types (w : World Frame) (cam_id chat_id : string) (frame : Frame).

(** X20: an alert attempt that is due and whose frame encodes touches no
    file but [alert_<cam_id>.jpg]. When the file could be written, the
    photo sent is the encoded frame; when it could not, an older file of
    that name is sent in its place, and without one nothing is sent and
    the attempt returns. After a photo was sent the file is unlinked: when
    that succeeds the attempt returns and the file is gone; when
    [os.remove] fails the attempt raises [OSError], with the file still
    there, after the photo went out and the time of the last alert was
    set. The time of the last alert changes only when the photo was
    accepted. *)
Theorem alert_file_removed_or_raises w cam_id frame buffer current_time
    writable removable delivered :
  (cooldown (config (system w)) <= current_time - last_notification (system w))%Q →
  Cv2.imencode ".jpg" frame = Some buffer →
  let alert_file := "alert_" +:+ cam_id +:+ ".jpg" in
  let r := send_alert cam_id frame current_time writable removable delivered w in
  config (system r.2) = config (system w) ∧
  prev_frames (system r.2) = prev_frames (system w) ∧
  config_file r.2 = config_file w ∧
  (∀ path, path ≠ alert_file → files r.2 !! path = files w !! path) ∧
  match (if writable then Some buffer else files w !! alert_file) with
  | Some photo =>
      trace r.2 =
        trace w ++
        SendPhoto (admin_chat_id (config (system w))) photo
          ("⚠️ Движение на камере " +:+ cam_id) delivered ::
        (if delivered then [] else [Printed "Ошибка отправки"]) ∧
      last_notification (system r.2) =
        (if delivered then current_time else last_notification (system w)) ∧
      (if removable
       then r.1 = Returns PyNone ∧ files r.2 !! alert_file = None
       else r.1 = Raises OSError ∧ files r.2 !! alert_file = Some photo)
  | None =>
      r.1 = Returns PyNone ∧
      files r.2 = files w ∧
      trace r.2 = trace w ++ [Printed "Ошибка отправки"] ∧
      last_notification (system r.2) = last_notification (system w)
  end.
Proof.
  intros Hdue Hbuffer alert_file r. subst r alert_file. run_stable.
  destruct (Qlt_le_dec _ _) as [Hlt|_]; [by apply Qle_not_lt in Hdue|].
  rewrite Hbuffer; simpl.
  destruct writable; simpl.
  - rewrite lookup_insert_eq; simpl.
    destruct delivered; simpl;
      (rewrite bool_decide_eq_true_2 by (rewrite lookup_insert_eq; eauto)); simpl;
      destruct removable; simpl;
      (do 3 (split; [done|]); split;
       [intros path Hpath;
        by rewrite ?lookup_delete_ne, lookup_insert_ne by done|]);
      rewrite <- ?app_assoc, ?lookup_delete_eq, ?lookup_insert_eq; done.
  - destruct (files w !! _) as [photo|] eqn:Hfile; simpl.
    + destruct delivered; simpl;
        (rewrite bool_decide_eq_true_2 by eauto); simpl;
        destruct removable; simpl;
        (do 3 (split; [done|]); split;
         [intros path Hpath; by rewrite ?lookup_delete_ne by done|]);
        rewrite <- ?app_assoc, ?lookup_delete_eq; done.
    + rewrite bool_decide_eq_false_2 by (rewrite Hfile; by intros [? ?]). simpl.
      done.
Qed.

Lemma stable_send_alert_cases w cam_id frame current_time writable removable delivered :
  let r := send_alert cam_id frame current_time writable removable delivered w in
  r = (Raises Cv2Error, w) ∨
  (r.1 = Returns PyNone ∧ prev_frames (system r.2) = prev_frames (system w)) ∨
  (r.1 = Raises OSError ∧ removable = false ∧
   prev_frames (system r.2) = prev_frames (system w)).
Proof.
  clear int_of_str. intros r. subst r.
  destruct (Qlt_le_dec (current_time - last_notification (system w))
              (cooldown (config (system w)))) as [Hrecent|Hdue].
  { right; left. by rewrite stable_send_alert_skips. }
  destruct (Cv2.imencode ".jpg" frame) as [buffer|] eqn:Hbuffer.
  - right. run_stable.
    destruct (Qlt_le_dec _ _) as [Hlt|_]; [by apply Qle_not_lt in Hdue|].
    rewrite Hbuffer; simpl.
    destruct writable; simpl.
    + rewrite lookup_insert_eq; simpl.
      destruct delivered; simpl;
        (rewrite bool_decide_eq_true_2 by (rewrite lookup_insert_eq; eauto)); simpl;
        destruct removable; simpl; tauto.
    + destruct (files w !! _) as [photo|] eqn:Hfile; simpl.
      * destruct delivered; simpl; (rewrite bool_decide_eq_true_2 by eauto); simpl;
          destruct removable; simpl; tauto.
      * rewrite bool_decide_eq_false_2 by (rewrite Hfile; by intros [? ?]).
        simpl. tauto.
  - left. run_stable.
    destruct (Qlt_le_dec _ _) as [Hlt|_]; [by apply Qle_not_lt in Hdue|].
    by rewrite Hbuffer.
Qed.

(** X21: whenever [detect_and_alert] returns, the frame it was given is
    the stored frame of the camera, whether an alert was sent, skipped or
    refused; on a camera without a stored frame it stores the frame and
    attempts no alert. Whenever it raises, the frame has not been stored
    and the stored frames are as before: it raises [cv2.error] with
    nothing changed at all, or the [OSError] of an [os.remove] that
    failed. *)
Theorem stable_reference_follows_frame w cam_id frame current_time
    writable removable delivered :
  let r := detect_and_alert cam_id frame current_time writable removable delivered w in
  match r.1 with
  | Returns _ => prev_frames (system r.2) = <[cam_id := frame]> (prev_frames (system w))
  | Raises e =>
      prev_frames (system r.2) = prev_frames (system w) ∧
      ((e = Cv2Error ∧ r.2 = w) ∨ (e = OSError ∧ removable = false))
  end ∧
  (prev_frames (system w) !! cam_id = None →
   r = (Returns (), with_system (with_prev_frames (insert cam_id frame)) w)).
Proof.
  intros r. subst r. unfold detect_and_alert, calculate_motion. run_monad.
  destruct (prev_frames (system w) !! cam_id) as [prev_frame|]; simpl; [|done].
  split; [|done].
  destruct (Cv2.absdiff _ _) as [diff|]; simpl; [|by eauto].
  destruct (_ <? _); simpl; [|done].
  destruct (stable_send_alert_cases w cam_id frame current_time writable removable
              delivered) as [->|[[Hret Hrefs]|(Hret & Hremovable & Hrefs)]];
    [simpl; by eauto| |].
  - destruct (send_alert _ _ _ _ _ _ w) as [sent w']; simpl in *; subst sent.
    simpl. by rewrite Hrefs.
  - destruct (send_alert _ _ _ _ _ _ w) as [sent w']; simpl in *; subst sent.
    simpl. by eauto.
Qed.

(** X22: the commands obey the operator only: sent from a chat other than
    [admin_chat_id], [/start], [/add], [/remove], [/sensitivity] and
    [/motion] answer nothing and change nothing. *)
Theorem commands_ignore_strangers w chat_id args writable :
  chat_id ≠ admin_chat_id (config (system w)) →
  start chat_id w = (Returns (), w) ∧
  add_camera chat_id args writable w = (Returns Returned, w) ∧
  remove_camera chat_id args writable w = (Returns (), w) ∧
  set_sensitivity_command int_of_str chat_id args writable w = (Returns (), w) ∧
  toggle_motion chat_id args writable w = (Returns (), w).
Proof.
  intros Hstranger.
  unfold start, add_camera, remove_camera, set_sensitivity_command, toggle_motion.
  rewrite !run_bind; simpl. rewrite !decide_True by done. done.
Qed.

End StableCommands.

Section StableSettings.
Import Stable.
Context {Frame Contour : Type} {cv : Cv2.Ops Frame Contour}.
Variable int_of_str : string → option Z.
Implicit Types (w : World Frame) (cam_id chat_id : string).

Ltac run_commands :=
  unfold start, add_camera, remove_camera, set_sensitivity_command, toggle_motion,
    toggle_motion_detection, set_sensitivity, int, save_config, reply_text, print, emit;
  run_monad.

(** X23: while the configuration file can be written, it follows the
    configuration in memory: if the two agree before [set_sensitivity],
    [toggle_motion_detection] or one of the commands [/add], [/remove],
    [/sensitivity], [/motion], they agree after it, whatever the command
    was given. *)
Theorem config_file_follows_config w chat_id args (v : arg) (state : bool) :
  synced w →
  synced (set_sensitivity int_of_str v true w).2 ∧
  synced (toggle_motion_detection state true w).2 ∧
  synced (add_camera chat_id args true w).2 ∧
  synced (remove_camera chat_id args true w).2 ∧
  synced (set_sensitivity_command int_of_str chat_id args true w).2 ∧
  synced (toggle_motion chat_id args true w).2.
Proof.
  unfold synced. intros Hsynced. split_and!.
  - run_commands. destruct v as [n|s]; simpl.
    + by case_decide.
    + destruct (int_of_str s) as [n|]; simpl; [by case_decide|done].
  - by run_commands.
  - run_commands. case_decide; [done|].
    destruct args as [|cam_name [|cam_url more]]; by simpl.
  - run_commands. case_decide; [done|].
    destruct args as [|cam_id rest]; simpl; [done|].
    destruct (cameras (config (system w)) !! cam_id); simpl; [|done].
    by destruct (camera_status (system w) !! cam_id).
  - run_commands. case_decide; [done|].
    destruct args as [|arg rest]; simpl; [done|].
    destruct (int_of_str arg) as [n|]; simpl; [|done].
    by case_decide.
  - run_commands. case_decide; [done|].
    destruct args as [|arg rest]; simpl; [done|].
    by case_decide.
Qed.

(** X24: [/add] from the operator with a name and a url registers the
    camera, with empty user and password unless given, and saves the
    configuration; it then ends in [AttributeError], because the system
    has no [check_camera]: no status is recorded for the camera and no
    answer is sent. *)
Theorem add_camera_registers_then_fails w cam_name cam_url more writable :
  let r := add_camera (admin_chat_id (config (system w))) (cam_name :: cam_url :: more)
             writable w in
  r.1 = Returns (AttributeError "check_camera") ∧
  cameras (config (system r.2)) !! cam_name =
    Some {[ "url" := cam_url;
            "user" := default "" (more !! 0%nat);
            "password" := default "" (more !! 1%nat) ]} ∧
  (∀ other, other ≠ cam_name →
     cameras (config (system r.2)) !! other = cameras (config (system w)) !! other) ∧
  camera_status (system r.2) = camera_status (system w) ∧
  prev_frames (system r.2) = prev_frames (system w) ∧
  (writable = true → config_file r.2 = Some (config (system r.2))) ∧
  trace r.2 = trace w ++ (if writable then [] else [Printed "Ошибка сохранения конфига"]).
Proof.
  intros r. subst r. run_commands.
  rewrite decide_False by (intros Hne; by apply Hne).
  destruct writable; simpl; rewrite lookup_insert_eq, ?app_nil_r.
  - split_and!; try done.
    intros other Hother. by rewrite lookup_insert_ne.
  - split_and!; try done.
    intros other Hother. by rewrite lookup_insert_ne.
Qed.

(** X25: [/remove] keeps the statuses within the registry: if every id
    with a status is registered before the command, so it is after it,
    whoever sent the command and whatever its arguments; and for an id
    that is not registered the command only answers. *)
Theorem remove_camera_keeps_status_registered w chat_id args writable :
  dom (camera_status (system w)) ⊆ dom (cameras (config (system w))) →
  let after := (remove_camera chat_id args writable w).2 in
  dom (camera_status (system after)) ⊆ dom (cameras (config (system after))) ∧
  (∀ cam_id rest, args = cam_id :: rest →
     cameras (config (system w)) !! cam_id = None →
     system after = system w ∧ config_file after = config_file w).
Proof.
  intros Hclosed after. subst after. run_commands.
  case_decide; simpl; [by split|].
  destruct args as [|cam_id rest]; simpl; [by split|].
  destruct (cameras (config (system w)) !! cam_id) as [cam_data|] eqn:Hcam; simpl.
  - split; [|intros ?? [= <- <-] Hnone; congruence].
    destruct writable; simpl;
      destruct (camera_status (system w) !! cam_id) eqn:Hstatus; simpl;
      rewrite ?dom_delete_L; intros x Hx; apply elem_of_difference.
    + apply elem_of_difference in Hx as [Hx Hne]. split; [by apply Hclosed|done].
    + split; [by apply Hclosed|]. intros ->%elem_of_singleton.
      by apply not_elem_of_dom in Hstatus.
    + apply elem_of_difference in Hx as [Hx Hne]. split; [by apply Hclosed|done].
    + split; [by apply Hclosed|]. intros ->%elem_of_singleton.
      by apply not_elem_of_dom in Hstatus.
  - split; [done|]. by intros ?? [= <- <-].
Qed.

(** X26: [/sensitivity <arg>] from the operator: an argument that is not
    a number is answered with a request for a number and changes nothing;
    a number outside 1000..100000 is answered with the valid range and
    changes nothing; a number inside is stored as the threshold and
    answered with its decimal writing. *)
Theorem sensitivity_command_answers w arg rest writable :
  let r := set_sensitivity_command int_of_str (admin_chat_id (config (system w)))
             (arg :: rest) writable w in
  r.1 = Returns () ∧
  match int_of_str arg with
  | None =>
      r.2 = with_trace (λ t, t ++ [ReplyText "Введите числовое значение!"]) w
  | Some n =>
      if decide (1000 ≤ n ≤ 100000)
      then
        threshold (config (system r.2)) = n ∧
        last (trace r.2) =
          Some (ReplyText ("Порог чувствительности изменён на " +:+ pretty n))
      else
        r.2 = with_trace
                (λ t, t ++ [ReplyText
                   "Недопустимое значение! Допустимый диапазон: 1000-100000"]) w
  end.
Proof.
  intros r. subst r. run_commands.
  rewrite decide_False by (intros Hne; by apply Hne).
  destruct (int_of_str arg) as [n|]; simpl; [|done].
  case_decide; simpl; [|done].
  destruct writable; simpl; by rewrite last_snoc.
Qed.

(** X27: [/motion <arg>] from the operator reads its argument without
    regard to case: an argument that is "on" or "off" in lower case sets
    [motion_enabled] accordingly and saves; any other argument is answered
    with the usage line and changes nothing. *)
Theorem motion_command_ignores_case w arg rest writable :
  let r := toggle_motion (admin_chat_id (config (system w))) (arg :: rest) writable w in
  r.1 = Returns () ∧
  (lower arg = "on" → motion_enabled (config (system r.2)) = true) ∧
  (lower arg = "off" → motion_enabled (config (system r.2)) = false) ∧
  (lower arg ≠ "on" → lower arg ≠ "off" →
   r.2 = with_trace (λ t, t ++ [ReplyText "Используйте: /motion on|off"]) w).
Proof.
  intros r. subst r. run_commands.
  rewrite decide_False by (intros Hne; by apply Hne).
  case_decide as Hstate; simpl.
  - split; [by destruct writable|].
    split; [|split].
    + intros ->. by destruct writable.
    + intros ->. by destruct writable.
    + intros Hon Hoff. exfalso.
      apply elem_of_cons in Hstate as [?|Hstate]; [done|].
      by apply list_elem_of_singleton in Hstate.
  - split; [done|]. split; [|split]; [| |done].
    + intros Hon. exfalso. apply Hstate. rewrite Hon. apply list_elem_of_here.
    + intros Hoff. exfalso. apply Hstate. rewrite Hoff.
      apply list_elem_of_further, list_elem_of_here.
Qed.

End StableSettings.

(** ** The polling cycle of tgalert2-stable.py *)

Section StableCycle.
Import Stable.
Context {Frame Contour : Type} {cv : Cv2.Ops Frame Contour}.
Implicit Types (w : World Frame) (cam_id : string) (env : string → camera_env Frame).

Lemma stable_check_cameras_status_loop_run items (head : string → option Z) : ∀ w,
  ∃ status,
    check_cameras_status_loop items head w =
      (Returns (), with_system (with_camera_status (λ _, status)) w).
Proof.
  induction items as [|[cam data] rest IH]; intros w; simpl.
  - exists (camera_status (system w)). by destruct w as [[]].
  - rewrite run_bind.
    assert (∃ online, check_camera_status cam data (head cam) w =
              (Returns (), with_system (with_camera_status (insert cam online)) w))
      as [online ->].
    { unfold check_camera_status. run_monad.
      destruct (data !! "url"); simpl; [|by eexists].
      destruct (head cam); simpl; by eexists. }
    destruct (IH (with_system (with_camera_status (insert cam online)) w))
      as [status ->].
    by exists status.
Qed.

Lemma stable_process_camera_run w cam_id cam_data http :
  ∃ result, process_camera cam_id cam_data http w = (Returns result, w).
Proof.
  unfold process_camera. run_monad.
  destruct (cam_data !! "url"); simpl; [|by eexists].
  destruct http as [|status_code decoded]; simpl; [by eexists|].
  case_decide; by eexists.
Qed.

Lemma detect_and_alert_cases w cam_id frame current_time writable removable delivered :
  let r := detect_and_alert cam_id frame current_time writable removable delivered w in
  (r.1 = Returns () ∧
   prev_frames (system r.2) = <[cam_id := frame]> (prev_frames (system w))) ∨
  ((r.1 = Raises Cv2Error ∨ (r.1 = Raises OSError ∧ removable = false)) ∧
   is_Some (prev_frames (system w) !! cam_id)).
Proof.
  intros r. subst r. unfold detect_and_alert, calculate_motion. run_monad.
  destruct (prev_frames (system w) !! cam_id) as [prev_frame|]; simpl; [|by left].
  destruct (Cv2.absdiff _ _) as [diff|]; simpl; [|right; eauto].
  destruct (_ <? _); simpl; [|by left].
  destruct (stable_send_alert_cases w cam_id frame current_time writable removable
              delivered) as [->|[[Hret Hrefs]|(Hret & Hremovable & Hrefs)]];
    [right; eauto| |].
  - destruct (send_alert _ _ _ _ _ _ w) as [sent w']; simpl in *; subst sent.
    simpl. left. by rewrite Hrefs.
  - destruct (send_alert _ _ _ _ _ _ w) as [sent w']; simpl in *; subst sent.
    simpl. right. eauto.
Qed.

Lemma stable_check_motion_camera_cases w cam_id cam_data (e : camera_env Frame) :
  let r := check_motion_camera cam_id cam_data e w in
  (r.1 = Returns () ∧
   ∀ other, other ≠ cam_id →
     prev_frames (system r.2) !! other = prev_frames (system w) !! other) ∨
  ((r.1 = Raises Cv2Error ∨ (r.1 = Raises OSError ∧ env_removable e = false)) ∧
   is_Some (prev_frames (system w) !! cam_id)).
Proof.
  intros r. subst r. unfold check_motion_camera. rewrite run_bind; simpl.
  destruct (default false (camera_status (system w) !! cam_id)); [|by left].
  rewrite run_bind.
  destruct (stable_process_camera_run w cam_id cam_data (env_http e)) as [result ->].
  destruct result as [frame|]; [|by left].
  destruct (detect_and_alert_cases w cam_id frame (env_time e) (env_writable e)
              (env_removable e) (env_delivered e)) as [[Hret Hrefs]|Hraises].
  - left. split; [done|]. intros other Hother. rewrite Hrefs.
    by apply lookup_insert_ne.
  - by right.
Qed.

Lemma stable_check_motion_loop_cases items env : ∀ w,
  (check_motion_loop items env w).1 = Returns () ∨
  (check_motion_loop items env w).1 = Raises Cv2Error ∨
  ((check_motion_loop items env w).1 = Raises OSError ∧
   ∃ cam_id cam_data, (cam_id, cam_data) ∈ items ∧ env_removable (env cam_id) = false).
Proof.
  induction items as [|[cam data] rest IH]; intros w; simpl; [by left|].
  rewrite run_bind.
  destruct (stable_check_motion_camera_cases w cam data (env cam))
    as [[Hret _]|[[Hraises|[Hraises Hremovable]] _]].
  - destruct (check_motion_camera cam data (env cam) w) as [r w1];
      simpl in Hret; subst r.
    destruct (IH w1) as [?|[?|[? (cam_id & cam_data & Hin & ?)]]]; [tauto|tauto|].
    right; right. split; [done|]. exists cam_id, cam_data.
    split; [by apply list_elem_of_further|done].
  - destruct (check_motion_camera cam data (env cam) w) as [r w1];
      simpl in Hraises; subst r. tauto.
  - destruct (check_motion_camera cam data (env cam) w) as [r w1];
      simpl in Hraises; subst r.
    right; right. split; [done|]. exists cam, data.
    split; [apply list_elem_of_here|done].
Qed.

(** X28: as long as the registry is not changed while the pass runs, a
    pass of the polling loop of the first revision returns, or raises
    [cv2.error], or raises the [OSError] of an [os.remove] that failed for
    one of the listed cameras: probes and fetches that fail, a file that
    cannot be written and a photo that is refused never end the loop. *)
Theorem stable_cycle_failures w items env :
  let r := check_motion_cycle items env w in
  r.1 = Returns () ∨
  r.1 = Raises Cv2Error ∨
  (r.1 = Raises OSError ∧
   ∃ cam_id cam_data, (cam_id, cam_data) ∈ items ∧ env_removable (env cam_id) = false).
Proof.
  intros r. subst r.
  unfold check_motion_cycle, check_cameras_status. rewrite !run_bind; simpl.
  destruct (stable_check_cameras_status_loop_run
              (map_to_list (cameras (config (system w))))
              (λ cam_id, env_head (env cam_id)) w) as [status ->].
  rewrite run_bind; simpl.
  destruct (motion_enabled (config (system w))); [|by left].
  apply stable_check_motion_loop_cases.
Qed.

Lemma stable_check_motion_loop_first_pass items env : ∀ w,
  NoDup items.*1 →
  (∀ cam_id, cam_id ∈ items.*1 → prev_frames (system w) !! cam_id = None) →
  (check_motion_loop items env w).1 = Returns ().
Proof.
  induction items as [|[cam data] rest IH]; intros w Hnodup Hfirst; simpl; [done|].
  apply NoDup_cons in Hnodup as [Hcam Hnodup].
  rewrite run_bind.
  destruct (stable_check_motion_camera_cases w cam data (env cam))
    as [[Hret Hrefs]|[_ [prev Hprev]]].
  - destruct (check_motion_camera cam data (env cam) w) as [r w1];
      simpl in *; subst r.
    apply IH; [done|]. intros cam_id Hin.
    rewrite Hrefs by (intros ->; done).
    apply Hfirst. by apply list_elem_of_further.
  - rewrite (Hfirst cam) in Hprev by apply list_elem_of_here. done.
Qed.

(** X29: the first pass over cameras never raises in the first revision:
    when each camera is listed once and none of the listed cameras has a
    stored frame, a pass of the polling loop returns, whatever the cameras
    send. *)
Theorem stable_first_pass_returns w items env :
  NoDup items.*1 →
  (∀ cam_id, cam_id ∈ items.*1 → prev_frames (system w) !! cam_id = None) →
  (check_motion_cycle items env w).1 = Returns ().
Proof.
  intros Hnodup Hfirst.
  unfold check_motion_cycle, check_cameras_status. rewrite !run_bind; simpl.
  destruct (stable_check_cameras_status_loop_run
              (map_to_list (cameras (config (system w))))
              (λ cam_id, env_head (env cam_id)) w) as [status ->].
  rewrite run_bind; simpl.
  destruct (motion_enabled (config (system w))); [|done].
  by apply stable_check_motion_loop_first_pass.
Qed.

(** X30: a snapshot in the first revision reads and never writes: it
    returns with the system as it was, whatever the status of the camera
    says, and it returns a frame exactly when the camera is registered,
    its entry has a url, and the answer to the GET has status 200 and a
    body that decodes to that frame. *)
Theorem stable_snapshot_is_read_only w cam_id http :
  ∃ result,
    get_snapshot cam_id http w = (Returns result, w) ∧
    ∀ frame,
      result = Some frame ↔
      (∃ cam_data, cameras (config (system w)) !! cam_id = Some cam_data ∧
                   is_Some (cam_data !! "url")) ∧
      http = HalfPoop.HttpResponse 200 (Some frame).
Proof.
  unfold get_snapshot, process_camera. run_monad.
  destruct (cameras (config (system w)) !! cam_id) as [cam_data|]; simpl.
  - destruct (cam_data !! "url") as [url|] eqn:Hurl; simpl.
    + destruct http as [|status_code decoded]; simpl.
      * eexists. split; [done|]. intros frame. split; [done|]. by intros [_ ?].
      * case_decide as Hcode; simpl.
        -- eexists. split; [done|]. intros frame. split; [done|].
           intros [_ [= -> _]]. done.
        -- subst status_code.
           eexists. split; [done|]. intros frame. split.
           ++ intros [= <-]. split; [|done]. exists cam_data. by rewrite Hurl.
           ++ by intros [_ [= ->]].
    + eexists. split; [done|]. intros frame. split; [done|].
      intros [(? & [= <-] & [? ?]) _]. congruence.
  - eexists. split; [done|]. intros frame. split; [done|].
    by intros [(? & ? & _) _].
Qed.

End StableCycle.

(** ** The further properties at concrete systems *)

Lemma motion_iff_large_contour_witness :
  HalfPoop.arrays Examples.watching !! 2%positive = Some Sample.half2 ∧
  HalfPoop.prev_frames (HalfPoop.self Examples.watching) !! "cam1" =
    Some [[0; 0]; [0; 0]] ∧
  Cv2.absdiff [[0; 0]; [0; 0]] (HalfPoop.blurred_gray (cv := Sample.ops) Sample.half2) =
    Some [[255; 255]; [0; 0]] ∧
  ∃ motion_detected out,
    (HalfPoop.calculate_motion (cv := Sample.ops) 2%positive "cam1"
       Examples.watching).1 = Returns (motion_detected, out) ∧
    (motion_detected = true →
     Exists (HalfPoop.large_contour (cv := Sample.ops) Examples.small_config)
       (HalfPoop.contours_of (cv := Sample.ops) [[255; 255]; [0; 0]])).
Proof.
  split; [reflexivity|]. split; [reflexivity|]. split; [reflexivity|].
  destruct (motion_iff_large_contour (cv := Sample.ops) Examples.watching 2%positive
              "cam1" Sample.half2 [[0; 0]; [0; 0]] [[255; 255]; [0; 0]]
              eq_refl eq_refl eq_refl) as (b & out & Hret & Honly & _).
  exists b, out. split; [exact Hret|exact Honly].
Defined.

Lemma unannotated_copy_witness :
  HalfPoop.arrays Scenarios.undrawn !! 2%positive = Some Sample.half2 ∧
  HalfPoop.prev_frames (HalfPoop.self Scenarios.undrawn) !! "cam1" =
    Some [[0; 0]; [0; 0]] ∧
  Cv2.absdiff [[0; 0]; [0; 0]] (HalfPoop.blurred_gray (cv := Sample.ops) Sample.half2) =
    Some [[255; 255]; [0; 0]] ∧
  HalfPoop.draw_contours (HalfPoop.config (HalfPoop.self Scenarios.undrawn)) = false ∧
  HalfPoop.contours_of (cv := Sample.ops) [[255; 255]; [0; 0]] ≠ [] ∧
  ∃ motion_detected,
    (HalfPoop.calculate_motion (cv := Sample.ops) 2%positive "cam1"
       Scenarios.undrawn).1 =
      Returns (motion_detected, fresh (dom (HalfPoop.arrays Scenarios.undrawn))) ∧
    HalfPoop.arrays
      (HalfPoop.calculate_motion (cv := Sample.ops) 2%positive "cam1"
         Scenarios.undrawn).2 !! fresh (dom (HalfPoop.arrays Scenarios.undrawn)) =
      Some Sample.half2.
Proof.
  split; [reflexivity|]. split; [reflexivity|]. split; [reflexivity|].
  split; [reflexivity|]. split; [by vm_compute|].
  destruct (unannotated_copy (cv := Sample.ops) Scenarios.undrawn 2%positive "cam1"
              Sample.half2 [[0; 0]; [0; 0]] [[255; 255]; [0; 0]] eq_refl eq_refl eq_refl
              (or_introl eq_refl)) as (b & Hret & _ & Hcopy & _).
  exists b. split; [exact Hret|exact Hcopy].
Defined.

(** In that run the contour counts as motion, and the copy returned has
    no rectangle drawn into it. *)
Example undrawn_motion_is_reported :
  (HalfPoop.calculate_motion (cv := Sample.ops) 2%positive "cam1"
     Scenarios.undrawn).1 = Returns (true, 4%positive).
Proof. by vm_compute. Qed.

Lemma detector_stays_blind_witness :
  HalfPoop.prev_frames (HalfPoop.self Examples.resized) !! "cam1" = Some [[0; 0]] ∧
  Forall (λ frame, ∃ img,
    HalfPoop.arrays Examples.resized !! frame = Some img ∧
    Cv2.frame_shape (Ops := Sample.ops) img ≠ Cv2.mat_shape [[0; 0]])
    [1%positive; 2%positive] ∧
  (HalfPoop.calculate_motion_each (cv := Sample.ops) [1%positive; 2%positive] "cam1"
     Examples.resized).1 = Returns [false; false].
Proof.
  assert (Forall (λ frame, ∃ img,
    HalfPoop.arrays Examples.resized !! frame = Some img ∧
    Cv2.frame_shape (Ops := Sample.ops) img ≠ Cv2.mat_shape [[0; 0]])
    [1%positive; 2%positive]) as Hframes.
  { repeat apply Forall_cons_2; [| |apply Forall_nil_2].
    - exists Sample.black2. split; [reflexivity|by vm_compute].
    - exists Sample.half2. split; [reflexivity|by vm_compute]. }
  split; [reflexivity|]. split; [exact Hframes|].
  apply (detector_stays_blind (laws := sample_laws) [1%positive; 2%positive]
           Examples.resized "cam1" [[0; 0]] eq_refl Hframes).
Defined.

Lemma failed_delivery_is_retried_witness :
  (HalfPoop.cooldown (HalfPoop.config (HalfPoop.self Examples.started)) <=
     1700000000 - HalfPoop.last_notification (HalfPoop.self Examples.started))%Q ∧
  (1700000000 <= 1700000005)%Q ∧
  let failed :=
    (HalfPoop.send_alert (cv := Sample.ops) "cam1" 2%positive 1700000000
       "2023-11-14 22:13:20" false Examples.started).2 in
  let again :=
    (HalfPoop.send_alert (cv := Sample.ops) "cam1" 3%positive 1700000005
       "2023-11-14 22:13:25" true failed).2 in
  ∃ caption rest,
    HalfPoop.trace again =
      HalfPoop.trace failed ++
      HalfPoop.SendPhoto "42" [255; 255; 255; 255; 255; 255; 0; 0; 0; 0; 0; 0]
        caption true :: rest ∧
    (true = true → HalfPoop.last_notification (HalfPoop.self again) = 1700000005%Q).
Proof.
  assert (HalfPoop.cooldown (HalfPoop.config (HalfPoop.self Examples.started)) <=
            1700000000 - HalfPoop.last_notification (HalfPoop.self Examples.started))%Q
    as Hdue by (by vm_compute).
  assert (1700000000 <= 1700000005)%Q as Hlater by (by vm_compute).
  split; [exact Hdue|]. split; [exact Hlater|].
  apply (failed_delivery_is_retried (cv := Sample.ops) Examples.started "cam1" "cam1"
           2%positive 3%positive Sample.half2 Sample.half2
           [255; 255; 255; 255; 255; 255; 0; 0; 0; 0; 0; 0]
           [255; 255; 255; 255; 255; 255; 0; 0; 0; 0; 0; 0]
           1700000000 1700000005 "2023-11-14 22:13:20" "2023-11-14 22:13:25" true
           Hdue Hlater); reflexivity.
Defined.


(** A url that [urlparse] rejects is neither fetched nor opened. *)
Example malformed_url_is_not_fetched :
  Sample.urlparse_path "http://[10.0.0.3/snap.jpg" = None ∧
  HalfPoop.process_camera Sample.urlparse_path "cam2"
    {[ "url" := "http://[10.0.0.3/snap.jpg" ]} Examples.camera_gone
    (HalfPoop.HttpResponse 200 (Some Sample.half2)) Examples.started =
  (Returns None,
   HalfPoop.with_trace (λ t, t ++ [HalfPoop.Printed "Ошибка обработки камеры"])
     Examples.started).
Proof. split; by vm_compute. Qed.

Lemma stored_capture_is_reused_witness :
  Examples.cam1_data !! "url" = Some "http://10.0.0.2:8080/video.mjpg" ∧
  HalfPoop.is_mjpeg_url Sample.urlparse_path "http://10.0.0.2:8080/video.mjpg" = Some true ∧
  HalfPoop.mjpeg_streams (HalfPoop.self Examples.streaming) !! "cam1" = Some 1%positive ∧
  HalfPoop.captures Examples.streaming !! 1%positive = Some true ∧
  let r :=
    HalfPoop.process_camera Sample.urlparse_path "cam1" Examples.cam1_data
      Scenarios.camera_live HalfPoop.HttpRaises Examples.streaming in
  HalfPoop.trace r.2 = HalfPoop.trace Examples.streaming ++ [HalfPoop.StreamRead 1%positive] ∧
  HalfPoop.self r.2 = HalfPoop.self Examples.streaming ∧
  HalfPoop.captures r.2 = HalfPoop.captures Examples.streaming.
Proof.
  split; [reflexivity|]. split; [reflexivity|]. split; [reflexivity|].
  split; [reflexivity|].
  destruct (stored_capture_is_reused Sample.urlparse_path Examples.streaming "cam1"
              Examples.cam1_data "http://10.0.0.2:8080/video.mjpg" Scenarios.camera_live
              HalfPoop.HttpRaises 1%positive Sample.half2
              eq_refl eq_refl eq_refl eq_refl eq_refl)
    as (_ & _ & Htrace & Hself & Hcaptures).
  split; [exact Htrace|]. split; [exact Hself|exact Hcaptures].
Defined.


Lemma idle_cycle_only_sweeps_witness :
  (∀ cam_id cam_data, (cam_id, cam_data) ∈ [("cam1", Examples.cam1_data)] →
     HalfPoop.cameras (HalfPoop.config (HalfPoop.self Examples.started)) !! cam_id =
       Some cam_data ∧
     HalfPoop.probed_online cam_data
       (HalfPoop.env_head Scenarios.unreachable) = false) ∧
  HalfPoop.check_motion_cycle (cv := Sample.ops) Sample.urlparse_path
    [("cam1", Examples.cam1_data)] (λ _, Scenarios.unreachable) Examples.started =
  HalfPoop.check_cameras_status (λ _, None) Examples.started.
Proof.
  assert (∀ cam_id cam_data, (cam_id, cam_data) ∈ [("cam1", Examples.cam1_data)] →
     HalfPoop.cameras (HalfPoop.config (HalfPoop.self Examples.started)) !! cam_id =
       Some cam_data ∧
     HalfPoop.probed_online cam_data
       (HalfPoop.env_head Scenarios.unreachable) = false) as Hoffline.
  { intros cam_id cam_data Hin. apply list_elem_of_singleton in Hin.
    injection Hin as -> ->. split; reflexivity. }
  split; [exact Hoffline|].
  apply (idle_cycle_only_sweeps (cv := Sample.ops) Sample.urlparse_path Examples.started
           [("cam1", Examples.cam1_data)] (λ _, Scenarios.unreachable)
           (or_intror Hoffline)).
Defined.

Lemma first_frame_never_alerts_witness :
  HalfPoop.prev_frames (HalfPoop.self Examples.started) !! "cam1" = None ∧
  let r :=
    HalfPoop.check_motion_camera (cv := Sample.ops) Sample.urlparse_path "cam1"
      Examples.cam1_data Scenarios.reachable Examples.started in
  ∃ new,
    r.1 = Returns () ∧
    HalfPoop.trace r.2 = HalfPoop.trace Examples.started ++ new ∧
    (∀ chat_id photo caption delivered,
       HalfPoop.SendPhoto chat_id photo caption delivered ∉ new) ∧
    HalfPoop.last_notification (HalfPoop.self r.2) =
      HalfPoop.last_notification (HalfPoop.self Examples.started).
Proof.
  split; [reflexivity|].
  apply (first_frame_never_alerts (cv := Sample.ops) Sample.urlparse_path
           Examples.started "cam1" Examples.cam1_data Scenarios.reachable eq_refl).
Defined.

Lemma motion_score_counts_pixels_witness :
  Cv2.absdiff (Cv2.cvtColor (Ops := Sample.ops) Sample.black2)
    (Cv2.cvtColor (Ops := Sample.ops) Sample.half2) = Some [[255; 255]; [0; 0]] ∧
  Stable.calculate_motion (cv := Sample.ops) Sample.black2 Sample.half2
    Examples.stable_started = (Returns 510, Examples.stable_started).
Proof.
  split; [reflexivity|].
  apply (motion_score_counts_pixels (cv := Sample.ops) Examples.stable_started
           Sample.black2 Sample.half2 [[255; 255]; [0; 0]] eq_refl).
Defined.

Lemma unchanged_scene_is_silent_witness :
  Stable.prev_frames (Stable.system Examples.stable_polled) !! "cam1" =
    Some Sample.black2 ∧
  0 ≤ Stable.threshold (Stable.config (Stable.system Examples.stable_polled)) ∧
  Stable.detect_and_alert (cv := Sample.ops) "cam1" Sample.black2 1700000005 true false
    true Examples.stable_polled = (Returns (), Examples.stable_polled).
Proof.
  assert (Stable.prev_frames (Stable.system Examples.stable_polled) !! "cam1" =
            Some Sample.black2) as Hprev by (by vm_compute).
  assert (0 ≤ Stable.threshold (Stable.config (Stable.system Examples.stable_polled)))
    as Hthreshold by (by vm_compute).
  split; [exact Hprev|]. split; [exact Hthreshold|].
  apply (unchanged_scene_is_silent (cv := Sample.ops) Examples.stable_polled "cam1"
           Sample.black2 1700000005 true false true Hprev Hthreshold).
Defined.

Lemma resized_camera_stops_the_loop_witness :
  Stable.prev_frames (Stable.system Examples.stable_polled) !! "cam1" =
    Some Sample.black2 ∧
  Cv2.frame_shape (Ops := Sample.ops) Sample.black2 ≠
    Cv2.frame_shape (Ops := Sample.ops) Sample.black_row ∧
  Stable.camera_status (Stable.system Examples.stable_polled) !! "cam1" = Some true ∧
  Scenarios.stable_cam1 !! "url" = Some "http://10.0.0.2/snap.jpg" ∧
  Stable.check_motion_loop (cv := Sample.ops)
    [("cam1", Scenarios.stable_cam1); ("cam2", Scenarios.stable_cam1)]
    (λ _, Scenarios.stable_resized) Examples.stable_polled =
    (Raises Cv2Error, Examples.stable_polled).
Proof.
  assert (Stable.prev_frames (Stable.system Examples.stable_polled) !! "cam1" =
            Some Sample.black2) as Hprev by (by vm_compute).
  assert (Cv2.frame_shape (Ops := Sample.ops) Sample.black2 ≠
            Cv2.frame_shape (Ops := Sample.ops) Sample.black_row) as Hshape
    by (by vm_compute).
  assert (Stable.camera_status (Stable.system Examples.stable_polled) !! "cam1" =
            Some true) as Honline by (by vm_compute).
  split; [exact Hprev|]. split; [exact Hshape|]. split; [exact Honline|].
  split; [reflexivity|].
  apply (resized_camera_stops_the_loop (laws := sample_laws) Examples.stable_polled
           "cam1" Scenarios.stable_cam1 "http://10.0.0.2/snap.jpg"
           Sample.black2 Sample.black_row [("cam2", Scenarios.stable_cam1)]
           (λ _, Scenarios.stable_resized) Hprev Hshape);
    [exact Honline|reflexivity|reflexivity].
Defined.

Lemma alert_file_removed_or_raises_witness :
  (Stable.cooldown (Stable.config (Stable.system Examples.stable_started)) <=
     1700000000 - Stable.last_notification (Stable.system Examples.stable_started))%Q ∧
  Cv2.imencode (Ops := Sample.ops) ".jpg" Sample.half2 =
    Some [255; 255; 255; 255; 255; 255; 0; 0; 0; 0; 0; 0] ∧
  (let r :=
     Stable.send_alert (cv := Sample.ops) "cam1" Sample.half2 1700000000 true true true
       Examples.stable_started in
   r.1 = Returns PyNone ∧ Stable.files r.2 !! "alert_cam1.jpg" = None) ∧
  (let r :=
     Stable.send_alert (cv := Sample.ops) "cam1" Sample.half2 1700000000 true false true
       Examples.stable_started in
   r.1 = Raises OSError ∧
   Stable.files r.2 !! "alert_cam1.jpg" =
     Some [255; 255; 255; 255; 255; 255; 0; 0; 0; 0; 0; 0] ∧
   Stable.last_notification (Stable.system r.2) = 1700000000%Q).
Proof.
  assert (Stable.cooldown (Stable.config (Stable.system Examples.stable_started)) <=
            1700000000 - Stable.last_notification (Stable.system Examples.stable_started))%Q
    as Hdue by (by vm_compute).
  split; [exact Hdue|]. split; [reflexivity|]. split.
  - destruct (alert_file_removed_or_raises (cv := Sample.ops) Examples.stable_started
                "cam1" Sample.half2 [255; 255; 255; 255; 255; 255; 0; 0; 0; 0; 0; 0]
                1700000000 true true true Hdue eq_refl)
      as (_ & _ & _ & _ & _ & _ & Hret & Hgone).
    split; [exact Hret|exact Hgone].
  - destruct (alert_file_removed_or_raises (cv := Sample.ops) Examples.stable_started
                "cam1" Sample.half2 [255; 255; 255; 255; 255; 255; 0; 0; 0; 0; 0; 0]
                1700000000 true false true Hdue eq_refl)
      as (_ & _ & _ & _ & _ & Hlast & Hraises & Hkept).
    split; [exact Hraises|]. split; [exact Hkept|exact Hlast].
Defined.

Lemma commands_ignore_strangers_witness :
  "7" ≠ Stable.admin_chat_id (Stable.config (Stable.system Examples.stable_started)) ∧
  Stable.remove_camera "7" ["cam1"] true Examples.stable_started =
    (Returns (), Examples.stable_started) ∧
  Stable.set_sensitivity_command Sample.int_of_str "7" ["5000"] true
    Examples.stable_started = (Returns (), Examples.stable_started).
Proof.
  assert ("7" ≠ Stable.admin_chat_id (Stable.config (Stable.system Examples.stable_started)))
    as Hstranger by (by vm_compute).
  split; [exact Hstranger|].
  split.
  - destruct (commands_ignore_strangers Sample.int_of_str Examples.stable_started "7"
                ["cam1"] true Hstranger) as (_ & _ & Hremove & _).
    exact Hremove.
  - destruct (commands_ignore_strangers Sample.int_of_str Examples.stable_started "7"
                ["5000"] true Hstranger) as (_ & _ & _ & Hsensitivity & _).
    exact Hsensitivity.
Defined.

Lemma config_file_follows_config_witness :
  Stable.synced Examples.stable_started ∧
  Stable.synced (Stable.remove_camera "42" ["cam1"] true Examples.stable_started).2 ∧
  Stable.synced
    (Stable.set_sensitivity_command Sample.int_of_str "42" ["5000"] true
       Examples.stable_started).2.
Proof.
  assert (Stable.synced Examples.stable_started) as Hsynced by reflexivity.
  split; [exact Hsynced|].
  split.
  - destruct (config_file_follows_config Sample.int_of_str Examples.stable_started "42"
                ["cam1"] (Stable.IntArg 5000) false Hsynced) as (_ & _ & _ & Hremove & _).
    exact Hremove.
  - destruct (config_file_follows_config Sample.int_of_str Examples.stable_started "42"
                ["5000"] (Stable.IntArg 5000) false Hsynced)
      as (_ & _ & _ & _ & Hsensitivity & _).
    exact Hsensitivity.
Defined.

Lemma remove_camera_keeps_status_registered_witness :
  dom (Stable.camera_status (Stable.system Examples.stable_started)) ⊆
    dom (Stable.cameras (Stable.config (Stable.system Examples.stable_started))) ∧
  let after := (Stable.remove_camera "42" ["cam1"] true Examples.stable_started).2 in
  dom (Stable.camera_status (Stable.system after)) ⊆
    dom (Stable.cameras (Stable.config (Stable.system after))).
Proof.
  assert (dom (Stable.camera_status (Stable.system Examples.stable_started)) ⊆
            dom (Stable.cameras (Stable.config (Stable.system Examples.stable_started))))
    as Hclosed.
  { change (Stable.camera_status (Stable.system Examples.stable_started))
      with ({[ "cam1" := true ]} : gmap string bool).
    change (Stable.cameras (Stable.config (Stable.system Examples.stable_started)))
      with ({[ "cam1" := Scenarios.stable_cam1 ]} : gmap string (gmap string string)).
    by rewrite !dom_singleton_L. }
  split; [exact Hclosed|].
  destruct (remove_camera_keeps_status_registered Examples.stable_started "42" ["cam1"]
              true Hclosed) as [Hafter _].
  exact Hafter.
Defined.

Lemma stable_first_pass_returns_witness :
  NoDup [("cam1", Scenarios.stable_cam1)].*1 ∧
  (∀ cam_id, cam_id ∈ [("cam1", Scenarios.stable_cam1)].*1 →
     Stable.prev_frames (Stable.system Examples.stable_started) !! cam_id = None) ∧
  (Stable.check_motion_cycle (cv := Sample.ops) [("cam1", Scenarios.stable_cam1)]
     (λ _, Scenarios.stable_resized) Examples.stable_started).1 = Returns ().
Proof.
  assert (NoDup [("cam1", Scenarios.stable_cam1)].*1) as Hnodup.
  { apply NoDup_singleton. }
  assert (∀ cam_id, cam_id ∈ [("cam1", Scenarios.stable_cam1)].*1 →
            Stable.prev_frames (Stable.system Examples.stable_started) !! cam_id = None)
    as Hfirst.
  { intros cam_id _. apply lookup_empty. }
  split; [exact Hnodup|]. split; [exact Hfirst|].
  apply (stable_first_pass_returns (cv := Sample.ops) Examples.stable_started
           [("cam1", Scenarios.stable_cam1)] (λ _, Scenarios.stable_resized)
           Hnodup Hfirst).
Defined.
